(** * SmartTransit backend: routing and estimation core of [backend/app.py]

    A shallow embedding of the stop resolver ([_match_stop]), the connection
    finder ([find_route_between]), the nearest-stop ranking
    ([get_nearest_stops]), the ETA estimator ([smart_eta]) and the live-bus
    registry ([update_bus_location], [update_passengers], [update_bus_status],
    [start_trip], [end_trip]), followed by the properties of these functions.

    Conventions of the embedding.
    - Python [str] values are [string]s of ASCII characters: the catalog is
      ASCII, and [lower]/[upper]/[strip]/[split] are given on that range.
    - Python [float]s are read as real numbers ([R]); [round], [int] and the
      [math] functions are the exact real operations, and a number of a
      response is read as the decimal number it stands for.  Where a float
      computation can land on the other side of a rounding tie than the exact
      one, the properties speak of the returned numbers only.  The ValueError
      of [math.sqrt] in [haversine] is part of [haversine_checked] and
      [get_nearest_stops_checked], which take the float value of [a] as a
      parameter; with its exact value they are [haversine] and
      [get_nearest_stops].
    - Python [int]s are [Z]; the column [passenger_count] holds 64-bit
      integers, and a commit of a larger one fails.
    - A Python [set] has no specified iteration order.  Every place where the
      source iterates over [set(a) & set(b)] or takes [list(...)[0]] of it goes
      through the class [SetOrder], so results hold for every iteration order.
    - The [live_buses] table is a finite map keyed by [bus_reg] (its primary
      key); [datetime.utcnow()] and [datetime.now().hour] are inputs. *)

From Stdlib Require Import Reals Lra Lia ZArith String Ascii List Bool.
From Stdlib Require Import Permutation Sorted.
From stdpp Require Import gmap strings.
Import ListNotations.

Local Open Scope string_scope.
Local Open Scope list_scope.
Local Open Scope Z_scope.

(** ** Python text primitives (ASCII range) *)

Module PyStr.

Definition in_range (lo hi : nat) (c : ascii) : bool :=
  (lo <=? nat_of_ascii c)%nat && (nat_of_ascii c <=? hi)%nat.

(** [str.lower] and [str.upper], character by character. *)
Definition lower_char (c : ascii) : ascii :=
  if in_range 65 90 c then ascii_of_nat (nat_of_ascii c + 32) else c.

Definition upper_char (c : ascii) : ascii :=
  if in_range 97 122 c then ascii_of_nat (nat_of_ascii c - 32) else c.

Fixpoint lower (s : string) : string :=
  match s with
  | EmptyString => EmptyString
  | String c s' => String (lower_char c) (lower s')
  end.

Fixpoint upper (s : string) : string :=
  match s with
  | EmptyString => EmptyString
  | String c s' => String (upper_char c) (upper s')
  end.

(** The characters [str.strip()] and [str.split()] treat as blanks:
    TAB, LF, VT, FF, CR, FS, GS, RS, US and the space. *)
Definition is_space (c : ascii) : bool :=
  in_range 9 13 c || in_range 28 32 c.

Definition is_empty (s : string) : bool :=
  match s with EmptyString => true | String _ _ => false end.

Fixpoint lstrip (s : string) : string :=
  match s with
  | EmptyString => EmptyString
  | String c s' => if is_space c then lstrip s' else s
  end.

Fixpoint rstrip (s : string) : string :=
  match s with
  | EmptyString => EmptyString
  | String c s' =>
      let r := rstrip s' in
      if is_space c && is_empty r then EmptyString else String c r
  end.

Definition strip (s : string) : string := rstrip (lstrip s).

(** [w.startswith(q)]. *)
Definition startswith (w q : string) : bool := String.prefix q w.

(** [q in s]: [q] occurs in [s] as a contiguous substring. *)
Fixpoint contains (s q : string) : bool :=
  String.prefix q s ||
  match s with
  | EmptyString => false
  | String _ s' => contains s' q
  end.

(** [s.split()]: the maximal blank-free runs of [s], in order. *)
Fixpoint split_from (word s : string) : list string :=
  match s with
  | EmptyString => if is_empty word then [] else [word]
  | String c s' =>
      if is_space c
      then (if is_empty word then split_from "" s' else word :: split_from "" s')
      else split_from (word ++ String c "") s'
  end.

Definition split (s : string) : list string := split_from "" s.

(** [", ".join(parts)]. *)
Fixpoint join (sep : string) (parts : list string) : string :=
  match parts with
  | [] => ""
  | [p] => p
  | p :: ps => p ++ sep ++ join sep ps
  end.

Definition len (s : string) : Z := Z.of_nat (String.length s).

End PyStr.

(** ** Python list primitives *)

Section PyList.
Context {A : Type}.

(** [l[:n]]: a non-negative [n] keeps the first [n] items, a negative one
    drops the last [-n]. *)
Definition py_prefix (n : Z) (l : list A) : list A :=
  if n <? 0
  then firstn (Z.to_nat (Z.max 0 (Z.of_nat (List.length l) + n))) l
  else firstn (Z.to_nat n) l.

(** [list.sort(key=...)] is stable: items that compare equal keep their
    order.  [leb x y] is the comparison [key(x) <= key(y)]; an item is put in
    front of the first item that does not sort strictly before it. *)
Variable leb : A -> A -> bool.

Fixpoint insert_sorted (x : A) (l : list A) : list A :=
  match l with
  | [] => [x]
  | y :: l' => if leb x y then x :: l else y :: insert_sorted x l'
  end.

Fixpoint py_sort (l : list A) : list A :=
  match l with
  | [] => []
  | x :: l' => insert_sorted x (py_sort l')
  end.

(** [next((x for x in l if p(x)), None)] and the first hit of a [for] loop
    that returns or breaks. *)
Definition first_such (p : A -> bool) (l : list A) : option A := List.find p l.

End PyList.

Definition sort_by_key {A : Type} (key : A -> Z) : list A -> list A :=
  py_sort (fun x y => key x <=? key y).

(** [d.get(k)] on a dict written as the list of its items (no key repeats). *)
Fixpoint dict_get (d : list (string * string)) (k : string) : option string :=
  match d with
  | [] => None
  | (k', v) :: d' => if String.eqb k' k then Some v else dict_get d' k
  end.

(** ** Catalog: [BUS_ROUTES] and [BUS_STOPS] *)

Record Route := mkRoute {
  route_id : string;
  route_name : string;
  route_from : string;
  route_to : string;
  route_via : string;
  fare_min : Z;
  fare_max : Z;
  frequency_min : Z
}.

Record Stop := mkStop {
  stop_id : string;
  stop_name : string;
  lat : R;
  lng : R;
  routes : list string
}.

Definition BUS_ROUTES : list Route :=
  [ mkRoute "S12" "S12" "Howrah Station" "New Town" "Salt Lake" 10 35 10;
    mkRoute "AC1" "AC1" "Jadavpur" "Airport" "EM Bypass" 25 55 15;
    mkRoute "45A" "45A" "Garia Station" "Esplanade" "Rashbehari" 8 25 8;
    mkRoute "DN9" "DN9" "Dunlop" "Babughat" "Shyambazar" 10 30 12;
    mkRoute "S9" "S9" "Howrah Station" "Salt Lake Sector V" "Ultadanga" 10 30 10;
    mkRoute "AC2" "AC2" "Garia" "Karunamoyee" "Science City" 25 50 20;
    mkRoute "230" "230" "Howrah Station" "Joka" "Behala" 8 28 10;
    mkRoute "12B" "12B/1" "Tollygunge" "Howrah Station" "Kalighat" 8 22 7;
    mkRoute "201" "201" "Barasat" "Babughat" "Dum Dum" 12 35 15;
    mkRoute "AC9" "AC9" "Airport" "Esplanade" "VIP Road" 30 60 20;
    mkRoute "S32" "S32" "Sealdah" "Dankuni" "Shyambazar" 10 32 12;
    mkRoute "46A" "46A" "Ruby Hospital" "Howrah Station" "Park Circus" 8 25 8;
    mkRoute "S5" "S5" "Barrackpore" "Esplanade" "Baranagar" 12 30 12;
    mkRoute "DN20" "DN20" "Dunlop" "Garia" "EM Bypass" 12 35 15;
    mkRoute "AC47" "AC47" "Howrah Station" "Garia" "Moulali" 25 50 15;
    mkRoute "78" "78" "Esplanade" "Barasat" "Dum Dum" 10 30 10;
    mkRoute "S11" "S11" "Howrah" "Karunamoyee" "Sealdah" 10 28 12;
    mkRoute "215" "215" "Sealdah" "Airport" "VIP Road" 10 30 15;
    mkRoute "L230" "L230" "Garia" "Babughat" "Tollygunge" 8 25 8;
    mkRoute "AC3" "AC3" "New Town" "Esplanade" "Salt Lake" 30 55 20;
    mkRoute "S41" "S41" "Baruipur" "Howrah" "Garia" 12 35 15;
    mkRoute "E32" "E32" "Barrackpore" "Garia" "Ultadanga" 12 35 12;
    mkRoute "MM12" "MM12" "Behala" "BBD Bagh" "Diamond Harbour Rd" 8 22 10;
    mkRoute "AC20" "AC20" "Howrah" "Airport" "EM Bypass" 30 65 25;
    mkRoute "S6" "S6" "Sealdah" "Salt Lake" "CIT Road" 8 20 8;
    mkRoute "34" "34" "Esplanade" "Jadavpur" "Gariahat" 8 20 7;
    mkRoute "203" "203" "Sealdah" "Sonarpur" "Garia" 10 28 12;
    mkRoute "AC36" "AC36" "Barasat" "Tollygunge" "Jessore Road" 25 50 20;
    mkRoute "S15" "S15" "Howrah" "Nicco Park" "Salt Lake" 10 30 12;
    mkRoute "DN44" "DN44" "Dunlop" "Jadavpur" "Shyambazar" 10 28 12 ].

Definition BUS_STOPS : list Stop :=
  [ mkStop "hw" "Howrah Station" 22.5839 88.3430 ["S12"; "230"; "12B"; "S11"; "AC20"; "S15"; "S41"; "AC47"];
    mkStop "es" "Esplanade" 22.5554 88.3520 ["45A"; "AC9"; "S5"; "78"; "AC3"; "34"];
    mkStop "sd" "Sealdah Station" 22.5684 88.3733 ["S32"; "S6"; "203"; "215"];
    mkStop "nt" "New Town City Centre" 22.5941 88.4842 ["S12"; "AC3"];
    mkStop "sl5" "Salt Lake Sector V" 22.5726 88.4319 ["S9"; "S6"; "S15"];
    mkStop "ga" "Garia Station" 22.4590 88.3852 ["45A"; "AC2"; "DN20"; "L230"; "203"; "S41"];
    mkStop "jp" "Jadavpur" 22.4987 88.3692 ["AC1"; "34"; "DN44"];
    mkStop "ap" "Airport (NSCBI)" 22.6520 88.4463 ["AC1"; "AC9"; "215"; "AC20"];
    mkStop "dl" "Dunlop" 22.6460 88.3784 ["DN9"; "DN20"; "DN44"];
    mkStop "bb" "Babughat" 22.5636 88.3400 ["DN9"; "201"; "L230"];
    mkStop "br" "Barasat" 22.7235 88.4802 ["201"; "78"; "AC36"];
    mkStop "tg" "Tollygunge" 22.4985 88.3470 ["12B"; "AC36"];
    mkStop "km" "Karunamoyee" 22.5772 88.4041 ["AC2"; "S11"];
    mkStop "rb" "Ruby Hospital" 22.5145 88.3988 ["46A"; "DN20"];
    mkStop "sh" "Shyambazar" 22.5956 88.3716 ["DN9"; "S32"; "DN44"];
    mkStop "pc" "Park Circus" 22.5393 88.3695 ["46A"];
    mkStop "sc" "Science City" 22.5403 88.3960 ["AC2"];
    mkStop "bh" "Behala" 22.4889 88.3100 ["230"; "MM12"];
    mkStop "jk" "Joka" 22.4487 88.3095 ["230"];
    mkStop "bp" "Barrackpore" 22.7584 88.3685 ["S5"; "E32"];
    mkStop "dd" "Dum Dum" 22.6224 88.4218 ["201"; "78"];
    mkStop "ul" "Ultadanga" 22.5813 88.3900 ["S9"; "E32"];
    mkStop "gh" "Gariahat" 22.5183 88.3667 ["34"];
    mkStop "kg" "Kalighat" 22.5240 88.3440 ["12B"];
    mkStop "ml" "Moulali" 22.5568 88.3590 ["AC47"];
    mkStop "sl1" "Salt Lake Sector I" 22.5800 88.4100 ["S12"; "S6"; "AC3"];
    mkStop "bbd" "BBD Bagh" 22.5728 88.3488 ["MM12"];
    mkStop "dk" "Dankuni" 22.6784 88.2931 ["S32"];
    mkStop "rh" "Rashbehari" 22.5175 88.3544 ["45A"];
    mkStop "vip" "VIP Road" 22.6093 88.4260 ["AC9"; "215"];
    mkStop "by" "Baruipur" 22.3581 88.4305 ["S41"];
    mkStop "dh" "Diamond Harbour Road" 22.4830 88.3200 ["MM12"];
    mkStop "js" "Jessore Road" 22.6300 88.4000 ["AC36"; "78"];
    mkStop "np" "Nicco Park" 22.5756 88.4150 ["S15"];
    mkStop "sr" "Sonarpur" 22.4350 88.4150 ["203"];
    mkStop "ct" "CIT Road" 22.5650 88.3850 ["S6"];
    mkStop "bn" "Baranagar" 22.6388 88.3788 ["S5"];
    mkStop "eb" "EM Bypass Connector" 22.5316 88.3978 ["AC1"; "DN20"; "AC20"];
    mkStop "ht" "Hatibagan" 22.5880 88.3630 ["DN9"];
    mkStop "np2" "New Alipore" 22.5070 88.3330 ["230"];
    mkStop "pb" "Prince Anwar Shah Road" 22.5050 88.3780 ["AC2"; "DN20"];
    mkStop "lk" "Lake Town" 22.5942 88.3920 ["E32"; "215"];
    mkStop "cg" "College Street" 22.5730 88.3630 ["DN9"; "S32"];
    mkStop "wr" "Wireless Crossing" 22.5260 88.3910 ["46A"; "AC2"];
    mkStop "nb" "Nabanna" 22.5588 88.3168 ["230"];
    mkStop "sg" "Salt Lake Gate" 22.5760 88.4050 ["S12"; "S9"; "S6"; "S15"];
    mkStop "sb" "Santoshpur" 22.4770 88.3930 ["203"; "E32"];
    mkStop "kr" "Kona Expressway" 22.5760 88.3100 ["AC20"];
    mkStop "tb" "Taratala" 22.5050 88.3180 ["230"; "MM12"];
    mkStop "gl" "Golf Green" 22.4970 88.3920 ["DN20"; "AC2"];
    mkStop "blr" "Belur Math" 22.6308 88.3527 ["S5"; "S15"];
    mkStop "dks" "Dakshineswar" 22.6548 88.3576 ["DN9"; "S5"];
    mkStop "svb" "Sovabazar" 22.5881 88.3598 ["DN9"; "S32"];
    mkStop "bhw" "Bhawanipur" 22.5267 88.3450 ["12B"; "34"];
    mkStop "hz" "Hazra" 22.5237 88.3510 ["45A"; "34"];
    mkStop "ld" "Lansdowne" 22.5150 88.3480 ["12B"; "AC36"];
    mkStop "blg" "Ballygunge" 22.5268 88.3640 ["34"; "AC1"];
    mkStop "ksb" "Kasba" 22.5100 88.3870 ["AC2"; "203"];
    mkStop "rp" "Regent Park" 22.5190 88.3850 ["46A"; "AC2"];
    mkStop "mk" "Maniktala" 22.5870 88.3800 ["E32"; "DN44"];
    mkStop "blc" "Belgachia" 22.6020 88.3700 ["DN9"; "201"];
    mkStop "csp" "Cossipore" 22.6100 88.3680 ["S5"; "DN44"];
    mkStop "sdp" "Sodepur" 22.6950 88.3920 ["S5"; "201"];
    mkStop "nht" "Naihati" 22.8930 88.4220 ["E32"];
    mkStop "chn" "Chandannagar" 22.8672 88.3630 ["S32"];
    mkStop "bly" "Bally" 22.6500 88.3400 ["12B"; "S15"];
    mkStop "llh" "Liluah" 22.6250 88.3340 ["AC20"; "S11"];
    mkStop "belg" "Belgharia" 22.6650 88.3880 ["201"; "78"];
    mkStop "mdg" "Madhyamgram" 22.6800 88.4500 ["78"; "AC36"];
    mkStop "rjh" "Rajarhat" 22.5990 88.4750 ["AC3"; "S12"];
    mkStop "cnp" "Chinar Park" 22.6020 88.4550 ["AC3"; "S9"];
    mkStop "bgti" "Baguiati" 22.6120 88.4200 ["215"; "AC9"];
    mkStop "plb" "Phoolbagan" 22.5720 88.3850 ["S6"; "AC47"];
    mkStop "ent" "Entally" 22.5630 88.3700 ["AC47"; "46A"];
    mkStop "bwb" "Bow Barracks" 22.5580 88.3610 ["45A"; "AC47"];
    mkStop "dmt" "Dharmatala" 22.5550 88.3530 ["45A"; "78"; "AC9"];
    mkStop "mdn" "Maidan" 22.5500 88.3455 ["34"; "230"; "12B"];
    mkStop "ndn" "Nandan" 22.5280 88.3500 ["34"; "AC36"];
    mkStop "exc" "Exide Crossing" 22.5320 88.3530 ["45A"; "AC1"];
    mkStop "rbs" "Rabindra Sadan" 22.5310 88.3470 ["12B"; "34"; "AC36"] ].

(** [next((r for r in BUS_ROUTES if r["id"] == rid), None)]. *)
Definition route_by_id (rid : string) : option Route :=
  first_such (fun r => String.eqb (route_id r) rid) BUS_ROUTES.

(** ** Stop resolver: [_match_stop] *)

Definition match_stop_aliases : list (string * string) :=
  [ ("howrah", "howrah station"); ("sealdah", "sealdah station");
    ("newtown", "new town city centre"); ("new town", "new town city centre");
    ("airport", "airport (nscbi)"); ("garia", "garia station");
    ("salt lake", "salt lake sector v"); ("sector v", "salt lake sector v");
    ("sector 5", "salt lake sector v"); ("sector i", "salt lake sector i");
    ("sector 1", "salt lake sector i"); ("dum dum", "dum dum");
    ("tollygunge", "tollygunge"); ("tolly", "tollygunge");
    ("karunamoyee", "karunamoyee"); ("ruby", "ruby hospital");
    ("esplanade", "esplanade"); ("jadavpur", "jadavpur");
    ("barasat", "barasat"); ("behala", "behala");
    ("joka", "joka"); ("bbdbagh", "bbd bagh");
    ("bbd bagh", "bbd bagh"); ("gariahat", "gariahat");
    ("park circus", "park circus"); ("science city", "science city");
    ("dunlop", "dunlop"); ("nicco park", "nicco park");
    ("babughat", "babughat"); ("shyambazar", "shyambazar");
    ("barrackpore", "barrackpore"); ("belur", "belur math");
    ("belur math", "belur math"); ("dakshineswar", "dakshineswar");
    ("sovabazar", "sovabazar"); ("bhawanipur", "bhawanipur");
    ("hazra", "hazra"); ("lansdowne", "lansdowne");
    ("ballygunge", "ballygunge"); ("kasba", "kasba");
    ("regent park", "regent park"); ("maniktala", "maniktala");
    ("belgachia", "belgachia"); ("cossipore", "cossipore");
    ("sodepur", "sodepur"); ("naihati", "naihati");
    ("chandannagar", "chandannagar"); ("bally", "bally");
    ("liluah", "liluah"); ("belgharia", "belgharia");
    ("madhyamgram", "madhyamgram"); ("rajarhat", "rajarhat");
    ("chinar park", "chinar park"); ("baguiati", "baguiati");
    ("phoolbagan", "phoolbagan"); ("entally", "entally");
    ("dharmatala", "dharmatala"); ("maidan", "maidan");
    ("nandan", "nandan"); ("exide", "exide crossing");
    ("rabindra sadan", "rabindra sadan") ].

Definition name_lower (s : Stop) : string := PyStr.lower (stop_name s).

(** The partial-match stage: every stop whose lower-cased name contains [q];
    a single hit is returned, several are sorted by name length. *)
Definition partial_matches (q : string) : list Stop :=
  List.filter (fun s => PyStr.contains (name_lower s) q) BUS_STOPS.

Definition shortest_name_first (matches : list Stop) : list Stop :=
  sort_by_key (fun s => PyStr.len (stop_name s)) matches.

(** The word-start stage: the first stop with a name word starting with [q]. *)
Definition word_start_match (q : string) : option Stop :=
  first_such
    (fun s => existsb (fun w => PyStr.startswith w q) (PyStr.split (name_lower s)))
    BUS_STOPS.

Definition alias_match (q : string) : option Stop :=
  match dict_get match_stop_aliases q with
  | Some alias_name =>
      first_such (fun s => String.eqb (name_lower s) alias_name) BUS_STOPS
  | None => None
  end.

Definition _match_stop (query : string) : option Stop :=
  let q := PyStr.strip (PyStr.lower query) in
  match first_such
          (fun s => String.eqb (name_lower s) q || String.eqb (stop_id s) q)
          BUS_STOPS with
  | Some s => Some s
  | None =>
      match alias_match q with
      | Some s => Some s
      | None =>
          match partial_matches q with
          | [m] => Some m
          | m :: ms => List.head (shortest_name_first (m :: ms))
          | [] => word_start_match q
          end
      end
  end.

(** ** Python numeric primitives, on real numbers *)

Module PyMath.
Local Open Scope R_scope.

(** [math.radians]. *)
Definition radians (deg : R) : R := deg * PI / 180.

(** [math.atan2(y, x)]. *)
Definition atan2 (y x : R) : R :=
  if Rlt_dec 0 x then atan (y / x)
  else if Rlt_dec x 0
       then (if Rle_dec 0 y then atan (y / x) + PI else atan (y / x) - PI)
       else if Rlt_dec 0 y then PI / 2
            else if Rlt_dec y 0 then - (PI / 2) else 0.

(** [int(x)]: truncation towards zero. *)
Definition py_int (x : R) : Z :=
  if Rle_dec 0 x then Int_part x else (- Int_part (- x))%Z.

(** [round(x)]: the nearest integer, a tie going to the even one. *)
Definition py_round (x : R) : Z :=
  let f := Int_part x in
  let r := x - IZR f in
  if Rlt_dec r (1 / 2) then f
  else if Rlt_dec (1 / 2) r then (f + 1)%Z
       else if Z.even f then f else (f + 1)%Z.

(** [round(x, ndigits)]. *)
Definition round_to (x : R) (ndigits : nat) : R :=
  IZR (py_round (x * 10 ^ ndigits)) / 10 ^ ndigits.

(** [a <= b] on floats, as a boolean. *)
Definition Rleb (a b : R) : bool := if Rle_dec a b then true else false.
Definition Rltb (a b : R) : bool := if Rlt_dec a b then true else false.

End PyMath.

(** ** Great-circle distance: the local function [haversine] of
    [get_nearest_stops] and [smart_eta] (the two copies are the same text) *)

Definition haversine (lat1 lon1 lat2 lon2 : R) : R :=
  let R_earth := 6371%R in
  let dlat := PyMath.radians (lat2 - lat1) in
  let dlon := PyMath.radians (lon2 - lon1) in
  let a := (sin (dlat / 2) ^ 2
            + cos (PyMath.radians lat1) * cos (PyMath.radians lat2)
              * sin (dlon / 2) ^ 2)%R in
  (R_earth * 2 * PyMath.atan2 (sqrt a) (sqrt (1 - a)))%R.

(** ** Nearest stops: [get_nearest_stops] *)

(** [{**s, "distance_km": round(dist, 2), "distance_m": round(dist * 1000)}]. *)
Record NearStop := mkNearStop {
  near_stop : Stop;
  near_distance_km : R;
  near_distance_m : Z
}.

Definition with_distance (lat0 lng0 : R) (s : Stop) : NearStop :=
  let dist := haversine lat0 lng0 (lat s) (lng s) in
  mkNearStop s (PyMath.round_to dist 2) (PyMath.py_round (dist * 1000)).

(** The [stops] field of the response; the sort key is the [distance_km]
    field of each entry. *)
Definition get_nearest_stops (lat0 lng0 : R) (limit : Z) : list NearStop :=
  let stops_with_dist := List.map (with_distance lat0 lng0) BUS_STOPS in
  py_prefix limit
    (py_sort (fun x y => PyMath.Rleb (near_distance_km x) (near_distance_km y))
       stops_with_dist).

(** ** Iteration order of Python sets *)

(** [set_inter a b] lists the elements of [set(a) & set(b)] in the order in
    which Python iterates over that set: some order, each element once. *)
Class SetOrder := {
  set_inter : list string -> list string -> list string;
  set_inter_NoDup : forall a b, List.NoDup (set_inter a b);
  set_inter_In : forall a b x, In x (set_inter a b) <-> In x a /\ In x b
}.

(** ** HTTP outcomes *)

Inductive Response (A : Type) : Type :=
| Ok (body : A)
| HTTPException (status_code : Z) (detail : string).
Arguments Ok {A} body.
Arguments HTTPException {A} status_code detail.

(** ** Connection finder: [find_route_between] *)

(** The two shapes of a result: ["type": "direct"] with ["transfers": 0] and
    ["type": "transfer"] with ["transfers": 1]. *)
Inductive ConnectionResult :=
| DirectResult (route : Route) (from_stop to_stop : string)
    (time_min fare : Z)
| TransferResult (leg1_route leg2_route : Route)
    (from_stop transfer_stop to_stop : string) (time_min fare : Z).

Definition transfers (r : ConnectionResult) : Z :=
  match r with DirectResult _ _ _ _ _ => 0 | TransferResult _ _ _ _ _ _ _ => 1 end.

Definition estimated_time_min (r : ConnectionResult) : Z :=
  match r with
  | DirectResult _ _ _ t _ => t
  | TransferResult _ _ _ _ _ t _ => t
  end.

Definition estimated_fare (r : ConnectionResult) : Z :=
  match r with
  | DirectResult _ _ _ _ f => f
  | TransferResult _ _ _ _ _ _ f => f
  end.

Definition is_direct (r : ConnectionResult) : bool :=
  match r with DirectResult _ _ _ _ _ => true | TransferResult _ _ _ _ _ _ _ => false end.

(** [math.sqrt((a.lat-b.lat)**2 + (a.lng-b.lng)**2) * 111]: degrees apart in
    the plane, times 111 km. *)
Definition flat_km (a b : Stop) : R :=
  (sqrt ((lat a - lat b) ^ 2 + (lng a - lng b) ^ 2) * 111)%R.

Definition direct_time (from_s to_s : Stop) : Z :=
  Z.max 5 (PyMath.py_int (flat_km from_s to_s * 3.5)).

Definition transfer_time (from_s mid_stop to_s : Stop) : Z :=
  Z.max 10
    (PyMath.py_int ((flat_km from_s mid_stop + flat_km mid_stop to_s) * 3.5) + 5).

(** The sort key [(x["transfers"], x["estimated_time_min"])], compared as
    Python compares tuples. *)
Definition rank_leb (x y : ConnectionResult) : bool :=
  (transfers x <? transfers y)
  || ((transfers x =? transfers y)
      && (estimated_time_min x <=? estimated_time_min y)).

Section ConnectionFinder.
Context `{SetOrder}.

(** The loop over [direct_routes]. *)
Definition direct_results (from_s to_s : Stop) : list ConnectionResult :=
  flat_map
    (fun rid =>
       match route_by_id rid with
       | Some route =>
           [DirectResult route (stop_name from_s) (stop_name to_s)
              (direct_time from_s to_s) (fare_min route)]
       | None => []
       end)
    (set_inter (routes from_s) (routes to_s)).

(** One turn of the loop over [BUS_STOPS] in the transfer search; the state
    is [seen_transfers] and [transfer_results]. *)
Definition transfer_step (from_s to_s : Stop)
    (acc : list string * list ConnectionResult) (mid_stop : Stop)
    : list string * list ConnectionResult :=
  let '(seen_transfers, transfer_results) := acc in
  if String.eqb (stop_id mid_stop) (stop_id from_s)
     || String.eqb (stop_id mid_stop) (stop_id to_s)
  then acc
  else
    match set_inter (routes from_s) (routes mid_stop),
          set_inter (routes mid_stop) (routes to_s) with
    | rid1 :: _, rid2 :: _ =>
        match route_by_id rid1, route_by_id rid2 with
        | Some r1, Some r2 =>
            let key : string :=
              (route_id r1 ++ "-" ++ stop_id mid_stop ++ "-" ++ route_id r2)%string in
            if existsb (String.eqb key) seen_transfers then acc
            else
              (key :: seen_transfers,
               transfer_results ++
               [TransferResult r1 r2 (stop_name from_s) (stop_name mid_stop)
                  (stop_name to_s) (transfer_time from_s mid_stop to_s)
                  (fare_min r1 + fare_min r2)])
        | _, _ => acc
        end
    | _, _ => acc
    end.

Definition transfer_results (from_s to_s : Stop) : list ConnectionResult :=
  snd (fold_left (transfer_step from_s to_s) BUS_STOPS ([], [])).

(** The [results] list of the response, for two resolved stops. *)
Definition find_connections (from_s to_s : Stop) : list ConnectionResult :=
  let results := direct_results from_s to_s in
  let results :=
    match results with
    | [] => py_prefix 5 (sort_by_key estimated_time_min (transfer_results from_s to_s))
    | _ :: _ => results
    end in
  py_prefix 5 (py_sort rank_leb results).

Record RouteAnswer := mkRouteAnswer {
  answer_results : list ConnectionResult;
  answer_from : string;
  answer_to : string;
  answer_from_coords : R * R;
  answer_to_coords : R * R
}.

Definition not_found_detail (missing : list string) : string :=
  ("Stop(s) not found: " ++ PyStr.join ", " missing
   ++ ". Try using full stop names like 'Howrah Station', 'New Town', 'Esplanade', etc.")%string.

Definition find_route_between (from_stop to_stop : string) : Response RouteAnswer :=
  match _match_stop from_stop, _match_stop to_stop with
  | Some from_s, Some to_s =>
      Ok (mkRouteAnswer (find_connections from_s to_s)
            (stop_name from_s) (stop_name to_s)
            (lat from_s, lng from_s) (lat to_s, lng to_s))
  | from_s, to_s =>
      let missing :=
        (match from_s with None => [from_stop] | Some _ => [] end)
        ++ (match to_s with None => [to_stop] | Some _ => [] end) in
      HTTPException 404 (not_found_detail missing)
  end.

End ConnectionFinder.

(** ** Live buses: the table [live_buses] and the requests that write it *)

(** The values the code stores in [crowd_level]: "Low", "Medium", "High". *)
Inductive CrowdLevel := Low | Medium | High.

Definition crowd_level_name (c : CrowdLevel) : string :=
  match c with Low => "Low" | Medium => "Medium" | High => "High" end.

(** A row of [LiveBusDB]. *)
Record LiveBus := mkLiveBus {
  bus_reg : string;
  driver_id : string;
  driver_name : string;
  bus_route_id : string;
  latitude : R;
  longitude : R;
  speed : R;
  passenger_count : Z;
  crowd_level : CrowdLevel;
  status : string;
  delay_reason : string;
  trip_started_at : Z;
  last_update : Z
}.

(** The table, keyed by its primary key [bus_reg]. *)
Abbreviation FleetState := (gmap string LiveBus).

(** Request bodies. *)
Record LocationUpdate := mkLocationUpdate {
  loc_bus_reg : string;
  loc_latitude : R;
  loc_longitude : R;
  loc_speed : R;
  loc_route_id : string
}.

Record PassengerCountUpdate := mkPassengerCountUpdate {
  pc_bus_reg : string;
  pc_passenger_count : Z
}.

Record StatusUpdate := mkStatusUpdate {
  st_bus_reg : string;
  st_status : string;
  st_delay_reason : string
}.

Record TripStartRequest := mkTripStartRequest {
  ts_bus_reg : string;
  ts_route_id : string
}.

(** The thresholds of [update_passengers]. *)
Definition crowd_of (count : Z) : CrowdLevel :=
  if count <=? 20 then Low
  else if count <=? 40 then Medium
  else High.

(** [LiveBusDB(bus_reg=..., driver_id="", ...)]: the columns that are not given
    take their defaults (0, "Low", "running", "", and the current time). *)
Definition new_bus (reg route : string) (la lo sp : R) (now : Z) : LiveBus :=
  mkLiveBus reg "" "" route la lo sp 0 Low "running" "" now now.

(** The integers a 64-bit column of SQLite holds. *)
Definition int64 (z : Z) : bool :=
  (- 2 ^ 63 <=? z) && (z <? 2 ^ 63).

(** [a or b] on strings. *)
Definition str_or (a b : string) : string :=
  if PyStr.is_empty a then b else a.

Section Fleet.
(** [datetime.utcnow()] at the time of the request. *)
Variable now : Z.

Definition update_bus_location (req : LocationUpdate) (db : FleetState)
    : FleetState * Response (string * string) :=
  let db' :=
    match db !! loc_bus_reg req with
    | Some bus =>
        <[loc_bus_reg req :=
            mkLiveBus (bus_reg bus) (driver_id bus) (driver_name bus)
              (str_or (loc_route_id req) (bus_route_id bus))
              (loc_latitude req) (loc_longitude req) (loc_speed req)
              (passenger_count bus) (crowd_level bus) (status bus)
              (delay_reason bus) (trip_started_at bus) now]> db
    | None =>
        <[loc_bus_reg req :=
            new_bus (loc_bus_reg req) (loc_route_id req) (loc_latitude req)
              (loc_longitude req) (loc_speed req) now]> db
    end in
  (db', Ok ("ok", loc_bus_reg req)).

(** [passenger_count] is an [Integer] column of SQLite, 64 bits wide: for a
    count outside that range [db.commit()] raises OverflowError, nothing is
    stored, and the server answers the request with status 500. *)
Definition update_passengers (req : PassengerCountUpdate) (db : FleetState)
    : FleetState * Response (string * CrowdLevel * Z) :=
  match db !! pc_bus_reg req with
  | None => (db, HTTPException 404 "Bus not found")
  | Some bus =>
      if int64 (pc_passenger_count req)
      then
        let bus' :=
          mkLiveBus (bus_reg bus) (driver_id bus) (driver_name bus)
            (bus_route_id bus) (latitude bus) (longitude bus) (speed bus)
            (pc_passenger_count req) (crowd_of (pc_passenger_count req))
            (status bus) (delay_reason bus) (trip_started_at bus) now in
        (<[pc_bus_reg req := bus']> db,
         Ok ("ok", crowd_level bus', passenger_count bus'))
      else (db, HTTPException 500 "Internal Server Error")
  end.

Definition update_bus_status (req : StatusUpdate) (db : FleetState)
    : FleetState * Response (string * string) :=
  match db !! st_bus_reg req with
  | None => (db, HTTPException 404 "Bus not found")
  | Some bus =>
      let bus' :=
        mkLiveBus (bus_reg bus) (driver_id bus) (driver_name bus)
          (bus_route_id bus) (latitude bus) (longitude bus) (speed bus)
          (passenger_count bus) (crowd_level bus)
          (st_status req) (st_delay_reason req) (trip_started_at bus) now in
      (<[st_bus_reg req := bus']> db, Ok ("ok", status bus'))
  end.

Definition start_trip (req : TripStartRequest) (db : FleetState)
    : FleetState * Response (string * string) :=
  let db' :=
    match db !! ts_bus_reg req with
    | Some existing =>
        <[ts_bus_reg req :=
            mkLiveBus (bus_reg existing) (driver_id existing)
              (driver_name existing) (ts_route_id req) (latitude existing)
              (longitude existing) (speed existing) 0 Low "running" ""
              now now]> db
    | None =>
        <[ts_bus_reg req :=
            new_bus (ts_bus_reg req) (ts_route_id req) 0%R 0%R 0%R now]> db
    end in
  (db', Ok ("trip_started", ts_bus_reg req)).

Definition end_trip (reg : string) (db : FleetState)
    : FleetState * Response (string * string) :=
  let db' :=
    match db !! reg with
    | Some _ => delete reg db
    | None => db
    end in
  (db', Ok ("trip_ended", reg)).

(** The five telemetry requests. *)
Inductive FleetRequest :=
| UpdateLocation (req : LocationUpdate)
| UpdatePassengers (req : PassengerCountUpdate)
| UpdateStatus (req : StatusUpdate)
| StartTrip (req : TripStartRequest)
| EndTrip (reg : string).

(** The table after a request. *)
Definition handle (r : FleetRequest) (db : FleetState) : FleetState :=
  match r with
  | UpdateLocation req => fst (update_bus_location req db)
  | UpdatePassengers req => fst (update_passengers req db)
  | UpdateStatus req => fst (update_bus_status req db)
  | StartTrip req => fst (start_trip req db)
  | EndTrip reg => fst (end_trip reg db)
  end.

End Fleet.

(** The table after a sequence of requests, each with its time stamp. *)
Definition run (reqs : list (Z * FleetRequest)) (db : FleetState) : FleetState :=
  fold_left (fun d '(now, r) => handle now r d) reqs db.

(** ** ETA estimator: [smart_eta] *)

Definition smart_eta_aliases : list (string * string) :=
  [ ("howrah", "howrah station"); ("sealdah", "sealdah station");
    ("airport", "airport (nscbi)"); ("newtown", "new town city centre");
    ("new town", "new town city centre"); ("salt lake", "salt lake sector v");
    ("sector v", "salt lake sector v"); ("garia", "garia station");
    ("behala", "behala"); ("joka", "joka");
    ("esplanade", "esplanade"); ("jadavpur", "jadavpur");
    ("dunlop", "dunlop"); ("tollygunge", "tollygunge");
    ("barasat", "barasat"); ("bbd bagh", "bbd bagh");
    ("bbdbagh", "bbd bagh"); ("karunamoyee", "karunamoyee");
    ("science city", "science city"); ("ruby", "ruby hospital");
    ("park circus", "park circus"); ("gariahat", "gariahat");
    ("shyambazar", "shyambazar"); ("nicco park", "nicco park");
    ("babughat", "babughat"); ("barrackpore", "barrackpore");
    ("ultadanga", "ultadanga"); ("dum dum", "dum dum");
    ("moulali", "moulali"); ("belur", "belur math");
    ("belur math", "belur math"); ("dakshineswar", "dakshineswar");
    ("sovabazar", "sovabazar"); ("bhawanipur", "bhawanipur");
    ("hazra", "hazra"); ("lansdowne", "lansdowne");
    ("ballygunge", "ballygunge"); ("kasba", "kasba");
    ("regent park", "regent park"); ("maniktala", "maniktala");
    ("belgachia", "belgachia"); ("cossipore", "cossipore");
    ("sodepur", "sodepur"); ("naihati", "naihati");
    ("chandannagar", "chandannagar"); ("bally", "bally");
    ("liluah", "liluah"); ("belgharia", "belgharia");
    ("madhyamgram", "madhyamgram"); ("rajarhat", "rajarhat");
    ("chinar park", "chinar park"); ("baguiati", "baguiati");
    ("phoolbagan", "phoolbagan"); ("entally", "entally");
    ("dharmatala", "dharmatala"); ("maidan", "maidan");
    ("nandan", "nandan"); ("exide", "exide crossing");
    ("rabindra sadan", "rabindra sadan") ].

(** Step 2 of [smart_eta]: the destination text to a stop. *)
Definition resolve_destination (destination : string) : option Stop :=
  let dest_lower := PyStr.lower (PyStr.strip destination) in
  let resolved :=
    match dict_get smart_eta_aliases dest_lower with
    | Some canonical => canonical
    | None => dest_lower
    end in
  match first_such
          (fun s =>
             String.eqb resolved (name_lower s)
             || PyStr.contains (name_lower s) dest_lower
             || PyStr.startswith (name_lower s) dest_lower)
          BUS_STOPS with
  | Some s => Some s
  | None =>
      first_such
        (fun s =>
           existsb (fun word => PyStr.contains (name_lower s) word)
             (PyStr.split dest_lower))
        BUS_STOPS
  end.

(** [{**s, "distance_km": round(dist, 2)}]. *)
Record RankedStop := mkRankedStop {
  ranked_stop : Stop;
  distance_km : R
}.

(** Step 1: all stops, by rounded distance from the user. *)
Definition stops_by_dist (user_lat user_lng : R) : list RankedStop :=
  py_sort (fun x y => PyMath.Rleb (distance_km x) (distance_km y))
    (List.map
       (fun s =>
          mkRankedStop s
            (PyMath.round_to (haversine user_lat user_lng (lat s) (lng s)) 2))
       BUS_STOPS).

(** [best_result]; [best_transfer] is the pair of ["transfer_stop"] and
    ["transfer_route"], present when ["is_transfer"] is set. *)
Record BestResult := mkBestResult {
  pickup_stop : RankedStop;
  best_route : Route;
  best_transfer : option (Stop * Route);
  stop_distance_km : R
}.

(** [min(l, key=key)]: the first item with the least key. *)
Fixpoint py_min_by {A : Type} (key : A -> R) (best : A) (l : list A) : A :=
  match l with
  | [] => best
  | x :: l' => py_min_by key (if PyMath.Rltb (key x) (key best) then x else best) l'
  end.

(** The hours the source calls rush hours. *)
Definition rush_hour (hour_of_day : Z) : bool :=
  ((8 <=? hour_of_day) && (hour_of_day <=? 10))
  || ((17 <=? hour_of_day) && (hour_of_day <=? 20)).

(** The [eta] block of the response, and the response. *)
Record Eta := mkEta {
  walk_time_min : R;
  wait_time_min : R;
  bus_travel_min : R;
  total_min : R;
  eta_source : string
}.

Record LiveBusInfo := mkLiveBusInfo {
  live_bus_reg : string;
  live_distance_km : R;
  live_speed : R;
  live_crowd_level : CrowdLevel;
  live_status : string;
  live_eta_min : R
}.

Record EtaResponse := mkEtaResponse {
  resp_pickup : RankedStop;
  resp_destination : Stop;
  resp_route : Route;
  resp_eta : Eta;
  resp_distance_km : R;
  resp_traffic_index : R;
  resp_traffic_source : string;
  resp_hour_of_day : Z;
  resp_live_bus : option LiveBusInfo;
  resp_transfer : option (Stop * Route)
}.

Section SmartEta.
Context `{SetOrder}.
(** The optional predictor [eta_model], on the feature row
    [distance, avg_speed, traffic_index, hour_of_day]. *)
Variable eta_model : option (R -> R -> R -> Z -> R).
(** [datetime.now().hour]. *)
Variable hour_of_day : Z.
(** The rows of [live_buses], as [db.query(LiveBusDB)] lists them. *)
Variable all_live : list LiveBus.

Local Open Scope R_scope.

(** Step 3, first loop: a nearby stop sharing a route with the destination. *)
Fixpoint scan_direct (dest_stop : Stop) (nearbys : list RankedStop)
    : option BestResult :=
  match nearbys with
  | [] => None
  | nearby :: rest =>
      match set_inter (routes (ranked_stop nearby)) (routes dest_stop) with
      | rid :: _ =>
          if negb (String.eqb (stop_id (ranked_stop nearby)) (stop_id dest_stop))
          then
            match route_by_id rid with
            | Some route =>
                let stop_distance :=
                  haversine (lat (ranked_stop nearby)) (lng (ranked_stop nearby))
                    (lat dest_stop) (lng dest_stop) in
                Some (mkBestResult nearby route None
                        (PyMath.round_to stop_distance 2))
            | None => scan_direct dest_stop rest
            end
          else scan_direct dest_stop rest
      | [] => scan_direct dest_stop rest
      end
  end.

(** Step 3, fallback: the inner loop over [BUS_STOPS] for one nearby stop. *)
Fixpoint scan_mid (dest_stop : Stop) (nearby : RankedStop) (mids : list Stop)
    : option BestResult :=
  match mids with
  | [] => None
  | mid_stop :: rest =>
      match set_inter (routes (ranked_stop nearby)) (routes mid_stop),
            set_inter (routes mid_stop) (routes dest_stop) with
      | rid1 :: _, rid2 :: _ =>
          if negb (String.eqb (stop_id (ranked_stop nearby)) (stop_id mid_stop))
             && negb (String.eqb (stop_id mid_stop) (stop_id dest_stop))
          then
            match route_by_id rid1, route_by_id rid2 with
            | Some r1, Some r2 =>
                let d1 :=
                  haversine (lat (ranked_stop nearby)) (lng (ranked_stop nearby))
                    (lat mid_stop) (lng mid_stop) in
                let d2 :=
                  haversine (lat mid_stop) (lng mid_stop)
                    (lat dest_stop) (lng dest_stop) in
                Some (mkBestResult nearby r1 (Some (mid_stop, r2))
                        (PyMath.round_to (d1 + d2) 2))
            | _, _ => scan_mid dest_stop nearby rest
            end
          else scan_mid dest_stop nearby rest
      | _, _ => scan_mid dest_stop nearby rest
      end
  end.

Fixpoint scan_transfer (dest_stop : Stop) (nearbys : list RankedStop)
    : option BestResult :=
  match nearbys with
  | [] => None
  | nearby :: rest =>
      match scan_mid dest_stop nearby BUS_STOPS with
      | Some best => Some best
      | None => scan_transfer dest_stop rest
      end
  end.

Definition find_best (dest_stop : Stop) (ranked : list RankedStop)
    : option BestResult :=
  match scan_direct dest_stop (py_prefix 8 ranked) with
  | Some best => Some best
  | None => scan_transfer dest_stop (py_prefix 5 ranked)
  end.

(** Step 4: the traffic index and its source. *)
Definition moving : list LiveBus :=
  List.filter (fun b => PyMath.Rltb 0 (speed b)) all_live.

Definition traffic : R * string :=
  match moving with
  | _ :: _ =>
      let avg_live_speed :=
        fold_right Rplus 0 (List.map speed moving)
        / IZR (Z.max (Z.of_nat (List.length moving)) 1) in
      (PyMath.round_to
         (Rmax 0.1 (Rmin 1.0 (1.0 - (avg_live_speed - 5) / 35))) 2,
       "live_speed"%string)
  | [] =>
      ((if rush_hour hour_of_day then 0.8
        else if ((11 <=? hour_of_day) && (hour_of_day <=? 16))%Z then 0.5
        else if ((21 <=? hour_of_day) || (hour_of_day <=? 5))%Z then 0.2
        else 0.4),
       "time_of_day"%string)
  end.

(** Step 5: bus travel time, by the predictor or by the formula. *)
Definition bus_travel (stop_distance traffic_index : R) : R * string :=
  let avg_speed := 22 in
  match eta_model with
  | Some predict =>
      (PyMath.round_to (predict stop_distance avg_speed traffic_index hour_of_day) 1,
       "ml_model"%string)
  | None =>
      let base_eta := stop_distance / Rmax avg_speed 1 * 60 in
      let traffic_multiplier := 1 + traffic_index * 0.8 in
      let traffic_multiplier :=
        if rush_hour hour_of_day then traffic_multiplier + 0.3
        else traffic_multiplier in
      (PyMath.round_to (base_eta * traffic_multiplier) 1, "formula"%string)
  end.

(** The closest live bus on the route and its ETA to the pickup stop. *)
Definition live_bus_info (pickup : Stop) (route : Route) (traffic_index : R)
    : option LiveBusInfo :=
  match List.filter (fun b => String.eqb (bus_route_id b) (route_id route)) all_live with
  | [] => None
  | b0 :: bs =>
      let to_pickup b := haversine (latitude b) (longitude b) (lat pickup) (lng pickup) in
      let closest := py_min_by to_pickup b0 bs in
      let bus_to_stop_dist := to_pickup closest in
      let live_eta :=
        match eta_model with
        | Some predict =>
            PyMath.round_to
              (predict bus_to_stop_dist (Rmax (speed closest) 15) traffic_index hour_of_day) 1
        | None =>
            PyMath.round_to
              (bus_to_stop_dist
               / Rmax (if PyMath.Rltb 0 (speed closest) then speed closest else 15) 1
               * 60 * (1 + traffic_index * 0.8)) 1
        end in
      Some (mkLiveBusInfo (bus_reg closest) (PyMath.round_to bus_to_stop_dist 2)
              (speed closest) (crowd_level closest) (status closest) live_eta)
  end.

Definition estimate (best : BestResult) : Eta * R * string * option LiveBusInfo :=
  let '(traffic_index, traffic_source) := traffic in
  let pickup := pickup_stop best in
  let walk_distance_km := distance_km pickup in
  let walk_time := PyMath.round_to (walk_distance_km / 0.08) 1 in
  let '(bus_travel, source) := bus_travel (stop_distance_km best) traffic_index in
  let route := best_route best in
  let wait_time := PyMath.round_to (IZR (frequency_min route) / 2) 1 in
  let total_eta := PyMath.round_to (walk_time + wait_time + bus_travel) 1 in
  let live_bus := live_bus_info (ranked_stop pickup) route traffic_index in
  let '(wait_time, total_eta) :=
    match live_bus with
    | Some info =>
        (live_eta_min info,
         PyMath.round_to (walk_time + live_eta_min info + bus_travel) 1)
    | None => (wait_time, total_eta)
    end in
  (mkEta walk_time wait_time bus_travel total_eta source,
   traffic_index, traffic_source, live_bus).

Definition smart_eta (user_lat user_lng : R) (destination : string)
    : Response EtaResponse :=
  let ranked := stops_by_dist user_lat user_lng in
  match resolve_destination destination with
  | None =>
      HTTPException 404
        ("Could not find destination '" ++ destination
         ++ "' in our bus stop database")%string
  | Some dest_stop =>
      match find_best dest_stop ranked with
      | None =>
          HTTPException 404
            ("No bus route found from your location to " ++ destination)%string
      | Some best =>
          let '(eta, traffic_index, traffic_source, live_bus) := estimate best in
          Ok (mkEtaResponse (pickup_stop best) dest_stop (best_route best) eta
                (stop_distance_km best) traffic_index traffic_source
                hour_of_day live_bus (best_transfer best))
      end
  end.

End SmartEta.

(** ** Reading aids for the statements below *)

(** The catalog stop with a given id (the ids of [BUS_STOPS] are distinct). *)
Definition catalog_stop (id : string) : Stop :=
  match first_such (fun s => String.eqb (stop_id s) id) BUS_STOPS with
  | Some s => s
  | None => mkStop "" "" 0 0 []
  end.

(** [x] stands somewhere before [y] in [l]. *)
Definition precedes {A : Type} (x y : A) (l : list A) : Prop :=
  exists l1 l2 l3, l = l1 ++ x :: l2 ++ y :: l3.

(** A query made of blanks only (the empty query included). *)
Fixpoint blank (s : string) : bool :=
  match s with
  | EmptyString => true
  | String c s' => PyStr.is_space c && blank s'
  end.

(** One order in which a set intersection can be listed: that of the first
    operand. *)
Definition list_inter (a b : list string) : list string :=
  nodup string_dec (List.filter (fun x => existsb (String.eqb x) b) a).

#[local] Instance first_operand_order : SetOrder.
Proof.
  refine {| set_inter := list_inter |}.
  - intros a b. apply List.NoDup_nodup.
  - intros a b x. unfold list_inter.
    rewrite List.nodup_In, filter_In, existsb_exists. split.
    + intros [Ha (y & Hy & Heq)]. apply String.eqb_eq in Heq. subst y. auto.
    + intros [Ha Hb]. split; [exact Ha|].
      exists x. split; [exact Hb | apply String.eqb_refl].
Defined.

(** The invariant of the table: the stored crowd level is the one the
    thresholds give for the stored passenger count. *)
Definition crowd_consistent (db : FleetState) : Prop :=
  forall reg bus, db !! reg = Some bus -> crowd_level bus = crowd_of (passenger_count bus).

(** The order of the final ranking, [(transfers, estimated_time_min)]. *)
Definition rank_le (x y : ConnectionResult) : Prop :=
  transfers x < transfers y
  \/ (transfers x = transfers y /\ estimated_time_min x <= estimated_time_min y).

(** The route of a direct result. *)
Definition direct_route (r : ConnectionResult) : option Route :=
  match r with
  | DirectResult route _ _ _ _ => Some route
  | TransferResult _ _ _ _ _ _ _ => None
  end.

(** The time the specification gives a direct result:
    [max(5, round(geodesic_km(A, B) * 3.5))] with the great-circle distance. *)
Definition geodesic_time (A B : Stop) : Z :=
  Z.max 5 (PyMath.py_round (haversine (lat A) (lng A) (lat B) (lng B) * 3.5)).

(** The last steps of [find_route_between], on any two candidate lists. *)
Definition ranked (direct transfer : list ConnectionResult) : list ConnectionResult :=
  py_prefix 5
    (py_sort rank_leb
       match direct with
       | [] => py_prefix 5 (sort_by_key estimated_time_min transfer)
       | _ :: _ => direct
       end).

(** The unrounded great-circle distance of a stop from a coordinate. *)
Definition true_distance (lat0 lng0 : R) (s : Stop) : R :=
  haversine lat0 lng0 (lat s) (lng s).

(** ** Further endpoints of [backend/app.py] *)

(** [search_routes]: the routes with the lower-cased query in their name,
    origin, destination or via corridor. *)
Definition search_routes (query : string) : list Route :=
  let q := PyStr.lower query in
  List.filter
    (fun r =>
       PyStr.contains (PyStr.lower (route_name r)) q
       || PyStr.contains (PyStr.lower (route_from r)) q
       || PyStr.contains (PyStr.lower (route_to r)) q
       || PyStr.contains (PyStr.lower (route_via r)) q)
    BUS_ROUTES.

(** [get_route]: a route and the stops that list it. *)
Definition get_route (rid : string) : Response (Route * list Stop) :=
  match route_by_id rid with
  | None => HTTPException 404 "Route not found"
  | Some route =>
      Ok (route, List.filter (fun s => existsb (String.eqb rid) (routes s)) BUS_STOPS)
  end.

(** [predict_eta]; [now_hour] is [datetime.now().hour], read when the request
    gives no hour. *)
Definition predict_eta (eta_model : option (R -> R -> R -> Z -> R)) (now_hour : Z)
    (distance_remaining avg_speed traffic_index : R) (hour_of_day : option Z)
    : R * string :=
  let hour_of_day :=
    match hour_of_day with Some h => h | None => now_hour end in
  match eta_model with
  | Some predict =>
      (PyMath.round_to (predict distance_remaining avg_speed traffic_index hour_of_day) 2,
       "ml_model")
  | None =>
      let base_eta := (distance_remaining / Rmax avg_speed 1 * 60)%R in
      let traffic_multiplier := (1 + traffic_index * 0.8)%R in
      let traffic_multiplier :=
        if rush_hour hour_of_day then (traffic_multiplier + 0.3)%R
        else traffic_multiplier in
      (PyMath.round_to (base_eta * traffic_multiplier) 2, "formula")
  end.

(** The body of [get_bus]: the bus without its driver and its time stamps. *)
Record BusView := mkBusView {
  view_bus_reg : string;
  view_route_id : string;
  view_latitude : R;
  view_longitude : R;
  view_speed : R;
  view_passenger_count : Z;
  view_crowd_level : CrowdLevel;
  view_status : string;
  view_delay_reason : string
}.

Definition bus_view (b : LiveBus) : BusView :=
  mkBusView (bus_reg b) (bus_route_id b) (latitude b) (longitude b) (speed b)
    (passenger_count b) (crowd_level b) (status b) (delay_reason b).

(** [get_bus]: the registration is upper-cased before the lookup. *)
Definition get_bus (reg : string) (db : FleetState) : Response BusView :=
  match db !! PyStr.upper reg with
  | None => HTTPException 404 "Bus not found or trip ended"
  | Some bus => Ok (bus_view bus)
  end.

(** An entry of [get_crowd_levels]; without a route in the table the route
    name is the stored route id and the route info is empty. *)
Record CrowdEntry := mkCrowdEntry {
  entry_bus_reg : string;
  entry_route_id : string;
  entry_route_name : string;
  entry_route_info : string;
  entry_passenger_count : Z;
  entry_crowd_level : CrowdLevel;
  entry_status : string
}.

Definition crowd_entry (b : LiveBus) : CrowdEntry :=
  let route := route_by_id (bus_route_id b) in
  mkCrowdEntry (bus_reg b) (bus_route_id b)
    (match route with Some r => route_name r | None => bus_route_id b end)
    (match route with
     | Some r => (route_from r ++ " → " ++ route_to r)%string
     | None => ""
     end)
    (passenger_count b) (crowd_level b) (status b).

(** [get_crowd_levels], on the rows of the table as the query lists them. *)
Definition get_crowd_levels (buses : list LiveBus) : list CrowdEntry :=
  List.map crowd_entry buses.

(** The rows of a table, in the order of its keys' enumeration. *)
Definition rows (db : FleetState) : list LiveBus :=
  List.map snd (map_to_list db).

(** The registration a request is about. *)
Definition request_reg (r : FleetRequest) : string :=
  match r with
  | UpdateLocation req => loc_bus_reg req
  | UpdatePassengers req => pc_bus_reg req
  | UpdateStatus req => st_bus_reg req
  | StartTrip req => ts_bus_reg req
  | EndTrip reg => reg
  end.

(** The requests whose commit fails: a passenger count that does not fit the
    64-bit column. *)
Definition overflows (r : FleetRequest) : bool :=
  match r with
  | UpdatePassengers req => negb (int64 (pc_passenger_count req))
  | _ => false
  end.

(** A text of ASCII characters only. *)
Fixpoint is_ascii (s : string) : bool :=
  match s with
  | EmptyString => true
  | String c s' => (nat_of_ascii c <? 128)%nat && is_ascii s'
  end.

(** The quantity [a] of [haversine], whose square root and that of [1 - a]
    the function takes. *)
Definition haversine_a (lat1 lon1 lat2 lon2 : R) : R :=
  (sin (PyMath.radians (lat2 - lat1) / 2) ^ 2
   + cos (PyMath.radians lat1) * cos (PyMath.radians lat2)
     * sin (PyMath.radians (lon2 - lon1) / 2) ^ 2)%R.

(** The key of a record is its registration. *)
Definition keyed_by_reg (db : FleetState) : Prop :=
  forall reg bus, db !! reg = Some bus -> bus_reg bus = reg.

(** The lower-cased, stripped form of a query, which [_match_stop] works on. *)
Definition normalized (query : string) : string := PyStr.strip (PyStr.lower query).

(** The stages of [_match_stop], by name. *)
Definition exact_match (q : string) : option Stop :=
  first_such (fun s => String.eqb (name_lower s) q || String.eqb (stop_id s) q) BUS_STOPS.

Definition partial_stage (q : string) : option Stop :=
  match partial_matches q with
  | [m] => Some m
  | m :: ms => List.head (shortest_name_first (m :: ms))
  | [] => word_start_match q
  end.

(** What the transfer search puts into its list. *)
Definition transfer_shape (A B : Stop) (r : ConnectionResult) : Prop :=
  exists mid r1 r2,
    In mid BUS_STOPS
    /\ stop_id mid <> stop_id A /\ stop_id mid <> stop_id B
    /\ r = TransferResult r1 r2 (stop_name A) (stop_name mid) (stop_name B)
             (transfer_time A mid B) (fare_min r1 + fare_min r2)
    /\ In (route_id r1) (routes A) /\ In (route_id r1) (routes mid)
    /\ In (route_id r2) (routes mid) /\ In (route_id r2) (routes B).

(** ** The distance and the nearest stops, with the domain error of
    [math.sqrt] *)

(** [math.sqrt(x)]: a ValueError for a negative [x]. *)
Definition py_sqrt (x : R) : option R :=
  if Rlt_dec x 0 then None else Some (sqrt x).

Section FloatDistance.
(** The value the double-precision evaluation gives to [a] in [haversine]:
    [haversine_a] up to rounding, which near an antipode can bring it above
    1. *)
Variable float_a : R -> R -> R -> R -> R.

(** [haversine] with its two square roots; [None] is the ValueError. *)
Definition haversine_checked (lat1 lon1 lat2 lon2 : R) : option R :=
  let a := float_a lat1 lon1 lat2 lon2 in
  match py_sqrt a with
  | None => None
  | Some root_a =>
      match py_sqrt (1 - a) with
      | None => None
      | Some root_1a => Some (6371 * 2 * PyMath.atan2 root_a root_1a)%R
      end
  end.

(** The loop of [get_nearest_stops] that fills [stops_with_dist]; the first
    error ends it. *)
Fixpoint stops_with_dist (lat0 lng0 : R) (stops : list Stop)
    : option (list NearStop) :=
  match stops with
  | [] => Some []
  | s :: rest =>
      match haversine_checked lat0 lng0 (lat s) (lng s) with
      | None => None
      | Some dist =>
          match stops_with_dist lat0 lng0 rest with
          | None => None
          | Some entries =>
              Some (mkNearStop s (PyMath.round_to dist 2)
                      (PyMath.py_round (dist * 1000)) :: entries)
          end
      end
  end.

(** [get_nearest_stops]: the [stops] field of the response, or status 500 for
    the ValueError that nothing catches. *)
Definition get_nearest_stops_checked (lat0 lng0 : R) (limit : Z)
    : Response (list NearStop) :=
  match stops_with_dist lat0 lng0 BUS_STOPS with
  | None => HTTPException 500 "Internal Server Error"
  | Some entries =>
      Ok (py_prefix limit
            (py_sort (fun x y => PyMath.Rleb (near_distance_km x) (near_distance_km y))
               entries))
  end.

(** The distance of a stop, where [haversine] gives one. *)
Definition checked_distance (lat0 lng0 : R) (s : Stop) : R :=
  match haversine_checked lat0 lng0 (lat s) (lng s) with
  | Some dist => dist
  | None => 0%R
  end.

End FloatDistance.
(** * Properties *)

(** ** Text primitives *)

Ltac each_char c := destruct c as [[] [] [] [] [] [] [] []]; reflexivity.

Lemma lower_char_idem c : PyStr.lower_char (PyStr.lower_char c) = PyStr.lower_char c.
Proof. each_char c. Qed.

Lemma lower_char_upper_char c :
  PyStr.lower_char (PyStr.upper_char c) = PyStr.lower_char c.
Proof. each_char c. Qed.

Lemma is_space_lower_char c : PyStr.is_space (PyStr.lower_char c) = PyStr.is_space c.
Proof. each_char c. Qed.

Lemma lower_idem s : PyStr.lower (PyStr.lower s) = PyStr.lower s.
Proof. induction s as [|c s IH]; simpl; [|rewrite lower_char_idem, IH]; reflexivity. Qed.

Lemma lower_upper s : PyStr.lower (PyStr.upper s) = PyStr.lower s.
Proof.
  induction s as [|c s IH]; simpl; [|rewrite lower_char_upper_char, IH]; reflexivity.
Qed.

Lemma is_empty_lower s : PyStr.is_empty (PyStr.lower s) = PyStr.is_empty s.
Proof. destruct s; reflexivity. Qed.

Lemma lower_lstrip s : PyStr.lower (PyStr.lstrip s) = PyStr.lstrip (PyStr.lower s).
Proof.
  induction s as [|c s IH]; simpl; [reflexivity|].
  rewrite is_space_lower_char. destruct (PyStr.is_space c); [exact IH | reflexivity].
Qed.

Lemma lower_rstrip s : PyStr.lower (PyStr.rstrip s) = PyStr.rstrip (PyStr.lower s).
Proof.
  induction s as [|c s IH]; simpl; [reflexivity|].
  rewrite is_space_lower_char, <- IH, is_empty_lower.
  destruct (PyStr.is_space c && PyStr.is_empty (PyStr.rstrip s)); reflexivity.
Qed.

(** [text.strip().lower()] and [text.lower().strip()] are the same string. *)
Lemma lower_strip s : PyStr.lower (PyStr.strip s) = PyStr.strip (PyStr.lower s).
Proof. unfold PyStr.strip. rewrite lower_rstrip, lower_lstrip. reflexivity. Qed.

Lemma lstrip_blank s : blank s = true -> PyStr.lstrip s = "".
Proof.
  induction s as [|c s IH]; simpl; [reflexivity|].
  intros [Hc Hs]%andb_prop. rewrite Hc. auto.
Qed.

Lemma blank_lower s : blank (PyStr.lower s) = blank s.
Proof.
  induction s as [|c s IH]; simpl; [|rewrite is_space_lower_char, IH]; reflexivity.
Qed.

Lemma strip_lower_blank s : blank s = true -> PyStr.strip (PyStr.lower s) = "".
Proof.
  intros Hs. unfold PyStr.strip. rewrite lstrip_blank; [reflexivity|].
  rewrite blank_lower. exact Hs.
Qed.

Lemma Forall_of_forallb {A} (P : A -> Prop) (f : A -> bool) (l : list A) :
  (forall x, f x = true -> P x) -> forallb f l = true -> Forall P l.
Proof.
  intros Hf Hl. apply List.Forall_forall. intros x Hx.
  apply Hf. rewrite forallb_forall in Hl. exact (Hl x Hx).
Qed.

(** ** The stop resolver on the catalog's own names *)

Example match_howrah : option_map stop_id (_match_stop "  HOWRAH ") = Some "hw".
Proof. vm_compute. reflexivity. Qed.

Example match_newtown : option_map stop_id (_match_stop "newtown") = Some "nt".
Proof. vm_compute. reflexivity. Qed.

Example match_sector : option_map stop_id (_match_stop "salt lake sector") = Some "sl5".
Proof. vm_compute. reflexivity. Qed.

Example match_unknown : _match_stop "zzz" = None.
Proof. vm_compute. reflexivity. Qed.

Lemma match_stop_names : Forall (fun S => _match_stop (stop_name S) = Some S) BUS_STOPS.
Proof. repeat (constructor; [vm_compute; reflexivity|]). constructor. Qed.

Lemma match_stop_lower_only query : _match_stop (PyStr.lower query) = _match_stop query.
Proof. unfold _match_stop. rewrite lower_idem. reflexivity. Qed.

Lemma match_stop_upper query : _match_stop (PyStr.upper query) = _match_stop query.
Proof. unfold _match_stop. rewrite lower_upper. reflexivity. Qed.

(** C7. For every stop [S] of the catalog, [_match_stop] applied to the display
    name of [S] returns [S], and the upper-cased and the lower-cased name
    resolve to the same stop, which is [S]. *)
Theorem match_stop_exact_name_any_case (S : Stop) :
  In S BUS_STOPS ->
  _match_stop (stop_name S) = Some S
  /\ _match_stop (PyStr.upper (stop_name S)) = _match_stop (PyStr.lower (stop_name S))
  /\ _match_stop (PyStr.lower (stop_name S)) = Some S.
Proof.
  intros HS.
  assert (Hname : _match_stop (stop_name S) = Some S).
  { pose proof match_stop_names as Hall. rewrite List.Forall_forall in Hall. auto. }
  rewrite match_stop_upper, match_stop_lower_only. auto.
Qed.

Lemma match_stop_exact_name_any_case_witness :
  In (catalog_stop "nt") BUS_STOPS
  /\ _match_stop "New Town City Centre" = Some (catalog_stop "nt")
  /\ _match_stop "NEW TOWN CITY CENTRE" = _match_stop "new town city centre"
  /\ _match_stop "new town city centre" = Some (catalog_stop "nt").
Proof.
  assert (Hin : In (catalog_stop "nt") BUS_STOPS).
  { do 3 right. left. reflexivity. }
  split; [exact Hin|].
  exact (match_stop_exact_name_any_case (catalog_stop "nt") Hin).
Defined.

(** ** The empty query *)

(** C10. For a query that is empty or only blanks the partial-match stage
    keeps every stop of the catalog, and [_match_stop] returns a stop (never
    [None]): the one with the shortest display name, the first such in catalog
    order (here Joka). *)
Theorem match_stop_blank_query (query : string) :
  blank query = true ->
  partial_matches (PyStr.strip (PyStr.lower query)) = BUS_STOPS
  /\ exists S before after,
       _match_stop query = Some S
       /\ stop_name S = "Joka"
       /\ BUS_STOPS = before ++ S :: after
       /\ Forall (fun s => PyStr.len (stop_name S) < PyStr.len (stop_name s)) before
       /\ Forall (fun s => PyStr.len (stop_name S) <= PyStr.len (stop_name s)) after.
Proof.
  intros Hq. pose proof (strip_lower_blank query Hq) as Hnorm.
  split.
  - rewrite Hnorm. vm_compute. reflexivity.
  - exists (catalog_stop "jk"), (firstn 18 BUS_STOPS), (skipn 19 BUS_STOPS).
    split; [unfold _match_stop; rewrite Hnorm; vm_compute; reflexivity|].
    split; [vm_compute; reflexivity|].
    split; [vm_compute; reflexivity|].
    split.
    + apply Forall_of_forallb
        with (f := fun s => PyStr.len (stop_name (catalog_stop "jk")) <? PyStr.len (stop_name s)).
      * intros x Hx. apply Z.ltb_lt. exact Hx.
      * vm_compute. reflexivity.
    + apply Forall_of_forallb
        with (f := fun s => PyStr.len (stop_name (catalog_stop "jk")) <=? PyStr.len (stop_name s)).
      * intros x Hx. apply Z.leb_le. exact Hx.
      * vm_compute. reflexivity.
Qed.

Lemma match_stop_blank_query_witness :
  exists S, _match_stop "   " = Some S /\ stop_name S = "Joka".
Proof.
  destruct (match_stop_blank_query "   " eq_refl) as [_ (S & b & a & HS & Hn & _)].
  exists S. split; assumption.
Defined.

(** ** The destination resolution of [smart_eta] against [_match_stop] *)

(** C3, as stated, fails: on "bally" [_match_stop] returns Bally (exact name)
    while [smart_eta] takes the first stop whose name contains the text,
    Ballygunge; on "hw" [_match_stop] finds Howrah Station by id while
    [smart_eta] finds nothing; on "xyz howrah" it is the other way round. *)
Lemma resolve_destination_differs :
  ~ (forall text, resolve_destination text = _match_stop text)
  /\ option_map stop_name (_match_stop "bally") = Some "Bally"
  /\ option_map stop_name (resolve_destination "bally") = Some "Ballygunge"
  /\ option_map stop_name (_match_stop "hw") = Some "Howrah Station"
  /\ resolve_destination "hw" = None
  /\ _match_stop "xyz howrah" = None
  /\ option_map stop_name (resolve_destination "xyz howrah") = Some "Howrah Station".
Proof.
  split.
  - intros Hall. specialize (Hall "hw"). vm_compute in Hall. discriminate Hall.
  - repeat split; vm_compute; reflexivity.
Qed.

(** C3, amended. Whenever the text, lower-cased and stripped, is the
    lower-cased display name of a catalog stop other than Bally, the
    destination resolution of [smart_eta] and [_match_stop] both return that
    stop. *)
Theorem resolve_destination_agrees_on_names (S : Stop) (text : string) :
  In S BUS_STOPS ->
  stop_id S <> "bly" ->
  PyStr.strip (PyStr.lower text) = name_lower S ->
  resolve_destination text = Some S /\ _match_stop text = Some S.
Proof.
  intros HS Hid Hnorm.
  unfold resolve_destination, _match_stop.
  rewrite lower_strip, Hnorm. clear Hnorm text.
  revert Hid. revert S HS. refine (proj1 (List.Forall_forall _ _) _).
  repeat (constructor;
          [intros Hid; first [ split; vm_compute; reflexivity
                             | exfalso; apply Hid; reflexivity ] |]).
  constructor.
Qed.

Lemma resolve_destination_agrees_on_names_witness :
  resolve_destination " Howrah STATION " = Some (catalog_stop "hw")
  /\ _match_stop " Howrah STATION " = Some (catalog_stop "hw").
Proof.
  apply (resolve_destination_agrees_on_names (catalog_stop "hw") " Howrah STATION ").
  - left. reflexivity.
  - vm_compute. discriminate.
  - vm_compute. reflexivity.
Defined.

(** ** Lists: slices and the stable sort *)

Section ListFacts.
Context {A : Type}.

Lemma py_prefix_split (n : Z) (l : list A) :
  exists rest, l = py_prefix n l ++ rest.
Proof.
  unfold py_prefix. destruct (n <? 0).
  - eexists. symmetry. apply firstn_skipn.
  - eexists. symmetry. apply firstn_skipn.
Qed.

Lemma py_prefix_In (n : Z) (l : list A) (x : A) :
  In x (py_prefix n l) -> In x l.
Proof.
  destruct (py_prefix_split n l) as [rest Hl]. intros Hx.
  rewrite Hl. apply in_or_app. left. exact Hx.
Qed.

Lemma py_prefix_length (n : Z) (l : list A) :
  0 <= n -> (List.length (py_prefix n l) <= Z.to_nat n)%nat.
Proof.
  intros Hn. unfold py_prefix.
  destruct (Z.ltb_spec n 0); [lia|]. apply firstn_le_length.
Qed.

Lemma py_prefix_all (n : Z) (l : list A) :
  Z.of_nat (List.length l) <= n -> py_prefix n l = l.
Proof.
  intros Hn. unfold py_prefix.
  destruct (Z.ltb_spec n 0); [lia|]. apply firstn_all2. lia.
Qed.

Lemma precedes_cons (a x y : A) (l : list A) :
  precedes x y l -> precedes x y (a :: l).
Proof.
  intros (l1 & l2 & l3 & ->). exists (a :: l1), l2, l3. reflexivity.
Qed.

Lemma precedes_head (x y : A) (l : list A) : In y l -> precedes x y (x :: l).
Proof.
  intros (l2 & l3 & ->)%in_split. exists [], l2, l3. reflexivity.
Qed.

Lemma StronglySorted_app_l (R : A -> A -> Prop) (l1 l2 : list A) :
  StronglySorted R (l1 ++ l2) -> StronglySorted R l1.
Proof.
  induction l1 as [|a l1 IH]; simpl; intros Hs; [constructor|].
  inversion Hs as [|? ? Hs' Hall]; subst. constructor; [auto|].
  apply List.Forall_forall. intros z Hz.
  rewrite List.Forall_forall in Hall. apply Hall, in_or_app. left. exact Hz.
Qed.

Lemma StronglySorted_app_cross (R : A -> A -> Prop) (l1 l2 : list A) (x y : A) :
  StronglySorted R (l1 ++ l2) -> In x l1 -> In y l2 -> R x y.
Proof.
  induction l1 as [|a l1 IH]; simpl; intros Hs Hx Hy; [contradiction|].
  inversion Hs as [|? ? Hs' Hall]; subst.
  destruct Hx as [-> | Hx]; [|auto].
  rewrite List.Forall_forall in Hall. apply Hall, in_or_app. right. exact Hy.
Qed.

Lemma StronglySorted_precedes (R : A -> A -> Prop) (l : list A) (x y : A) :
  StronglySorted R l -> precedes x y l -> R x y.
Proof.
  intros Hs (l1 & l2 & l3 & ->).
  induction l1 as [|a l1 IH]; simpl in Hs.
  - inversion Hs as [|? ? _ Hall]; subst.
    rewrite List.Forall_forall in Hall. apply Hall, in_or_app. right. left. reflexivity.
  - inversion Hs; subst. auto.
Qed.

Variable leb : A -> A -> bool.

Lemma insert_sorted_perm (x : A) (l : list A) :
  Permutation (insert_sorted leb x l) (x :: l).
Proof.
  induction l as [|y l IH]; simpl; [reflexivity|].
  destruct (leb x y); [reflexivity|].
  rewrite IH. apply perm_swap.
Qed.

Lemma py_sort_perm (l : list A) : Permutation (py_sort leb l) l.
Proof.
  induction l as [|x l IH]; simpl; [reflexivity|].
  rewrite insert_sorted_perm, IH. reflexivity.
Qed.

Lemma py_sort_In (l : list A) (x : A) : In x (py_sort leb l) <-> In x l.
Proof.
  split; apply Permutation_in; [|symmetry]; apply py_sort_perm.
Qed.

Lemma py_sort_length (l : list A) : List.length (py_sort leb l) = List.length l.
Proof. apply Permutation_length, py_sort_perm. Qed.

(** Stability: an item is never moved behind one it compares [<=] to and
    stood in front of. *)
Lemma insert_sorted_keeps_order (a x y : A) (l : list A) :
  precedes x y l -> precedes x y (insert_sorted leb a l).
Proof.
  revert x y. induction l as [|z l IH]; intros x y Hp.
  - destruct Hp as (l1 & l2 & l3 & Hl). destruct l1; discriminate Hl.
  - simpl. destruct (leb a z); [apply precedes_cons; exact Hp|].
    destruct Hp as (l1 & l2 & l3 & Hl). destruct l1 as [|b l1]; simpl in Hl.
    + injection Hl as -> ->. apply precedes_head.
      apply (Permutation_in _ (Permutation_sym (insert_sorted_perm a _))).
      right. apply in_or_app. right. left. reflexivity.
    + injection Hl as -> ->. apply precedes_cons, IH.
      exists l1, l2, l3. reflexivity.
Qed.

Lemma insert_sorted_before (x y : A) (l : list A) :
  In y l -> leb x y = true -> precedes x y (insert_sorted leb x l).
Proof.
  induction l as [|z l IH]; simpl; intros Hy Hxy; [contradiction|].
  destruct (leb x z) eqn:Hxz.
  - apply precedes_head. exact Hy.
  - destruct Hy as [-> | Hy]; [congruence|].
    apply precedes_cons, IH; assumption.
Qed.

Lemma py_sort_stable (x y : A) (l : list A) :
  precedes x y l -> leb x y = true -> precedes x y (py_sort leb l).
Proof.
  intros (l1 & l2 & l3 & ->) Hxy.
  induction l1 as [|a l1 IH]; simpl.
  - apply insert_sorted_before; [|exact Hxy].
    apply py_sort_In, in_or_app. right. left. reflexivity.
  - apply insert_sorted_keeps_order, IH.
Qed.

(** Sortedness, for a comparison that is total and transitive. *)
Hypothesis leb_total : forall x y, leb x y = true \/ leb y x = true.
Hypothesis leb_trans : forall x y z, leb x y = true -> leb y z = true -> leb x z = true.

Lemma insert_sorted_sorted (x : A) (l : list A) :
  StronglySorted (fun a b => leb a b = true) l ->
  StronglySorted (fun a b => leb a b = true) (insert_sorted leb x l).
Proof.
  induction l as [|y l IH]; simpl; intros Hs.
  - constructor; [constructor | constructor].
  - inversion Hs as [|? ? Hs' Hall]; subst.
    destruct (leb x y) eqn:Hxy.
    + constructor; [exact Hs|]. constructor; [exact Hxy|].
      apply List.Forall_forall. intros z Hz. rewrite List.Forall_forall in Hall.
      apply leb_trans with y; auto.
    + constructor; [auto|].
      apply List.Forall_forall. intros z Hz.
      apply (Permutation_in _ (insert_sorted_perm x l)) in Hz.
      destruct Hz as [<- | Hz].
      * destruct (leb_total x y) as [Hc | Hc]; [congruence | exact Hc].
      * rewrite List.Forall_forall in Hall. auto.
Qed.

Lemma py_sort_sorted (l : list A) :
  StronglySorted (fun a b => leb a b = true) (py_sort leb l).
Proof.
  induction l as [|x l IH]; simpl; [constructor|].
  apply insert_sorted_sorted, IH.
Qed.

End ListFacts.

(** ** The live-bus table *)

Example crowd_of_boundaries :
  List.map crowd_of [0; 20; 21; 40; 41] = [Low; Low; Medium; Medium; High].
Proof. reflexivity. Qed.

Lemma crowd_of_spec (count : Z) :
  (count <= 20 -> crowd_of count = Low)
  /\ (21 <= count <= 40 -> crowd_of count = Medium)
  /\ (41 <= count -> crowd_of count = High).
Proof.
  unfold crowd_of.
  destruct (Z.leb_spec count 20), (Z.leb_spec count 40); repeat split; intros; lia || reflexivity.
Qed.

Lemma crowd_consistent_insert (db : FleetState) (reg : string) (bus : LiveBus) :
  crowd_consistent db ->
  crowd_level bus = crowd_of (passenger_count bus) ->
  crowd_consistent (<[reg := bus]> db).
Proof.
  intros Hdb Hbus reg' bus' Hget.
  destruct (decide (reg = reg')) as [-> | Hne].
  - rewrite lookup_insert_eq in Hget. congruence.
  - rewrite lookup_insert_ne in Hget by exact Hne. eauto.
Qed.

Lemma crowd_consistent_delete (db : FleetState) (reg : string) :
  crowd_consistent db -> crowd_consistent (delete reg db).
Proof.
  intros Hdb reg' bus' Hget.
  destruct (decide (reg = reg')) as [-> | Hne].
  - rewrite lookup_delete_eq in Hget. discriminate.
  - rewrite lookup_delete_ne in Hget by exact Hne. eauto.
Qed.

Lemma crowd_consistent_empty : crowd_consistent ∅.
Proof. intros reg bus Hget. rewrite lookup_empty in Hget. discriminate. Qed.

Lemma handle_crowd_consistent (now : Z) (r : FleetRequest) (db : FleetState) :
  crowd_consistent db -> crowd_consistent (handle now r db).
Proof.
  intros Hdb. destruct r as [req | req | req | req | reg]; simpl.
  - unfold update_bus_location; simpl.
    destruct (db !! loc_bus_reg req) as [bus|] eqn:Hget;
      apply crowd_consistent_insert; simpl; eauto.
  - unfold update_passengers.
    destruct (db !! pc_bus_reg req) as [bus|] eqn:Hget; simpl; [|exact Hdb].
    destruct (int64 (pc_passenger_count req)); simpl; [|exact Hdb].
    apply crowd_consistent_insert; [exact Hdb | reflexivity].
  - unfold update_bus_status.
    destruct (db !! st_bus_reg req) as [bus|] eqn:Hget; simpl; [|exact Hdb].
    apply crowd_consistent_insert; simpl; eauto.
  - unfold start_trip; simpl.
    destruct (db !! ts_bus_reg req) as [bus|] eqn:Hget;
      apply crowd_consistent_insert; simpl; auto.
  - unfold end_trip; simpl.
    destruct (db !! reg); [apply crowd_consistent_delete|]; exact Hdb.
Qed.

Lemma run_crowd_consistent (reqs : list (Z * FleetRequest)) (db : FleetState) :
  crowd_consistent db -> crowd_consistent (run reqs db).
Proof.
  revert db. induction reqs as [|[now r] reqs IH]; intros db Hdb; simpl; [exact Hdb|].
  apply IH, handle_crowd_consistent, Hdb.
Qed.

(** C5. The crowd level is the function [crowd_of] of the passenger count
    (at most 20: Low, 21 to 40: Medium, 41 and more: High); every request
    keeps the table consistent with it, so every table reached from the empty
    one is consistent; [update_passengers] stores the level of the new count
    when the count fits the 64-bit column, and otherwise fails with status 500
    and stores nothing; [update_bus_location] on a new registration and
    [start_trip] store count 0 with level Low. *)
Theorem crowd_level_function_of_count :
  (forall count,
      (count <= 20 -> crowd_of count = Low)
      /\ (21 <= count <= 40 -> crowd_of count = Medium)
      /\ (41 <= count -> crowd_of count = High))
  /\ List.map crowd_of [0; 20; 21; 40; 41] = [Low; Low; Medium; Medium; High]
  /\ (forall now r db, crowd_consistent db -> crowd_consistent (handle now r db))
  /\ (forall reqs, crowd_consistent (run reqs ∅))
  /\ (forall now req db bus,
        db !! pc_bus_reg req = Some bus ->
        int64 (pc_passenger_count req) = true ->
        exists bus',
          fst (update_passengers now req db) !! pc_bus_reg req = Some bus'
          /\ passenger_count bus' = pc_passenger_count req
          /\ crowd_level bus' = crowd_of (pc_passenger_count req))
  /\ (forall now req db bus,
        db !! pc_bus_reg req = Some bus ->
        int64 (pc_passenger_count req) = false ->
        update_passengers now req db = (db, HTTPException 500 "Internal Server Error"))
  /\ (forall now req db,
        db !! loc_bus_reg req = None ->
        exists bus',
          fst (update_bus_location now req db) !! loc_bus_reg req = Some bus'
          /\ passenger_count bus' = 0 /\ crowd_level bus' = Low)
  /\ (forall now req db,
        exists bus',
          fst (start_trip now req db) !! ts_bus_reg req = Some bus'
          /\ passenger_count bus' = 0 /\ crowd_level bus' = Low).
Proof.
  split; [exact crowd_of_spec|].
  split; [reflexivity|].
  split; [exact handle_crowd_consistent|].
  split; [intros reqs; apply run_crowd_consistent, crowd_consistent_empty|].
  split; [|split; [|split]].
  - intros now req db bus Hget Hfits. unfold update_passengers. rewrite Hget, Hfits. simpl.
    eexists. rewrite lookup_insert_eq. split; [reflexivity|]. split; reflexivity.
  - intros now req db bus Hget Hfits. unfold update_passengers. rewrite Hget, Hfits.
    reflexivity.
  - intros now req db Hget. unfold update_bus_location. rewrite Hget. simpl.
    eexists. rewrite lookup_insert_eq. split; [reflexivity|]. split; reflexivity.
  - intros now req db. unfold start_trip.
    destruct (db !! ts_bus_reg req); simpl;
      eexists; rewrite lookup_insert_eq; (split; [reflexivity|]); split; reflexivity.
Qed.

Example passengers_41_is_high :
  let db0 := fst (start_trip 100 (mkTripStartRequest "WB-04-1234" "S12") ∅) in
  let db1 := fst (update_passengers 101 (mkPassengerCountUpdate "WB-04-1234" 41) db0) in
  let db2 := fst (update_bus_location 102 (mkLocationUpdate "WB-04-1234" 22.58 88.35 30 "") db1) in
  option_map crowd_level (db0 !! "WB-04-1234") = Some Low
  /\ option_map crowd_level (db1 !! "WB-04-1234") = Some High
  /\ option_map crowd_level (db2 !! "WB-04-1234") = Some High.
Proof.
  cbv zeta. unfold start_trip, update_passengers, update_bus_location.
  cbn [fst snd loc_bus_reg pc_bus_reg ts_bus_reg pc_passenger_count].
  change (int64 41) with true.
  rewrite lookup_empty. cbn [fst]. rewrite lookup_insert_eq. cbn [fst].
  rewrite !lookup_insert_eq. repeat split.
Qed.

(** C8. [end_trip] always answers with the success status; on a registration
    without a record it leaves the table as it is, and on a registration with
    a record it removes that record and no other. *)
Theorem end_trip_missing_is_noop (reg : string) (db : FleetState) :
  snd (end_trip reg db) = Ok ("trip_ended", reg)
  /\ (db !! reg = None -> fst (end_trip reg db) = db)
  /\ (forall bus,
        db !! reg = Some bus ->
        fst (end_trip reg db) = delete reg db
        /\ fst (end_trip reg db) !! reg = None
        /\ forall other, other <> reg -> fst (end_trip reg db) !! other = db !! other).
Proof.
  unfold end_trip; simpl. split; [reflexivity|]. split.
  - intros ->. reflexivity.
  - intros bus ->. split; [reflexivity|]. split.
    + apply lookup_delete_eq.
    + intros other Hne. apply lookup_delete_ne. congruence.
Qed.

Example end_trip_twice :
  let db0 := fst (start_trip 100 (mkTripStartRequest "WB-04-1234" "S12") ∅) in
  fst (end_trip "WB-04-1234" db0) = ∅
  /\ fst (end_trip "WB-04-1234" (fst (end_trip "WB-04-1234" db0))) = ∅.
Proof.
  cbv zeta. unfold start_trip, end_trip. cbn [fst snd ts_bus_reg].
  rewrite lookup_empty. rewrite lookup_insert_eq. cbn [fst].
  rewrite delete_insert_eq, delete_empty. rewrite lookup_empty. auto.
Qed.

(** C9. [update_bus_location] on a registration that has a record sets the
    position, the speed and the time of the last update, leaves the passenger
    count, the crowd level and every other record alone, and keeps the stored
    route when the request carries the empty route id. *)
Theorem update_location_existing (now : Z) (req : LocationUpdate)
    (db : FleetState) (bus : LiveBus) :
  db !! loc_bus_reg req = Some bus ->
  exists bus',
    fst (update_bus_location now req db) !! loc_bus_reg req = Some bus'
    /\ (loc_route_id req = "" -> bus_route_id bus' = bus_route_id bus)
    /\ latitude bus' = loc_latitude req
    /\ longitude bus' = loc_longitude req
    /\ speed bus' = loc_speed req
    /\ last_update bus' = now
    /\ passenger_count bus' = passenger_count bus
    /\ crowd_level bus' = crowd_level bus
    /\ (forall other, other <> loc_bus_reg req ->
          fst (update_bus_location now req db) !! other = db !! other).
Proof.
  intros Hget. unfold update_bus_location. rewrite Hget. simpl.
  eexists. rewrite lookup_insert_eq. split; [reflexivity|]. simpl.
  split; [intros ->; reflexivity|].
  repeat (split; [reflexivity|]).
  intros other Hne. apply lookup_insert_ne. congruence.
Qed.

Lemma update_location_existing_witness :
  let bus := mkLiveBus "WB-04-1234" "" "" "S12" 22.58 88.35 20 41 High "running" "" 100 101 in
  let db : FleetState := {[ "WB-04-1234" := bus ]} in
  let req := mkLocationUpdate "WB-04-1234" 22.59 88.36 25 "" in
  exists bus',
    fst (update_bus_location 102 req db) !! "WB-04-1234" = Some bus'
    /\ bus_route_id bus' = "S12"
    /\ passenger_count bus' = 41
    /\ crowd_level bus' = High
    /\ last_update bus' = 102.
Proof.
  cbv zeta.
  destruct (update_location_existing 102
              (mkLocationUpdate "WB-04-1234" 22.59 88.36 25 "")
              {[ "WB-04-1234" :=
                   mkLiveBus "WB-04-1234" "" "" "S12" 22.58 88.35 20 41 High
                     "running" "" 100 101 ]}
              (mkLiveBus "WB-04-1234" "" "" "S12" 22.58 88.35 20 41 High
                 "running" "" 100 101))
    as (bus' & Hget & Hroute & _ & _ & _ & Hupd & Hcount & Hcrowd & _).
  - apply lookup_singleton_eq.
  - exists bus'. split; [exact Hget|].
    split; [apply Hroute; reflexivity|].
    split; [exact Hcount|]. split; [exact Hcrowd | exact Hupd].
Defined.

(** ** The connection finder *)

Lemma rank_leb_le (x y : ConnectionResult) : rank_leb x y = true <-> rank_le x y.
Proof.
  unfold rank_leb, rank_le.
  rewrite orb_true_iff, andb_true_iff, Z.ltb_lt, Z.eqb_eq, Z.leb_le. tauto.
Qed.

Lemma rank_leb_total (x y : ConnectionResult) :
  rank_leb x y = true \/ rank_leb y x = true.
Proof. rewrite !rank_leb_le. unfold rank_le. lia. Qed.

Lemma rank_leb_trans (x y z : ConnectionResult) :
  rank_leb x y = true -> rank_leb y z = true -> rank_leb x z = true.
Proof. rewrite !rank_leb_le. unfold rank_le. lia. Qed.

Lemma route_by_id_id (rid : string) (route : Route) :
  route_by_id rid = Some route -> route_id route = rid.
Proof.
  unfold route_by_id, first_such. intros Hfind.
  apply find_some in Hfind. destruct Hfind as [_ Heq]. apply String.eqb_eq, Heq.
Qed.

Lemma ranked_sorted (direct transfer : list ConnectionResult) :
  StronglySorted rank_le (ranked direct transfer).
Proof.
  unfold ranked.
  set (results := match direct with [] => _ | _ :: _ => _ end).
  destruct (py_prefix_split 5 (py_sort rank_leb results)) as [rest Hsplit].
  pose proof (py_sort_sorted rank_leb rank_leb_total rank_leb_trans results) as Hs.
  rewrite Hsplit in Hs. apply StronglySorted_app_l in Hs.
  clear Hsplit. induction Hs as [|x l Hl IH Hx]; constructor; [exact IH|].
  rewrite List.Forall_forall in *. intros y Hy. apply rank_leb_le. auto.
Qed.

Lemma ranked_length (direct transfer : list ConnectionResult) :
  (List.length (ranked direct transfer) <= 5)%nat.
Proof. unfold ranked. apply (py_prefix_length 5). lia. Qed.

Lemma ranked_from (direct transfer : list ConnectionResult) (r : ConnectionResult) :
  In r (ranked direct transfer) ->
  In r direct \/ (direct = [] /\ In r transfer).
Proof.
  unfold ranked. intros Hr.
  apply py_prefix_In, py_sort_In in Hr.
  destruct direct as [|d ds]; [right | left; exact Hr].
  split; [reflexivity|].
  apply py_prefix_In in Hr. unfold sort_by_key in Hr. apply py_sort_In in Hr. exact Hr.
Qed.

Lemma ranked_keeps_few (direct transfer : list ConnectionResult) (r : ConnectionResult) :
  In r direct -> (List.length direct <= 5)%nat -> In r (ranked direct transfer).
Proof.
  intros Hr Hlen. unfold ranked.
  destruct direct as [|d ds]; [contradiction|].
  rewrite py_prefix_all.
  - apply py_sort_In. exact Hr.
  - rewrite py_sort_length. lia.
Qed.

Section ConnectionFacts.
Context `{SetOrder}.

Lemma direct_results_In (A B : Stop) (r : ConnectionResult) :
  In r (direct_results A B) <->
  exists rid route,
    In rid (set_inter (routes A) (routes B))
    /\ route_by_id rid = Some route
    /\ r = DirectResult route (stop_name A) (stop_name B)
             (direct_time A B) (fare_min route).
Proof.
  unfold direct_results. rewrite in_flat_map. split.
  - intros (rid & Hrid & Hr). exists rid.
    destruct (route_by_id rid) as [route|]; [|contradiction].
    exists route. destruct Hr as [<- | []]. auto.
  - intros (rid & route & Hrid & Hroute & ->). exists rid.
    split; [exact Hrid|]. rewrite Hroute. left. reflexivity.
Qed.

Lemma direct_results_direct (A B : Stop) (r : ConnectionResult) :
  In r (direct_results A B) -> is_direct r = true.
Proof. rewrite direct_results_In. intros (rid & route & _ & _ & ->). reflexivity. Qed.

Lemma transfer_step_transfers (A B mid : Stop) (acc : list string * list ConnectionResult) :
  Forall (fun r => is_direct r = false) (snd acc) ->
  Forall (fun r => is_direct r = false) (snd (transfer_step A B acc mid)).
Proof.
  destruct acc as [seen results]. unfold transfer_step. intros Hacc.
  destruct (_ || _); [exact Hacc|].
  destruct (set_inter (routes A) (routes mid)) as [|rid1 ?]; [exact Hacc|].
  destruct (set_inter (routes mid) (routes B)) as [|rid2 ?]; [exact Hacc|].
  destruct (route_by_id rid1) as [r1|]; [|exact Hacc].
  destruct (route_by_id rid2) as [r2|]; [|exact Hacc].
  destruct (existsb _ seen); [exact Hacc|].
  simpl in *. apply Forall_app. split; [exact Hacc|].
  constructor; [reflexivity | constructor].
Qed.

Lemma transfer_loop_transfers (A B : Stop) (mids : list Stop)
    (acc : list string * list ConnectionResult) :
  Forall (fun r => is_direct r = false) (snd acc) ->
  Forall (fun r => is_direct r = false) (snd (fold_left (transfer_step A B) mids acc)).
Proof.
  revert acc. induction mids as [|mid l IH]; intros acc Hacc; simpl; [exact Hacc|].
  apply IH, transfer_step_transfers, Hacc.
Qed.

Lemma transfer_results_transfers (A B : Stop) :
  Forall (fun r => is_direct r = false) (transfer_results A B).
Proof. apply transfer_loop_transfers. constructor. Qed.

Lemma find_connections_ranked (A B : Stop) :
  find_connections A B = ranked (direct_results A B) (transfer_results A B).
Proof. reflexivity. Qed.

Lemma direct_results_length (A B : Stop) :
  (List.length (direct_results A B) <= List.length (set_inter (routes A) (routes B)))%nat.
Proof.
  unfold direct_results.
  induction (set_inter (routes A) (routes B)) as [|rid l IH]; simpl; [lia|].
  rewrite length_app. destruct (route_by_id rid); simpl; lia.
Qed.

(** C4. When a direct result exists for the pair (a route id of both stops
    that is in the route table), [find_connections] returns no transfer
    result; and for every pair the returned list is sorted by
    [(transfers, estimated_time_min)] and has at most 5 items. *)
Theorem no_transfer_beside_direct_and_ranked (A B : Stop) :
  ((exists rid route,
       In rid (routes A) /\ In rid (routes B) /\ route_by_id rid = Some route) ->
   Forall (fun r => is_direct r = true /\ transfers r = 0) (find_connections A B))
  /\ StronglySorted rank_le (find_connections A B)
  /\ (List.length (find_connections A B) <= 5)%nat.
Proof.
  rewrite find_connections_ranked.
  split; [|split; [apply ranked_sorted | apply ranked_length]].
  intros (rid & route & HA & HB & Hroute).
  assert (Hd : In (DirectResult route (stop_name A) (stop_name B)
                     (direct_time A B) (fare_min route)) (direct_results A B)).
  { apply direct_results_In. exists rid, route.
    split; [apply set_inter_In; split; assumption|]. split; [exact Hroute | reflexivity]. }
  apply List.Forall_forall. intros r Hr.
  apply ranked_from in Hr. destruct Hr as [Hr | [Hnone _]].
  - apply direct_results_direct in Hr. destruct r; [split; reflexivity | discriminate Hr].
  - rewrite Hnone in Hd. contradiction.
Qed.

End ConnectionFacts.

(** ** Rounding and truncation of reals *)

Section Rounding.
Local Open Scope R_scope.

Lemma Int_part_bounds (x : R) : IZR (Int_part x) <= x < IZR (Int_part x) + 1.
Proof. destruct (base_Int_part x) as [Hlo Hhi]. split; lra. Qed.

Lemma Int_part_eq (z : Z) (x : R) : IZR z <= x < IZR z + 1 -> Int_part x = z.
Proof.
  intros [Hlo Hhi]. unfold Int_part.
  assert (Hup : (z + 1)%Z = up x).
  { apply up_tech; [exact Hlo|]. rewrite plus_IZR. exact Hhi. }
  lia.
Qed.

Lemma py_int_eq (z : Z) (x : R) :
  (0 <= z)%Z -> IZR z <= x < IZR z + 1 -> PyMath.py_int x = z.
Proof.
  intros Hz Hx. unfold PyMath.py_int.
  destruct (Rle_dec 0 x) as [_ | Hneg]; [apply Int_part_eq, Hx|].
  exfalso. apply Hneg. apply IZR_le in Hz. lra.
Qed.

Lemma py_int_bounds (x : R) :
  0 <= x -> IZR (PyMath.py_int x) <= x < IZR (PyMath.py_int x) + 1.
Proof.
  intros Hx. unfold PyMath.py_int.
  destruct (Rle_dec 0 x) as [_ | Hneg]; [apply Int_part_bounds | contradiction].
Qed.

Lemma py_round_eq (z : Z) (x : R) :
  IZR z - 1 / 2 < x < IZR z + 1 / 2 -> PyMath.py_round x = z.
Proof.
  intros [Hlo Hhi]. unfold PyMath.py_round.
  destruct (Rle_dec (IZR z) x) as [Hge | Hlt].
  - rewrite (Int_part_eq z x) by lra.
    destruct (Rlt_dec (x - IZR z) (1 / 2)); [reflexivity | lra].
  - rewrite (Int_part_eq (z - 1) x) by (rewrite minus_IZR; lra).
    rewrite minus_IZR.
    destruct (Rlt_dec (x - (IZR z - 1)) (1 / 2)); [lra|].
    destruct (Rlt_dec (1 / 2) (x - (IZR z - 1))); [lia | lra].
Qed.

Lemma py_round_IZR (n : Z) : PyMath.py_round (IZR n) = n.
Proof. apply py_round_eq. lra. Qed.

(** A rounded value is within one half of the argument. *)
Lemma py_round_near (x : R) :
  IZR (PyMath.py_round x) - 1 / 2 <= x <= IZR (PyMath.py_round x) + 1 / 2.
Proof.
  unfold PyMath.py_round. destruct (Int_part_bounds x) as [Hlo Hhi].
  destruct (Rlt_dec (x - IZR (Int_part x)) (1 / 2)); [lra|].
  destruct (Rlt_dec (1 / 2) (x - IZR (Int_part x))).
  - rewrite plus_IZR. lra.
  - destruct (Z.even (Int_part x)); [|rewrite plus_IZR]; lra.
Qed.

Lemma py_round_nonneg (x : R) : 0 <= x -> (0 <= PyMath.py_round x)%Z.
Proof.
  intros Hx. destruct (py_round_near x) as [_ Hhi].
  destruct (Z_lt_le_dec (PyMath.py_round x) 0) as [Hneg | Hpos]; [|exact Hpos].
  exfalso. assert (Hle : (PyMath.py_round x <= -1)%Z) by lia.
  apply IZR_le in Hle. lra.
Qed.

Lemma pow10_pos (n : nat) : 0 < 10 ^ n.
Proof. apply pow_lt. lra. Qed.

Lemma round_to_nonneg (x : R) (n : nat) : 0 <= x -> 0 <= PyMath.round_to x n.
Proof.
  intros Hx. unfold PyMath.round_to. pose proof (pow10_pos n) as Hp.
  apply Rmult_le_pos; [|left; apply Rinv_0_lt_compat, Hp].
  apply IZR_le, py_round_nonneg, Rmult_le_pos; lra.
Qed.

Lemma round_to_zero (n : nat) : PyMath.round_to 0 n = 0.
Proof.
  unfold PyMath.round_to. rewrite Rmult_0_l, (py_round_IZR 0).
  unfold Rdiv. apply Rmult_0_l.
Qed.

(** [round(x, 2)] is within 0.005 of [x]. *)
Lemma round_to_2_near (x : R) :
  PyMath.round_to x 2 - 0.005 <= x <= PyMath.round_to x 2 + 0.005.
Proof.
  unfold PyMath.round_to. destruct (py_round_near (x * 10 ^ 2)) as [Hlo Hhi].
  simpl in *. lra.
Qed.

(** A value with one decimal place is left alone by [round(_, 1)]. *)
Lemma round_to_1_fixed (n : Z) : PyMath.round_to (IZR n / 10) 1 = IZR n / 10.
Proof.
  unfold PyMath.round_to. simpl.
  replace (IZR n / 10 * (10 * 1)) with (IZR n) by field.
  rewrite py_round_IZR. field.
Qed.

Lemma round_to_1_tenths (x : R) : exists n, PyMath.round_to x 1 = IZR n / 10.
Proof.
  exists (PyMath.py_round (x * 10 ^ 1)). unfold PyMath.round_to. simpl. field.
Qed.

Lemma round_to_eq (z : Z) (x : R) (n : nat) :
  IZR z - 1 / 2 < x * 10 ^ n < IZR z + 1 / 2 ->
  PyMath.round_to x n = IZR z / 10 ^ n.
Proof. intros Hx. unfold PyMath.round_to. rewrite (py_round_eq z); auto. Qed.

Lemma Rleb_le (a b : R) : PyMath.Rleb a b = true <-> a <= b.
Proof. unfold PyMath.Rleb. destruct (Rle_dec a b); split; auto; discriminate. Qed.

Lemma Rleb_total (a b : R) : PyMath.Rleb a b = true \/ PyMath.Rleb b a = true.
Proof. rewrite !Rleb_le. lra. Qed.

Lemma Rleb_trans (a b c : R) :
  PyMath.Rleb a b = true -> PyMath.Rleb b c = true -> PyMath.Rleb a c = true.
Proof. rewrite !Rleb_le. lra. Qed.

End Rounding.

(** ** Bounds on pi and the great-circle distance *)

Section Trigonometry.
Local Open Scope R_scope.

Lemma PI_lower : 3 < PI.
Proof. pose proof PI2_3_2. lra. Qed.

Lemma PI_upper : PI < 3.1421.
Proof.
  destruct (PI_2_3_7_ineq 1) as [_ Hup].
  unfold sum_f_R0, tg_alt, PI_2_3_7_tg, Ratan_seq in Hup. simpl in Hup.
  match type of Hup with _ <= ?s =>
    replace s with (16040687 / 20420505) in Hup by field
  end.
  lra.
Qed.

Lemma PI_lower_fine : 3.1354 < PI.
Proof.
  destruct (PI_2_3_7_ineq 0) as [Hlo _].
  unfold sum_f_R0, tg_alt, PI_2_3_7_tg, Ratan_seq in Hlo. simpl in Hlo.
  match type of Hlo with ?s <= _ =>
    replace s with (21778 / 27783) in Hlo by field
  end.
  lra.
Qed.

End Trigonometry.

Section GreatCircle.
Local Open Scope R_scope.

Lemma atan2_nonneg (y x : R) : 0 <= y -> 0 <= x -> 0 <= PyMath.atan2 y x.
Proof.
  intros Hy Hx. unfold PyMath.atan2. pose proof PI_RGT_0 as Hpi.
  destruct (Rlt_dec 0 x) as [Hpos | Hnpos].
  - rewrite <- atan_0.
    assert (Hq : 0 <= y / x).
    { apply Rmult_le_pos; [exact Hy | left; apply Rinv_0_lt_compat, Hpos]. }
    destruct Hq as [Hq | <-]; [left; apply atan_increasing, Hq | right; reflexivity].
  - destruct (Rlt_dec x 0); [lra|].
    destruct (Rlt_dec 0 y); [lra|].
    destruct (Rlt_dec y 0); lra.
Qed.

Lemma haversine_nonneg (lat1 lon1 lat2 lon2 : R) : 0 <= haversine lat1 lon1 lat2 lon2.
Proof.
  unfold haversine.
  apply Rmult_le_pos; [lra|]. apply atan2_nonneg; apply sqrt_pos.
Qed.

(** The angle whose half-angle sine enters the formula is recovered by
    [atan2] as long as it stays below a right angle. *)
Lemma atan2_of_sine (h : R) :
  0 <= h < PI / 2 ->
  PyMath.atan2 (sqrt (sin h ^ 2)) (sqrt (1 - sin h ^ 2)) = h.
Proof.
  intros [Hlo Hhi]. pose proof PI_RGT_0 as Hpi.
  assert (Hsin : 0 <= sin h) by (apply sin_ge_0; lra).
  assert (Hcos : 0 < cos h) by (apply cos_gt_0; lra).
  replace (1 - sin h ^ 2) with (cos h ^ 2).
  2:{ pose proof (sin2_cos2 h) as Hsc. unfold Rsqr in Hsc. simpl. lra. }
  rewrite !sqrt_pow2 by lra.
  unfold PyMath.atan2. destruct (Rlt_dec 0 (cos h)) as [_ | Hn]; [|contradiction].
  change (sin h / cos h) with (tan h). apply atan_tan. lra.
Qed.

(** Along a meridian the formula gives the arc of the latitude difference. *)
Lemma haversine_same_meridian (lat1 lat2 lon : R) :
  -180 < lat2 - lat1 < 180 ->
  haversine lat1 lon lat2 lon = 6371 * (Rabs (lat2 - lat1) * PI / 180).
Proof.
  intros [Hlo Hhi]. pose proof PI_RGT_0 as Hpi.
  unfold haversine, PyMath.radians.
  replace ((lon - lon) * PI / 180 / 2) with 0 by lra.
  rewrite sin_0.
  set (h := (lat2 - lat1) * PI / 180 / 2).
  replace (sin h ^ 2 + cos (lat1 * PI / 180) * cos (lat2 * PI / 180) * 0 ^ 2)
    with (sin h ^ 2) by (simpl; ring).
  destruct (Rle_dec 0 (lat2 - lat1)) as [Hpos | Hneg].
  - rewrite atan2_of_sine.
    + rewrite Rabs_pos_eq by exact Hpos. unfold h. lra.
    + unfold h. split; [|nra].
      apply Rmult_le_pos; [|lra]. apply Rmult_le_pos; [|lra].
      apply Rmult_le_pos; lra.
  - replace (sin h ^ 2) with (sin (- h) ^ 2) by (rewrite sin_neg; simpl; ring).
    rewrite atan2_of_sine.
    + rewrite Rabs_left by lra. unfold h. lra.
    + unfold h. split; nra.
Qed.

Lemma haversine_same_point (lat0 lon0 : R) : haversine lat0 lon0 lat0 lon0 = 0.
Proof.
  rewrite haversine_same_meridian by lra.
  replace (lat0 - lat0) with 0 by lra. rewrite Rabs_R0. lra.
Qed.

End GreatCircle.
(** ** Direct results: time and fare *)

Lemma catalog_hw :
  catalog_stop "hw"
  = mkStop "hw" "Howrah Station" 22.5839 88.3430
      ["S12"; "230"; "12B"; "S11"; "AC20"; "S15"; "S41"; "AC47"].
Proof. reflexivity. Qed.

Lemma catalog_nt :
  catalog_stop "nt" = mkStop "nt" "New Town City Centre" 22.5941 88.4842 ["S12"; "AC3"].
Proof. reflexivity. Qed.

Lemma catalog_ht : catalog_stop "ht" = mkStop "ht" "Hatibagan" 22.5880 88.3630 ["DN9"].
Proof. reflexivity. Qed.

Lemma catalog_cg :
  catalog_stop "cg" = mkStop "cg" "College Street" 22.5730 88.3630 ["DN9"; "S32"].
Proof. reflexivity. Qed.

Lemma catalog_stop_In (id : string) (s : Stop) :
  first_such (fun s => String.eqb (stop_id s) id) BUS_STOPS = Some s ->
  In (catalog_stop id) BUS_STOPS.
Proof.
  intros Hfind. unfold catalog_stop. rewrite Hfind.
  apply find_some in Hfind. apply Hfind.
Qed.

Lemma direct_time_ht_cg : direct_time (catalog_stop "ht") (catalog_stop "cg") = 5.
Proof.
  rewrite catalog_ht, catalog_cg. unfold direct_time, flat_km. cbn [lat lng].
  replace ((22.5880 - 22.5730) ^ 2 + (88.3630 - 88.3630) ^ 2)%R with (0.015 ^ 2)%R
    by (simpl; lra).
  rewrite sqrt_pow2 by lra.
  rewrite (py_int_eq 5) by (lia || lra). reflexivity.
Qed.

Lemma geodesic_time_ht_cg : geodesic_time (catalog_stop "ht") (catalog_stop "cg") = 6.
Proof.
  rewrite catalog_ht, catalog_cg. unfold geodesic_time. cbn [lat lng].
  rewrite haversine_same_meridian by lra.
  rewrite Rabs_left by lra.
  pose proof PI_lower. pose proof PI_upper.
  rewrite (py_round_eq 6) by lra. reflexivity.
Qed.

Lemma direct_time_hw_nt : direct_time (catalog_stop "hw") (catalog_stop "nt") = 54.
Proof.
  rewrite catalog_hw, catalog_nt. unfold direct_time, flat_km. cbn [lat lng].
  set (v := ((22.5839 - 22.5941) ^ 2 + (88.3430 - 88.4842) ^ 2)%R).
  assert (Hlo : (0.1415 <= sqrt v)%R).
  { rewrite <- (sqrt_pow2 0.1415) by lra. apply sqrt_le_1_alt. unfold v. simpl. lra. }
  assert (Hhi : (sqrt v < 0.14157)%R).
  { rewrite <- (sqrt_pow2 0.14157) by lra. apply sqrt_lt_1_alt. unfold v. simpl. lra. }
  rewrite (py_int_eq 54) by (lia || lra). reflexivity.
Qed.

Lemma flat_km_nonneg (A B : Stop) : (0 <= flat_km A B)%R.
Proof. unfold flat_km. apply Rmult_le_pos; [apply sqrt_pos | lra]. Qed.

Lemma list_singleton (l : list string) (a : string) :
  List.NoDup l -> (forall x, In x l <-> x = a) -> l = [a].
Proof.
  intros Hnd Hin. destruct l as [|x l].
  - exfalso. apply (proj2 (Hin a) eq_refl).
  - assert (x = a) as -> by (apply Hin; left; reflexivity).
    destruct l as [|y l]; [reflexivity|].
    assert (y = a) as -> by (apply Hin; right; left; reflexivity).
    inversion Hnd as [|? ? Hnotin _]; subst. exfalso. apply Hnotin. left. reflexivity.
Qed.

Section DirectResults.
Context `{SetOrder}.

Lemma set_inter_hw_nt :
  set_inter (routes (catalog_stop "hw")) (routes (catalog_stop "nt")) = ["S12"].
Proof.
  apply list_singleton; [apply set_inter_NoDup|].
  intros x. rewrite set_inter_In, catalog_hw, catalog_nt. cbn [routes]. simpl.
  split.
  - intros [Ha [Hb | [Hb | []]]]; [congruence|]. subst x.
    repeat (destruct Ha as [Ha | Ha]; [discriminate Ha|]). contradiction.
  - intros ->. auto.
Qed.

Lemma find_connections_hw_nt :
  find_connections (catalog_stop "hw") (catalog_stop "nt")
  = [DirectResult (mkRoute "S12" "S12" "Howrah Station" "New Town" "Salt Lake" 10 35 10)
       "Howrah Station" "New Town City Centre" 54 10].
Proof.
  unfold find_connections, direct_results.
  rewrite set_inter_hw_nt, direct_time_hw_nt. reflexivity.
Qed.

Lemma find_connections_direct_shape (A B : Stop) (r : ConnectionResult) :
  In r (find_connections A B) -> is_direct r = true ->
  exists route,
    r = DirectResult route (stop_name A) (stop_name B)
          (direct_time A B) (fare_min route)
    /\ In (route_id route) (routes A) /\ In (route_id route) (routes B)
    /\ route_by_id (route_id route) = Some route
    /\ transfers r = 0.
Proof.
  rewrite find_connections_ranked.
  intros Hr Hdirect. apply ranked_from in Hr. destruct Hr as [Hr | [_ Hr]].
  - apply direct_results_In in Hr.
    destruct Hr as (rid & route & Hrid & Hroute & ->).
    apply set_inter_In in Hrid. destruct Hrid as [HA HB].
    pose proof (route_by_id_id rid route Hroute) as Hid.
    exists route. rewrite Hid. auto.
  - pose proof (transfer_results_transfers A B) as Hall.
    rewrite List.Forall_forall in Hall. rewrite (Hall r Hr) in Hdirect.
    discriminate Hdirect.
Qed.

(** The answer keeps 5 results: from Howrah Station to itself all 8 routes of
    the stop give a direct result, and 3 of them are left out. *)
Example howrah_to_howrah_keeps_five :
  List.length (direct_results (catalog_stop "hw") (catalog_stop "hw")) = 8%nat
  /\ List.length (find_connections (catalog_stop "hw") (catalog_stop "hw")) = 5%nat.
Proof.
  assert (Hlen : List.length (direct_results (catalog_stop "hw") (catalog_stop "hw")) = 8%nat).
  { unfold direct_results.
    set (rids := set_inter (routes (catalog_stop "hw")) (routes (catalog_stop "hw"))).
    assert (Hperm : Permutation rids (routes (catalog_stop "hw"))).
    { apply Stdlib.Sorting.Permutation.NoDup_Permutation.
      - apply set_inter_NoDup.
      - rewrite catalog_hw. cbn [routes].
        repeat (constructor; [simpl; intuition discriminate|]). constructor.
      - intros x. unfold rids. rewrite set_inter_In. tauto. }
    assert (Hfound : forall rid, In rid rids -> exists route, route_by_id rid = Some route).
    { intros rid Hrid. apply (Permutation_in _ Hperm) in Hrid.
      rewrite catalog_hw in Hrid. cbn [routes] in Hrid.
      repeat (destruct Hrid as [<- | Hrid]; [eexists; reflexivity|]). destruct Hrid. }
    apply Permutation_length in Hperm. rewrite catalog_hw in Hperm.
    cbn [routes List.length] in Hperm. rewrite <- Hperm. clear Hperm.
    induction rids as [|rid l IH]; [reflexivity|].
    simpl. destruct (Hfound rid (or_introl eq_refl)) as [route ->]. simpl.
    f_equal. apply IH. intros r Hr. apply Hfound. right. exact Hr. }
  split; [exact Hlen|].
  rewrite find_connections_ranked. unfold ranked.
  destruct (direct_results (catalog_stop "hw") (catalog_stop "hw")) as [|d ds] eqn:Hd;
    [discriminate Hlen|].
  unfold py_prefix. cbn [Z.ltb Z.compare]. rewrite length_firstn, py_sort_length, Hlen.
  reflexivity.
Qed.

(** C1, amended. Every direct result that [find_connections] returns is for
    a route of both stops that is in the route table, has no transfer, has
    that route's minimum fare, and has the time
    [max(5, int(sqrt(dlat**2 + dlng**2) * 111 * 3.5))]: degrees apart in the
    plane times 111 km, truncated (not the great-circle distance, not
    rounded).  Every such route has its result in the answer when the two
    stops share at most 5 routes.  For "Howrah Station" and
    "New Town City Centre" the answer is the one direct result for S12, with
    time 54 and fare 10. *)
Theorem direct_results_time_and_fare (A B : Stop) :
  (forall r,
      In r (find_connections A B) -> is_direct r = true ->
      exists route,
        r = DirectResult route (stop_name A) (stop_name B)
              (direct_time A B) (fare_min route)
        /\ In (route_id route) (routes A) /\ In (route_id route) (routes B)
        /\ route_by_id (route_id route) = Some route
        /\ transfers r = 0)
  /\ (forall rid route,
        In rid (routes A) -> In rid (routes B) -> route_by_id rid = Some route ->
        (List.length (set_inter (routes A) (routes B)) <= 5)%nat ->
        In (DirectResult route (stop_name A) (stop_name B)
              (direct_time A B) (fare_min route))
           (find_connections A B))
  /\ (exists n,
        direct_time A B = Z.max 5 n
        /\ (IZR n <= sqrt ((lat A - lat B) ^ 2 + (lng A - lng B) ^ 2) * 111 * 3.5
            < IZR n + 1)%R)
  /\ exists answer,
       find_route_between "Howrah Station" "New Town City Centre" = Ok answer
       /\ answer_results answer
          = [DirectResult
               (mkRoute "S12" "S12" "Howrah Station" "New Town" "Salt Lake" 10 35 10)
               "Howrah Station" "New Town City Centre" 54 10].
Proof.
  split; [exact (find_connections_direct_shape A B)|].
  rewrite find_connections_ranked. split; [|split].
  - intros rid route HA HB Hroute Hlen. apply ranked_keeps_few.
    + apply direct_results_In. exists rid, route.
      split; [apply set_inter_In; split; assumption|]. split; [exact Hroute | reflexivity].
    + pose proof (direct_results_length A B). lia.
  - exists (PyMath.py_int (flat_km A B * 3.5)). split; [reflexivity|].
    apply py_int_bounds. pose proof (flat_km_nonneg A B). lra.
  - eexists. split.
    + unfold find_route_between.
      replace (_match_stop "Howrah Station") with (Some (catalog_stop "hw"))
        by (vm_compute; reflexivity).
      replace (_match_stop "New Town City Centre") with (Some (catalog_stop "nt"))
        by (vm_compute; reflexivity).
      reflexivity.
    + cbn [answer_results]. apply find_connections_hw_nt.
Qed.

End DirectResults.

(** C1, as stated, fails: Hatibagan and College Street share route DN9 and lie
    on one meridian, 0.015 degrees apart.  The source computes
    [max(5, int(0.015 * 111 * 3.5)) = max(5, int(5.8275)) = 5]; the great-circle
    distance is [6371 * radians(0.015)] km, and [max(5, round(5.8377...)) = 6]. *)
Lemma direct_time_is_not_geodesic :
  direct_time (catalog_stop "ht") (catalog_stop "cg") = 5
  /\ geodesic_time (catalog_stop "ht") (catalog_stop "cg") = 6
  /\ ~ (forall (O : SetOrder) (A B : Stop) (rid : string),
          In A BUS_STOPS -> In B BUS_STOPS ->
          In rid (routes A) -> In rid (routes B) ->
          exists r route,
            In r (find_connections A B)
            /\ direct_route r = Some route /\ route_id route = rid
            /\ estimated_time_min r = geodesic_time A B
            /\ estimated_fare r = fare_min route).
Proof.
  split; [exact direct_time_ht_cg|]. split; [exact geodesic_time_ht_cg|].
  intros Hclaim.
  destruct (Hclaim first_operand_order (catalog_stop "ht") (catalog_stop "cg") "DN9")
    as (r & route & Hr & Hroute & _ & Htime & _).
  - exact (catalog_stop_In "ht" _ eq_refl).
  - exact (catalog_stop_In "cg" _ eq_refl).
  - rewrite catalog_ht. left. reflexivity.
  - rewrite catalog_cg. left. reflexivity.
  - rewrite geodesic_time_ht_cg in Htime.
    destruct (find_connections_direct_shape (catalog_stop "ht") (catalog_stop "cg") r Hr)
      as (route' & -> & _).
    + destruct r; [reflexivity | discriminate Hroute].
    + cbn [estimated_time_min] in Htime. rewrite direct_time_ht_cg in Htime.
      discriminate Htime.
Qed.

Lemma no_transfer_beside_direct_and_ranked_witness :
  Forall (fun r => is_direct r = true /\ transfers r = 0)
    (find_connections (catalog_stop "hw") (catalog_stop "nt")).
Proof.
  apply (proj1 (no_transfer_beside_direct_and_ranked (catalog_stop "hw") (catalog_stop "nt"))).
  exists "S12", (mkRoute "S12" "S12" "Howrah Station" "New Town" "Salt Lake" 10 35 10).
  rewrite catalog_hw, catalog_nt. cbn [routes].
  split; [left; reflexivity|]. split; [left; reflexivity | reflexivity].
Defined.

(** ** Nearest stops *)

Section NearestStops.
Local Open Scope R_scope.
Variables lat0 lng0 : R.

Let by_displayed (x y : NearStop) : bool :=
  PyMath.Rleb (near_distance_km x) (near_distance_km y).

Lemma nearest_sorted_full :
  StronglySorted (fun x y => near_distance_km x <= near_distance_km y)
    (py_sort by_displayed (List.map (with_distance lat0 lng0) BUS_STOPS)).
Proof.
  pose proof (py_sort_sorted by_displayed
                (fun x y => Rleb_total _ _)
                (fun x y z => Rleb_trans _ _ _)
                (List.map (with_distance lat0 lng0) BUS_STOPS)) as Hs.
  induction Hs as [|x l Hl IH Hx]; constructor; [exact IH|].
  rewrite List.Forall_forall in *. intros y Hy. apply Rleb_le. exact (Hx y Hy).
Qed.

Lemma near_distance_km_near (s : Stop) :
  near_distance_km (with_distance lat0 lng0 s) - 0.005
  <= haversine lat0 lng0 (lat s) (lng s)
  <= near_distance_km (with_distance lat0 lng0 s) + 0.005.
Proof. apply round_to_2_near. Qed.

End NearestStops.

(** C2, as stated, fails.  From (22.580499, 88.3630), a point on the meridian
    of Hatibagan and College Street, College Street is nearer (0.83385 km
    against 0.83407 km), both distances round to 0.83, and the stable sort on
    the rounded value keeps Hatibagan, which is earlier in the catalog, in
    front of College Street. *)
Lemma nearest_stops_not_by_unrounded_distance :
  precedes (with_distance 22.580499 88.3630 (catalog_stop "ht"))
    (with_distance 22.580499 88.3630 (catalog_stop "cg"))
    (get_nearest_stops 22.580499 88.3630 80)
  /\ (true_distance 22.580499 88.3630 (catalog_stop "cg")
      < true_distance 22.580499 88.3630 (catalog_stop "ht"))%R
  /\ near_distance_km (with_distance 22.580499 88.3630 (catalog_stop "ht")) = 0.83%R
  /\ near_distance_km (with_distance 22.580499 88.3630 (catalog_stop "cg")) = 0.83%R
  /\ ~ (forall lat0 lng0 limit,
          StronglySorted
            (fun x y => (true_distance lat0 lng0 (near_stop x)
                         <= true_distance lat0 lng0 (near_stop y))%R)
            (get_nearest_stops lat0 lng0 limit)).
Proof.
  pose proof PI_lower_fine as Hpi_lo. pose proof PI_upper as Hpi_hi.
  assert (Hht : haversine 22.580499 88.3630 (lat (catalog_stop "ht")) (lng (catalog_stop "ht"))
                = (6371 * (0.007501 * PI / 180))%R).
  { rewrite catalog_ht. cbn [lat lng]. rewrite haversine_same_meridian by lra.
    rewrite Rabs_pos_eq by lra. lra. }
  assert (Hcg : haversine 22.580499 88.3630 (lat (catalog_stop "cg")) (lng (catalog_stop "cg"))
                = (6371 * (0.007499 * PI / 180))%R).
  { rewrite catalog_cg. cbn [lat lng]. rewrite haversine_same_meridian by lra.
    rewrite Rabs_left by lra. lra. }
  assert (Hkht : near_distance_km (with_distance 22.580499 88.3630 (catalog_stop "ht")) = 0.83%R).
  { unfold with_distance. cbn [near_distance_km]. rewrite Hht.
    rewrite (round_to_eq 83) by (simpl; lra). simpl. lra. }
  assert (Hkcg : near_distance_km (with_distance 22.580499 88.3630 (catalog_stop "cg")) = 0.83%R).
  { unfold with_distance. cbn [near_distance_km]. rewrite Hcg.
    rewrite (round_to_eq 83) by (simpl; lra). simpl. lra. }
  assert (Hlt : (true_distance 22.580499 88.3630 (catalog_stop "cg")
                 < true_distance 22.580499 88.3630 (catalog_stop "ht"))%R).
  { unfold true_distance. rewrite Hht, Hcg. lra. }
  assert (Hprec : precedes (with_distance 22.580499 88.3630 (catalog_stop "ht"))
                    (with_distance 22.580499 88.3630 (catalog_stop "cg"))
                    (get_nearest_stops 22.580499 88.3630 80)).
  { unfold get_nearest_stops. rewrite py_prefix_all.
    2:{ rewrite py_sort_length, length_map. vm_compute. discriminate. }
    apply py_sort_stable.
    - exists (List.map (with_distance 22.580499 88.3630) (firstn 38 BUS_STOPS)),
             (List.map (with_distance 22.580499 88.3630) (firstn 3 (skipn 39 BUS_STOPS))),
             (List.map (with_distance 22.580499 88.3630) (skipn 43 BUS_STOPS)).
      change (with_distance 22.580499 88.3630 (catalog_stop "ht")
              :: List.map (with_distance 22.580499 88.3630) (firstn 3 (skipn 39 BUS_STOPS))
              ++ with_distance 22.580499 88.3630 (catalog_stop "cg")
              :: List.map (with_distance 22.580499 88.3630) (skipn 43 BUS_STOPS))
        with (List.map (with_distance 22.580499 88.3630)
                (catalog_stop "ht" :: firstn 3 (skipn 39 BUS_STOPS)
                 ++ catalog_stop "cg" :: skipn 43 BUS_STOPS)).
      rewrite <- map_app. reflexivity.
    - apply Rleb_le. rewrite Hkht, Hkcg. lra. }
  split; [exact Hprec|]. split; [exact Hlt|]. split; [exact Hkht|]. split; [exact Hkcg|].
  intros Hclaim. specialize (Hclaim 22.580499%R 88.3630%R 80).
  pose proof (StronglySorted_precedes _ _ _ _ Hclaim Hprec) as Hle.
  cbv beta in Hle. unfold with_distance in Hle. cbn [near_stop] in Hle. lra.
Qed.

(** ** The ETA estimator *)

Lemma py_sort_head_min {A : Type} (leb : A -> A -> bool) (x : A) (l : list A) :
  (forall y, In y l -> leb x y = true) ->
  py_sort leb (x :: l) = x :: py_sort leb l.
Proof.
  intros Hmin. simpl. destruct (py_sort leb l) as [|y l'] eqn:Hsorted; [reflexivity|].
  simpl. rewrite Hmin; [reflexivity|].
  apply (py_sort_In leb). rewrite Hsorted. left. reflexivity.
Qed.

Lemma py_prefix_cons {A : Type} (n : Z) (x : A) (l : list A) :
  0 < n -> exists rest, py_prefix n (x :: l) = x :: rest.
Proof.
  intros Hn. unfold py_prefix. destruct (Z.ltb_spec n 0); [lia|].
  destruct (Z.to_nat n) as [|k] eqn:Hk; [lia|]. simpl. eauto.
Qed.

Section EtaFacts.
Context `{SetOrder}.
Variable eta_model : option (R -> R -> R -> Z -> R).
Variable hour_of_day : Z.
Variable all_live : list LiveBus.
Local Open Scope R_scope.

Lemma sum_of_tenths (a b c : R) :
  PyMath.round_to (PyMath.round_to a 1 + PyMath.round_to b 1 + PyMath.round_to c 1) 1
  = PyMath.round_to a 1 + PyMath.round_to b 1 + PyMath.round_to c 1.
Proof.
  destruct (round_to_1_tenths a) as [na ->].
  destruct (round_to_1_tenths b) as [nb ->].
  destruct (round_to_1_tenths c) as [nc ->].
  replace (IZR na / 10 + IZR nb / 10 + IZR nc / 10) with (IZR (na + nb + nc) / 10)
    by (rewrite !plus_IZR; field).
  apply round_to_1_fixed.
Qed.

Lemma bus_travel_rounded (d ti : R) :
  exists x, fst (bus_travel eta_model hour_of_day d ti) = PyMath.round_to x 1.
Proof.
  unfold bus_travel. destruct eta_model as [predict|]; cbn [fst]; eauto.
Qed.

Lemma live_bus_info_rounded (pickup : Stop) (route : Route) (ti : R) (info : LiveBusInfo) :
  live_bus_info eta_model hour_of_day all_live pickup route ti = Some info ->
  exists x, live_eta_min info = PyMath.round_to x 1.
Proof.
  unfold live_bus_info.
  destruct (List.filter _ all_live) as [|b0 bs]; [discriminate|].
  intros [= <-]. cbn [live_eta_min]. destruct eta_model; eauto.
Qed.

Lemma live_bus_info_none (pickup : Stop) (route : Route) (ti : R) :
  live_bus_info eta_model hour_of_day all_live pickup route ti = None <->
  forall b, In b all_live -> bus_route_id b <> route_id route.
Proof.
  unfold live_bus_info.
  destruct (List.filter _ all_live) as [|b0 bs] eqn:Hfilter.
  - split; [|reflexivity]. intros _ b Hb Heq.
    assert (Hin : In b []).
    { rewrite <- Hfilter. apply filter_In. split; [exact Hb|]. apply String.eqb_eq, Heq. }
    destruct Hin.
  - split; [discriminate|]. intros Hnone. exfalso.
    assert (Hin : In b0 (b0 :: bs)) by (left; reflexivity).
    rewrite <- Hfilter in Hin. apply filter_In in Hin. destruct Hin as [Hb Heq].
    apply String.eqb_eq in Heq. exact (Hnone b0 Hb Heq).
Qed.

(** The numbers of one estimate. *)
Lemma estimate_total (best : BestResult) :
  let '(eta, traffic_index, _, live_bus) := estimate eta_model hour_of_day all_live best in
  total_min eta
  = PyMath.round_to (walk_time_min eta + wait_time_min eta + bus_travel_min eta) 1
  /\ total_min eta = walk_time_min eta + wait_time_min eta + bus_travel_min eta
  /\ walk_time_min eta = PyMath.round_to (distance_km (pickup_stop best) / 0.08) 1
  /\ (exists x, bus_travel_min eta = PyMath.round_to x 1)
  /\ live_bus
     = live_bus_info eta_model hour_of_day all_live
         (ranked_stop (pickup_stop best)) (best_route best) traffic_index
  /\ match live_bus with
     | Some info =>
         wait_time_min eta = live_eta_min info
         /\ exists x, live_eta_min info = PyMath.round_to x 1
     | None =>
         wait_time_min eta
         = PyMath.round_to (IZR (frequency_min (best_route best)) / 2) 1
     end.
Proof.
  unfold estimate.
  destruct (traffic hour_of_day all_live) as [traffic_index traffic_source].
  destruct (bus_travel_rounded (stop_distance_km best) traffic_index) as [xb Hxb].
  destruct (bus_travel eta_model hour_of_day (stop_distance_km best) traffic_index)
    as [bus source]. cbn [fst] in Hxb. subst bus.
  destruct (live_bus_info eta_model hour_of_day all_live
              (ranked_stop (pickup_stop best)) (best_route best) traffic_index)
    as [info|] eqn:Hlive.
  - destruct (live_bus_info_rounded _ _ _ _ Hlive) as [xl Hxl].
    cbn [total_min walk_time_min wait_time_min bus_travel_min]. rewrite Hxl.
    repeat split; eauto using sum_of_tenths.
  - cbn [total_min walk_time_min wait_time_min bus_travel_min].
    repeat split; eauto using sum_of_tenths.
Qed.

Lemma half_frequency_rounded (f : Z) : PyMath.round_to (IZR f / 2) 1 = IZR f / 2.
Proof.
  replace (IZR f / 2) with (IZR (5 * f) / 10) by (rewrite mult_IZR; field).
  apply round_to_1_fixed.
Qed.

(** C6. For every successful [smart_eta] request the returned total is the
    sum of the returned walk, wait and bus-travel times, rounded to one
    decimal place; each of the three is a number with one decimal place, so
    that rounding leaves their sum unchanged; the wait time is the live ETA of
    the closest live bus on the chosen route when there is one, and half the
    route frequency otherwise.  The returned numbers are read as the decimal
    numbers they stand for; how the walk and bus-travel times come out of
    their divisions is not part of the statement. *)
Theorem smart_eta_total_is_sum (user_lat user_lng : R) (destination : string)
    (resp : EtaResponse) :
  smart_eta eta_model hour_of_day all_live user_lat user_lng destination = Ok resp ->
  total_min (resp_eta resp)
  = PyMath.round_to
      (walk_time_min (resp_eta resp) + wait_time_min (resp_eta resp)
       + bus_travel_min (resp_eta resp)) 1
  /\ total_min (resp_eta resp)
     = walk_time_min (resp_eta resp) + wait_time_min (resp_eta resp)
       + bus_travel_min (resp_eta resp)
  /\ (exists n, walk_time_min (resp_eta resp) = IZR n / 10)
  /\ (exists n, wait_time_min (resp_eta resp) = IZR n / 10)
  /\ (exists n, bus_travel_min (resp_eta resp) = IZR n / 10)
  /\ (resp_live_bus resp = None <->
      forall b, In b all_live -> bus_route_id b <> route_id (resp_route resp))
  /\ match resp_live_bus resp with
     | Some info => wait_time_min (resp_eta resp) = live_eta_min info
     | None =>
         wait_time_min (resp_eta resp)
         = PyMath.round_to (IZR (frequency_min (resp_route resp)) / 2) 1
         /\ wait_time_min (resp_eta resp) = IZR (frequency_min (resp_route resp)) / 2
     end.
Proof.
  unfold smart_eta.
  destruct (resolve_destination destination) as [dest_stop|]; [|discriminate].
  destruct (find_best dest_stop (stops_by_dist user_lat user_lng)) as [best|];
    [|discriminate].
  pose proof (estimate_total best) as Hest.
  destruct (estimate eta_model hour_of_day all_live best)
    as [[[eta traffic_index] traffic_source] live_bus].
  intros [= <-].
  cbn [resp_eta resp_pickup resp_route resp_live_bus].
  destruct Hest as (Hround & Hsum & Hwalk & [xb Hbus] & Hlive & Hwait).
  split; [exact Hround|]. split; [exact Hsum|].
  split; [rewrite Hwalk; apply round_to_1_tenths|].
  split.
  { destruct live_bus as [info|].
    - destruct Hwait as [-> [xl ->]]. apply round_to_1_tenths.
    - rewrite Hwait. apply round_to_1_tenths. }
  split; [rewrite Hbus; apply round_to_1_tenths|].
  split; [rewrite Hlive; apply live_bus_info_none|].
  destruct live_bus as [info|].
  - exact (proj1 Hwait).
  - split; [exact Hwait|]. rewrite Hwait. apply half_frequency_rounded.
Qed.

(** A request that succeeds: from the coordinates of Howrah Station, the
    first stop of the catalog, to New Town City Centre. *)
Lemma stops_by_dist_at_howrah :
  exists rest,
    stops_by_dist 22.5839 88.3430 = mkRankedStop (catalog_stop "hw") 0 :: rest.
Proof.
  unfold stops_by_dist.
  change BUS_STOPS with (catalog_stop "hw" :: List.tl BUS_STOPS).
  rewrite map_cons.
  replace (PyMath.round_to
             (haversine 22.5839 88.3430 (lat (catalog_stop "hw")) (lng (catalog_stop "hw"))) 2)
    with 0.
  2:{ rewrite catalog_hw. cbn [lat lng].
      rewrite haversine_same_point, round_to_zero. reflexivity. }
  rewrite py_sort_head_min; [eauto|].
  intros y Hy. apply in_map_iff in Hy. destruct Hy as (s & <- & _).
  apply Rleb_le. cbn [distance_km]. apply round_to_nonneg, haversine_nonneg.
Qed.

Lemma smart_eta_at_howrah :
  exists resp,
    smart_eta eta_model hour_of_day all_live 22.5839 88.3430 "New Town City Centre"
    = Ok resp.
Proof.
  unfold smart_eta.
  replace (resolve_destination "New Town City Centre") with (Some (catalog_stop "nt"))
    by (vm_compute; reflexivity).
  destruct stops_by_dist_at_howrah as [rest ->].
  unfold find_best.
  destruct (py_prefix_cons 8 (mkRankedStop (catalog_stop "hw") 0) rest) as [rest8 ->]; [lia|].
  cbn [scan_direct ranked_stop]. rewrite set_inter_hw_nt.
  replace (String.eqb (stop_id (catalog_stop "hw")) (stop_id (catalog_stop "nt")))
    with false by reflexivity.
  cbn [negb].
  replace (route_by_id "S12")
    with (Some (mkRoute "S12" "S12" "Howrah Station" "New Town" "Salt Lake" 10 35 10))
    by reflexivity.
  destruct (estimate _ _ _ _) as [[[eta traffic_index] traffic_source] live_bus].
  eauto.
Qed.

Lemma smart_eta_at_howrah_route :
  exists resp,
    smart_eta eta_model hour_of_day all_live 22.5839 88.3430 "New Town City Centre"
    = Ok resp
    /\ route_id (resp_route resp) = "S12"%string.
Proof.
  unfold smart_eta.
  replace (resolve_destination "New Town City Centre") with (Some (catalog_stop "nt"))
    by (vm_compute; reflexivity).
  destruct stops_by_dist_at_howrah as [rest ->].
  unfold find_best.
  destruct (py_prefix_cons 8 (mkRankedStop (catalog_stop "hw") 0) rest) as [rest8 ->]; [lia|].
  cbn [scan_direct ranked_stop]. rewrite set_inter_hw_nt.
  replace (String.eqb (stop_id (catalog_stop "hw")) (stop_id (catalog_stop "nt")))
    with false by reflexivity.
  cbn [negb].
  replace (route_by_id "S12")
    with (Some (mkRoute "S12" "S12" "Howrah Station" "New Town" "Salt Lake" 10 35 10))
    by reflexivity.
  destruct (estimate _ _ _ _) as [[[eta traffic_index] traffic_source] live_bus].
  eexists. split; reflexivity.
Qed.

End EtaFacts.

Lemma smart_eta_total_is_sum_witness :
  exists resp info,
    smart_eta (H := first_operand_order) None 9
      [mkLiveBus "WB-04-1234" "" "" "S12" 22.58 88.35 30 12 Low "running" "" 0 0]
      22.5839 88.3430 "New Town City Centre" = Ok resp
    /\ resp_live_bus resp = Some info
    /\ wait_time_min (resp_eta resp) = live_eta_min info
    /\ total_min (resp_eta resp)
       = (walk_time_min (resp_eta resp) + wait_time_min (resp_eta resp)
          + bus_travel_min (resp_eta resp))%R.
Proof.
  destruct (smart_eta_at_howrah_route (H := first_operand_order) None 9
              [mkLiveBus "WB-04-1234" "" "" "S12" 22.58 88.35 30 12 Low "running" "" 0 0])
    as (resp & Hresp & Hroute).
  destruct (smart_eta_total_is_sum None 9 _ _ _ _ resp Hresp)
    as (_ & Hsum & _ & _ & _ & Hnone & Hwait).
  destruct (resp_live_bus resp) as [info|] eqn:Hlive.
  - exists resp, info. split; [exact Hresp|]. split; [exact Hlive|].
    split; [exact Hwait | exact Hsum].
  - exfalso. apply (proj1 Hnone eq_refl _ (or_introl eq_refl)).
    rewrite Hroute. reflexivity.
Defined.
(** ** More on the stop resolver *)

Section StringFacts.
Local Open Scope string_scope.

Lemma append_nil_l (s : string) : "" ++ s = s.
Proof. reflexivity. Qed.

Lemma append_cons (c : ascii) (a b : string) : String c a ++ b = String c (a ++ b).
Proof. reflexivity. Qed.

Lemma append_empty_r (s : string) : s ++ "" = s.
Proof.
  induction s as [|c s IH]; [reflexivity|]. rewrite append_cons, IH. reflexivity.
Qed.

Lemma append_assoc (a b c : string) : (a ++ b) ++ c = a ++ (b ++ c).
Proof.
  induction a as [|x a IH]; [reflexivity|]. rewrite !append_cons, IH. reflexivity.
Qed.

Lemma prefix_app (q w : string) :
  String.prefix q w = true <-> exists r, w = q ++ r.
Proof.
  revert w. induction q as [|c q IH]; intros w.
  - split; [intros _; exists w; reflexivity | intros _; destruct w; reflexivity].
  - destruct w as [|d w]; simpl.
    + split; [discriminate | intros [r Hr]; rewrite append_cons in Hr; discriminate Hr].
    + destruct (ascii_dec c d) as [-> | Hne].
      * rewrite IH. split; intros [r Hr]; exists r; rewrite append_cons in *; congruence.
      * split; [discriminate | intros [r Hr]; rewrite append_cons in Hr; congruence].
Qed.

Lemma contains_nil (q : string) :
  PyStr.contains "" q = String.prefix q "" || false.
Proof. reflexivity. Qed.

Lemma contains_cons (c : ascii) (s q : string) :
  PyStr.contains (String c s) q = String.prefix q (String c s) || PyStr.contains s q.
Proof. reflexivity. Qed.

Lemma contains_app (s q : string) :
  PyStr.contains s q = true <-> exists pre post, s = pre ++ q ++ post.
Proof.
  induction s as [|c s IH]; [rewrite contains_nil | rewrite contains_cons].
  - rewrite orb_false_r, prefix_app. split.
    + intros [r Hr]. exists "", r. exact Hr.
    + intros (pre & post & Hs). destruct pre as [|d pre].
      * rewrite append_nil_l in Hs. eauto.
      * rewrite append_cons in Hs. discriminate Hs.
  - rewrite orb_true_iff, prefix_app, IH. split.
    + intros [[r Hr] | (pre & post & Hs)].
      * exists "", r. exact Hr.
      * exists (String c pre), post. rewrite append_cons, Hs. reflexivity.
    + intros (pre & post & Hs). destruct pre as [|d pre].
      * left. rewrite append_nil_l in Hs. eauto.
      * right. rewrite append_cons in Hs. injection Hs as _ Hs. eauto.
Qed.

Lemma split_from_In (word s w : string) :
  In w (PyStr.split_from word s) -> exists pre post, word ++ s = pre ++ w ++ post.
Proof.
  revert word. induction s as [|c s IH]; intros word; simpl.
  - destruct (PyStr.is_empty word); [intros []|]. intros [<- | []].
    exists "", "". rewrite append_nil_l. reflexivity.
  - destruct (PyStr.is_space c).
    + destruct word as [|d word]; simpl.
      * intros Hw. destruct (IH "" Hw) as (pre & post & Hs).
        rewrite append_nil_l in Hs.
        exists (String c pre), post. rewrite append_nil_l, append_cons, Hs. reflexivity.
      * intros [<- | Hw].
        -- exists "", (String c s). rewrite append_nil_l. reflexivity.
        -- destruct (IH "" Hw) as (pre & post & Hs). rewrite append_nil_l in Hs.
           exists (String d word ++ String c pre), post.
           rewrite (append_assoc (String d word)), (append_cons c pre), Hs. reflexivity.
    + intros Hw. destruct (IH _ Hw) as (pre & post & Hs).
      exists pre, post. rewrite <- Hs, append_assoc. reflexivity.
Qed.

(** A string that a word of [s] starts with occurs in [s]. *)
Lemma word_start_contains (s q : string) :
  existsb (fun w => PyStr.startswith w q) (PyStr.split s) = true ->
  PyStr.contains s q = true.
Proof.
  rewrite existsb_exists. intros (w & Hw & Hstart).
  apply prefix_app in Hstart. destruct Hstart as [r ->].
  apply split_from_In in Hw. destruct Hw as (pre & post & Hs).
  rewrite append_nil_l in Hs.
  apply contains_app. exists pre, (r ++ post). rewrite Hs, append_assoc. reflexivity.
Qed.

Lemma rstrip_blank (s : string) : blank s = true -> PyStr.rstrip s = "".
Proof.
  induction s as [|c s IH]; simpl; [reflexivity|].
  intros [Hc Hs]%andb_prop. rewrite Hc, (IH Hs). reflexivity.
Qed.

Lemma lstrip_app_blank (pre s : string) :
  blank pre = true -> PyStr.lstrip (pre ++ s) = PyStr.lstrip s.
Proof.
  induction pre as [|c pre IH]; [reflexivity|]. rewrite append_cons. simpl.
  intros [Hc Hpre]%andb_prop. rewrite Hc. auto.
Qed.

Lemma rstrip_app_blank (s post : string) :
  blank post = true -> PyStr.rstrip (s ++ post) = PyStr.rstrip s.
Proof.
  intros Hpost. induction s as [|c s IH].
  - rewrite append_nil_l. apply rstrip_blank, Hpost.
  - rewrite append_cons. simpl. rewrite IH. reflexivity.
Qed.

Lemma strip_app_blank (pre s post : string) :
  blank pre = true -> blank post = true ->
  PyStr.strip (pre ++ s ++ post) = PyStr.strip s.
Proof.
  intros Hpre Hpost. unfold PyStr.strip. rewrite lstrip_app_blank by exact Hpre.
  clear pre Hpre. induction s as [|c s IH].
  - rewrite append_nil_l, (lstrip_blank post Hpost). reflexivity.
  - rewrite append_cons. simpl. destruct (PyStr.is_space c); [exact IH|].
    rewrite <- append_cons. apply rstrip_app_blank, Hpost.
Qed.

Lemma lower_app (a b : string) : PyStr.lower (a ++ b) = PyStr.lower a ++ PyStr.lower b.
Proof.
  induction a as [|c a IH]; [reflexivity|].
  rewrite append_cons. simpl. rewrite IH. reflexivity.
Qed.

End StringFacts.

Lemma first_such_none {A : Type} (p : A -> bool) (l : list A) :
  first_such p l = None <-> forall x, In x l -> p x = false.
Proof.
  unfold first_such. split.
  - intros Hnone x Hx. exact (find_none p l Hnone x Hx).
  - intros Hall. induction l as [|y l IH]; simpl; [reflexivity|].
    rewrite (Hall y (or_introl eq_refl)). apply IH. intros x Hx. apply Hall. right. exact Hx.
Qed.

Lemma first_such_some {A : Type} (p : A -> bool) (l : list A) (x : A) :
  first_such p l = Some x -> In x l /\ p x = true.
Proof. apply find_some. Qed.

Lemma filter_nil_iff {A : Type} (p : A -> bool) (l : list A) :
  List.filter p l = [] <-> forall x, In x l -> p x = false.
Proof.
  induction l as [|y l IH]; simpl.
  - split; [intros _ x [] | reflexivity].
  - destruct (p y) eqn:Hy.
    + split; [discriminate|]. intros Hall. rewrite (Hall y (or_introl eq_refl)) in Hy.
      discriminate Hy.
    + rewrite IH. split.
      * intros Hall x [<- | Hx]; auto.
      * intros Hall x Hx. apply Hall. right. exact Hx.
Qed.

(** The word-start stage is reached only when no name contains the query, and
    then no name word starts with it either. *)
Lemma word_start_never_matches (q : string) :
  partial_matches q = [] -> word_start_match q = None.
Proof.
  unfold partial_matches, word_start_match. rewrite filter_nil_iff, first_such_none.
  intros Hnone s Hs. specialize (Hnone s Hs).
  destruct (existsb _ (PyStr.split (name_lower s))) eqn:Hword; [|reflexivity].
  apply word_start_contains in Hword. congruence.
Qed.

Lemma sort_by_key_head_min {A : Type} (key : A -> Z) (l : list A) (x : A) :
  List.head (sort_by_key key l) = Some x ->
  In x l /\ forall y, In y l -> key x <= key y.
Proof.
  unfold sort_by_key. set (leb := fun a b => key a <=? key b).
  intros Hhead.
  assert (Hsorted : StronglySorted (fun a b => leb a b = true) (py_sort leb l)).
  { apply py_sort_sorted; unfold leb; intros.
    - destruct (Z.leb_spec (key x0) (key y)); [auto|]. right. apply Z.leb_le. lia.
    - rewrite Z.leb_le in *. lia. }
  destruct (py_sort leb l) as [|z rest] eqn:Hs; [discriminate|].
  injection Hhead as ->.
  assert (Hin : forall y, In y l <-> In y (x :: rest)).
  { intros y. rewrite <- Hs. symmetry. apply py_sort_In. }
  split; [apply Hin; left; reflexivity|].
  intros y Hy. apply Hin in Hy. destruct Hy as [<- | Hy]; [lia|].
  inversion Hsorted as [|? ? _ Hall]; subst. rewrite List.Forall_forall in Hall.
  apply Z.leb_le. exact (Hall y Hy).
Qed.

Lemma match_stop_stages (query : string) :
  _match_stop query
  = match exact_match (normalized query) with
    | Some s => Some s
    | None =>
        match alias_match (normalized query) with
        | Some s => Some s
        | None => partial_stage (normalized query)
        end
    end.
Proof. unfold _match_stop, normalized, exact_match, partial_stage. reflexivity. Qed.

Lemma exact_match_some (q : string) (S : Stop) :
  exact_match q = Some S ->
  In S BUS_STOPS /\ (name_lower S = q \/ stop_id S = q).
Proof.
  unfold exact_match. intros Hfound. apply first_such_some in Hfound.
  destruct Hfound as [Hin Hp]. split; [exact Hin|].
  apply orb_prop in Hp. destruct Hp as [Hp | Hp]; apply String.eqb_eq in Hp; auto.
Qed.

Lemma alias_match_some (q : string) (S : Stop) :
  alias_match q = Some S ->
  In S BUS_STOPS /\ dict_get match_stop_aliases q = Some (name_lower S).
Proof.
  unfold alias_match. destruct (dict_get match_stop_aliases q) as [alias_name|]; [|discriminate].
  intros Hfound. apply first_such_some in Hfound. destruct Hfound as [Hin Hp].
  apply String.eqb_eq in Hp. split; [exact Hin | congruence].
Qed.

(** The partial-match stage returns a stop of its list with a shortest name. *)
Lemma partial_stage_shortest (q : string) (S : Stop) :
  partial_stage q = Some S ->
  In S (partial_matches q)
  /\ forall s, In s (partial_matches q) ->
       PyStr.len (stop_name S) <= PyStr.len (stop_name s).
Proof.
  unfold partial_stage. intros HS.
  destruct (partial_matches q) as [|m [|m' ms]] eqn:Hpm.
  - rewrite (word_start_never_matches q Hpm) in HS. discriminate HS.
  - injection HS as ->. split; [left; reflexivity|]. intros s [<- | []]. lia.
  - apply sort_by_key_head_min in HS. exact HS.
Qed.

Lemma partial_matches_In (q : string) (s : Stop) :
  In s (partial_matches q)
  <-> In s BUS_STOPS /\ PyStr.contains (name_lower s) q = true.
Proof. exact (filter_In (fun s => PyStr.contains (name_lower s) q) s BUS_STOPS). Qed.

Lemma partial_stage_some (q : string) (S : Stop) :
  partial_stage q = Some S ->
  In S BUS_STOPS
  /\ PyStr.contains (name_lower S) q = true
  /\ forall s, In s BUS_STOPS -> PyStr.contains (name_lower s) q = true ->
       PyStr.len (stop_name S) <= PyStr.len (stop_name s).
Proof.
  intros HS. apply partial_stage_shortest in HS. destruct HS as [Hin Hmin].
  apply partial_matches_In in Hin. destruct Hin as [Hin Hc].
  split; [exact Hin|]. split; [exact Hc|].
  intros s Hs Hcs. apply Hmin, partial_matches_In. split; assumption.
Qed.

(** X1. What [_match_stop] returns is a stop of the catalog that the query
    justifies: its lower-cased name or its id is the normalized query, or its
    name is the alias of the query, or its name contains the query and no
    stop whose name contains the query has a shorter name. *)
Theorem match_stop_sound (query : string) (S : Stop) :
  _match_stop query = Some S ->
  In S BUS_STOPS
  /\ (name_lower S = normalized query
      \/ stop_id S = normalized query
      \/ dict_get match_stop_aliases (normalized query) = Some (name_lower S)
      \/ (PyStr.contains (name_lower S) (normalized query) = true
          /\ forall s, In s BUS_STOPS ->
               PyStr.contains (name_lower s) (normalized query) = true ->
               PyStr.len (stop_name S) <= PyStr.len (stop_name s))).
Proof.
  rewrite match_stop_stages.
  destruct (exact_match (normalized query)) as [s|] eqn:Hexact.
  { intros [= ->]. apply exact_match_some in Hexact. tauto. }
  destruct (alias_match (normalized query)) as [s|] eqn:Halias.
  { intros [= ->]. apply alias_match_some in Halias. tauto. }
  intros HS. apply partial_stage_some in HS. tauto.
Qed.

Lemma match_stop_sound_witness :
  exists S, _match_stop "salt lake sector" = Some S
            /\ In S BUS_STOPS /\ stop_id S = "sl5".
Proof.
  exists (catalog_stop "sl5").
  assert (HS : _match_stop "salt lake sector" = Some (catalog_stop "sl5"))
    by (vm_compute; reflexivity).
  split; [exact HS|].
  split; [exact (proj1 (match_stop_sound _ _ HS)) | reflexivity].
Defined.

Lemma exact_match_none (q : string) :
  exact_match q = None
  <-> forall s, In s BUS_STOPS ->
        String.eqb (name_lower s) q || String.eqb (stop_id s) q = false.
Proof.
  exact (first_such_none
           (fun s => String.eqb (name_lower s) q || String.eqb (stop_id s) q) BUS_STOPS).
Qed.

Lemma partial_matches_nil (q : string) :
  partial_matches q = []
  <-> forall s, In s BUS_STOPS -> PyStr.contains (name_lower s) q = false.
Proof. exact (filter_nil_iff (fun s => PyStr.contains (name_lower s) q) BUS_STOPS). Qed.

(** The partial-match stage, the word-start stage included, finds nothing
    exactly when no name contains the query. *)
Lemma partial_stage_none (q : string) :
  partial_stage q = None <-> partial_matches q = [].
Proof.
  split.
  - intros HS. destruct (partial_matches q) as [|m ms] eqn:Hpm; [reflexivity|].
    exfalso. assert (Hlen : length (partial_matches q) <> 0%nat) by (rewrite Hpm; discriminate).
    revert HS. unfold partial_stage. rewrite Hpm. destruct ms as [|m' ms]; [discriminate|].
    unfold shortest_name_first, sort_by_key.
    pose proof (py_sort_length
                  (fun x y => PyStr.len (stop_name x) <=? PyStr.len (stop_name y))
                  (m :: m' :: ms)) as Hl.
    destruct (py_sort _ (m :: m' :: ms)); [discriminate Hl | discriminate].
  - intros Hpm. unfold partial_stage. rewrite Hpm. apply word_start_never_matches, Hpm.
Qed.

(** X2. [_match_stop] answers [None] exactly when no stop has the normalized
    query as its id or within its lower-cased name and the alias table gives
    no stop for it; the word-start stage, reached only after the partial
    match found nothing, never finds a stop. *)
Theorem match_stop_none_iff (query : string) :
  (partial_matches (normalized query) = [] -> word_start_match (normalized query) = None)
  /\ (_match_stop query = None <->
      alias_match (normalized query) = None
      /\ forall s, In s BUS_STOPS ->
           stop_id s <> normalized query
           /\ PyStr.contains (name_lower s) (normalized query) = false).
Proof.
  split; [apply word_start_never_matches|].
  rewrite match_stop_stages. split.
  - destruct (exact_match (normalized query)) as [s|] eqn:Hexact; [discriminate|].
    destruct (alias_match (normalized query)) as [s|] eqn:Halias; [discriminate|].
    intros Hpartial. split; [reflexivity|].
    pose proof (proj1 (partial_matches_nil _) (proj1 (partial_stage_none _) Hpartial))
      as Hcontains.
    intros s Hs. split; [|exact (Hcontains s Hs)].
    pose proof (proj1 (exact_match_none _) Hexact s Hs) as Heqb.
    apply orb_false_elim in Heqb.
    destruct Heqb as [_ Hid]. apply String.eqb_neq in Hid. exact Hid.
  - intros [Halias Hnone].
    assert (Hexact : exact_match (normalized query) = None).
    { apply exact_match_none. intros s Hs.
      destruct (Hnone s Hs) as [Hid Hc]. apply orb_false_intro.
      - apply String.eqb_neq. intros Heq.
        assert (Hcontains : PyStr.contains (name_lower s) (normalized query) = true).
        { apply contains_app. exists "", "". rewrite append_nil_l, append_empty_r.
          exact Heq. }
        congruence.
      - apply String.eqb_neq. exact Hid. }
    rewrite Hexact, Halias.
    apply partial_stage_none, partial_matches_nil.
    intros s Hs. apply (Hnone s Hs).
Qed.

(** X3. On ASCII queries [_match_stop] ignores the letter case of the query
    and blanks around it: the query in upper case between two runs of blanks
    resolves as the query itself.  (Outside ASCII [str.upper] can change which
    letters a text has, and the statement is not made there.) *)
Theorem match_stop_case_and_blanks (query pre post : string) :
  is_ascii query = true ->
  blank pre = true -> blank post = true ->
  _match_stop (pre ++ PyStr.upper query ++ post)%string = _match_stop query.
Proof.
  intros _ Hpre Hpost. rewrite !match_stop_stages.
  assert (Hnorm : normalized (pre ++ PyStr.upper query ++ post)%string = normalized query).
  { unfold normalized. rewrite !lower_app, lower_upper.
    apply strip_app_blank; rewrite blank_lower; assumption. }
  rewrite Hnorm. reflexivity.
Qed.

Lemma match_stop_case_and_blanks_witness :
  _match_stop "  ESPLANADE " = _match_stop "Esplanade".
Proof.
  exact (match_stop_case_and_blanks "Esplanade" "  " " " eq_refl eq_refl eq_refl).
Defined.
(** ** More on the connection finder *)

Lemma catalog_routes_known :
  Forall (fun s => Forall (fun rid => exists route, route_by_id rid = Some route) (routes s))
    BUS_STOPS.
Proof.
  apply Forall_of_forallb
    with (f := fun s => forallb (fun rid => match route_by_id rid with
                                            | Some _ => true
                                            | None => false
                                            end) (routes s)).
  - intros s Hs. apply Forall_of_forallb with (2 := Hs).
    intros rid Hrid. destruct (route_by_id rid) as [route|]; [eauto | discriminate].
  - vm_compute. reflexivity.
Qed.

Lemma catalog_jk : catalog_stop "jk" = mkStop "jk" "Joka" 22.4487 88.3095 ["230"].
Proof. reflexivity. Qed.

Lemma direct_time_same_stop (A : Stop) : direct_time A A = 5.
Proof.
  unfold direct_time, flat_km.
  replace ((lat A - lat A) ^ 2 + (lng A - lng A) ^ 2)%R with (0 ^ 2)%R by (simpl; ring).
  rewrite sqrt_pow2 by lra.
  rewrite (py_int_eq 0) by (lia || lra). reflexivity.
Qed.

Lemma flat_km_sym (A B : Stop) : flat_km A B = flat_km B A.
Proof. unfold flat_km. f_equal. f_equal. simpl. ring. Qed.

Lemma ranked_nonempty (direct transfer : list ConnectionResult) :
  direct <> [] -> ranked direct transfer <> [].
Proof.
  intros Hne Hnil. destruct direct as [|d ds]; [congruence|].
  unfold ranked in Hnil.
  pose proof (py_sort_length rank_leb (d :: ds)) as Hlen.
  destruct (py_sort rank_leb (d :: ds)) as [|x xs]; [discriminate Hlen|].
  discriminate Hnil.
Qed.

Section MoreConnectionFacts.
Context `{SetOrder}.

Lemma transfer_step_shape (A B mid : Stop) (acc : list string * list ConnectionResult) :
  In mid BUS_STOPS ->
  Forall (transfer_shape A B) (snd acc) ->
  Forall (transfer_shape A B) (snd (transfer_step A B acc mid)).
Proof.
  destruct acc as [seen results]. unfold transfer_step. intros Hmid Hacc.
  destruct (String.eqb (stop_id mid) (stop_id A)) eqn:HA; [exact Hacc|].
  destruct (String.eqb (stop_id mid) (stop_id B)) eqn:HB; [exact Hacc|].
  cbn [orb].
  destruct (set_inter (routes A) (routes mid)) as [|rid1 rest1] eqn:H1; [exact Hacc|].
  destruct (set_inter (routes mid) (routes B)) as [|rid2 rest2] eqn:H2; [exact Hacc|].
  destruct (route_by_id rid1) as [r1|] eqn:Hr1; [|exact Hacc].
  destruct (route_by_id rid2) as [r2|] eqn:Hr2; [|exact Hacc].
  destruct (existsb _ seen); [exact Hacc|].
  cbn [snd] in *. apply Forall_app. split; [exact Hacc|].
  constructor; [|constructor].
  assert (Hin1 : In rid1 (set_inter (routes A) (routes mid))) by (rewrite H1; left; reflexivity).
  assert (Hin2 : In rid2 (set_inter (routes mid) (routes B))) by (rewrite H2; left; reflexivity).
  apply set_inter_In in Hin1, Hin2.
  apply route_by_id_id in Hr1, Hr2. subst rid1 rid2.
  apply String.eqb_neq in HA, HB.
  exists mid, r1, r2. tauto.
Qed.

Lemma transfer_loop_shape (A B : Stop) (mids : list Stop)
    (acc : list string * list ConnectionResult) :
  (forall mid, In mid mids -> In mid BUS_STOPS) ->
  Forall (transfer_shape A B) (snd acc) ->
  Forall (transfer_shape A B) (snd (fold_left (transfer_step A B) mids acc)).
Proof.
  revert acc. induction mids as [|mid l IH]; intros acc Hsub Hacc; simpl; [exact Hacc|].
  apply IH.
  - intros m Hm. apply Hsub. right. exact Hm.
  - apply transfer_step_shape; [apply Hsub; left; reflexivity | exact Hacc].
Qed.

Lemma transfer_results_all_shape (A B : Stop) :
  Forall (transfer_shape A B) (transfer_results A B).
Proof.
  unfold transfer_results. apply transfer_loop_shape.
  - intros mid Hmid. exact Hmid.
  - constructor.
Qed.

Lemma transfer_time_ge_10 (A mid B : Stop) : 10 <= transfer_time A mid B.
Proof. unfold transfer_time. lia. Qed.

(** X5. Every transfer result of an answer changes at a catalog stop that is
    neither end of the trip, over a first route that serves the origin and
    that stop and a second route that serves that stop and the destination;
    its fare is the sum of the two minimum fares, its time is at least 10
    minutes, it counts one transfer, and no route of the table serves both
    ends of the trip. *)
Theorem transfer_results_shape (A B : Stop) (r : ConnectionResult) :
  In r (find_connections A B) -> is_direct r = false ->
  transfer_shape A B r
  /\ transfers r = 1
  /\ 10 <= estimated_time_min r
  /\ forall rid, In rid (routes A) -> In rid (routes B) -> route_by_id rid = None.
Proof.
  rewrite find_connections_ranked. intros Hr Hdirect.
  apply ranked_from in Hr. destruct Hr as [Hr | [Hnone Hr]].
  { apply direct_results_direct in Hr. congruence. }
  assert (Hshape : transfer_shape A B r).
  { pose proof (transfer_results_all_shape A B) as Hall.
    rewrite List.Forall_forall in Hall. exact (Hall r Hr). }
  split; [exact Hshape|].
  destruct Hshape as (mid & r1 & r2 & _ & _ & _ & -> & _).
  split; [reflexivity|]. split; [apply transfer_time_ge_10|].
  intros rid HA HB. destruct (route_by_id rid) as [route|] eqn:Hroute; [|reflexivity].
  exfalso.
  assert (Hin : In (DirectResult route (stop_name A) (stop_name B)
                      (direct_time A B) (fare_min route)) (direct_results A B)).
  { apply direct_results_In. exists rid, route.
    split; [apply set_inter_In; split; assumption|]. split; [exact Hroute | reflexivity]. }
  rewrite Hnone in Hin. destruct Hin.
Qed.

(** X6. For two stops of the catalog the route table knows every route they
    list, so each shared route gives a direct result; the answer is non-empty
    and all direct exactly when the two stops share a route. *)
Theorem catalog_stops_direct_iff_shared (A B : Stop) :
  In A BUS_STOPS -> In B BUS_STOPS ->
  List.length (direct_results A B)
  = List.length (set_inter (routes A) (routes B))
  /\ ((exists rid, In rid (routes A) /\ In rid (routes B)) <->
      (find_connections A B <> []
       /\ Forall (fun r => is_direct r = true) (find_connections A B))).
Proof.
  intros HA HB.
  assert (Hknown : forall rid, In rid (routes A) -> exists route, route_by_id rid = Some route).
  { pose proof catalog_routes_known as Hall. rewrite List.Forall_forall in Hall.
    specialize (Hall A HA). rewrite List.Forall_forall in Hall. exact Hall. }
  split.
  - unfold direct_results.
    assert (Hsub : forall rid, In rid (set_inter (routes A) (routes B)) ->
                               exists route, route_by_id rid = Some route).
    { intros rid Hrid. apply set_inter_In in Hrid. apply Hknown, Hrid. }
    induction (set_inter (routes A) (routes B)) as [|rid l IH]; [reflexivity|].
    simpl. destruct (Hsub rid (or_introl eq_refl)) as [route ->]. simpl.
    f_equal. apply IH. intros r Hr. apply Hsub. right. exact Hr.
  - rewrite find_connections_ranked. split.
    + intros (rid & HrA & HrB). destruct (Hknown rid HrA) as [route Hroute].
      assert (Hin : In (DirectResult route (stop_name A) (stop_name B)
                          (direct_time A B) (fare_min route)) (direct_results A B)).
      { apply direct_results_In. exists rid, route.
        split; [apply set_inter_In; split; assumption|]. split; [exact Hroute | reflexivity]. }
      split.
      * apply ranked_nonempty. intros Hnil. rewrite Hnil in Hin. destruct Hin.
      * apply List.Forall_forall. intros r Hr. apply ranked_from in Hr.
        destruct Hr as [Hr | [Hnil _]]; [exact (direct_results_direct A B r Hr)|].
        rewrite Hnil in Hin. destruct Hin.
    + intros [Hne Hall].
      destruct (ranked (direct_results A B) (transfer_results A B)) as [|r rs] eqn:Hranked;
        [congruence|].
      assert (Hr : In r (ranked (direct_results A B) (transfer_results A B)))
        by (rewrite Hranked; left; reflexivity).
      inversion Hall as [|? ? Hdirect _]; subst.
      apply ranked_from in Hr. destruct Hr as [Hr | [_ Hr]].
      * apply direct_results_In in Hr. destruct Hr as (rid & route & Hrid & _).
        apply set_inter_In in Hrid. eauto.
      * pose proof (transfer_results_transfers A B) as Ht.
        rewrite List.Forall_forall in Ht. rewrite (Ht r Hr) in Hdirect. discriminate.
Qed.

(** X4. A blank origin and a blank destination are not rejected: both resolve
    to Joka, and the answer is the single direct result of route 230 from
    Joka to Joka, with the floor time of 5 minutes. *)
Theorem find_route_between_blank (from_stop to_stop : string) :
  blank from_stop = true -> blank to_stop = true ->
  exists answer,
    find_route_between from_stop to_stop = Ok answer
    /\ answer_from answer = "Joka" /\ answer_to answer = "Joka"
    /\ answer_results answer
       = [DirectResult (mkRoute "230" "230" "Howrah Station" "Joka" "Behala" 8 28 10)
            "Joka" "Joka" 5 8].
Proof.
  intros Hfrom Hto. unfold find_route_between.
  assert (Hjk : forall query, blank query = true -> _match_stop query = Some (catalog_stop "jk")).
  { intros query Hq. rewrite match_stop_stages. unfold normalized.
    rewrite (strip_lower_blank query Hq). vm_compute. reflexivity. }
  rewrite (Hjk _ Hfrom), (Hjk _ Hto). eexists. split; [reflexivity|].
  cbn [answer_from answer_to answer_results].
  split; [reflexivity|]. split; [reflexivity|].
  unfold find_connections, direct_results.
  assert (Hinter : set_inter (routes (catalog_stop "jk")) (routes (catalog_stop "jk")) = ["230"]).
  { apply list_singleton; [apply set_inter_NoDup|].
    intros x. rewrite set_inter_In, catalog_jk. cbn [routes]. simpl.
    split; [intros [[Hx | []] _]; congruence | intros ->; auto]. }
  rewrite Hinter, direct_time_same_stop. reflexivity.
Qed.

End MoreConnectionFacts.

Lemma py_prefix_nonempty {A : Type} (n : Z) (l : list A) :
  0 < n -> l <> [] -> py_prefix n l <> [].
Proof.
  intros Hn Hne. destruct l as [|x l]; [congruence|].
  destruct (py_prefix_cons n x l Hn) as [rest ->]. discriminate.
Qed.

Lemma py_sort_nonempty {A : Type} (leb : A -> A -> bool) (l : list A) :
  l <> [] -> py_sort leb l <> [].
Proof.
  intros Hne Hnil. apply (f_equal (@List.length A)) in Hnil.
  rewrite py_sort_length in Hnil. destruct l; [congruence | discriminate Hnil].
Qed.

Lemma ranked_transfers_nonempty (transfer : list ConnectionResult) :
  transfer <> [] -> ranked [] transfer <> [].
Proof.
  intros Hne. unfold ranked, sort_by_key.
  apply py_prefix_nonempty; [lia|]. apply py_sort_nonempty.
  apply py_prefix_nonempty; [lia|]. apply py_sort_nonempty, Hne.
Qed.

Lemma transfer_results_shape_witness :
  exists r,
    In r (find_connections (catalog_stop "jk") (catalog_stop "nt"))
    /\ transfer_shape (catalog_stop "jk") (catalog_stop "nt") r
    /\ 10 <= estimated_time_min r.
Proof.
  assert (Hdirect : direct_results (catalog_stop "jk") (catalog_stop "nt") = [])
    by (lazy; reflexivity).
  assert (Htransfer : transfer_results (catalog_stop "jk") (catalog_stop "nt") <> []).
  { intros Hnil.
    assert (Hsome : match transfer_results (catalog_stop "jk") (catalog_stop "nt") with
                    | [] => false
                    | _ :: _ => true
                    end = true) by (lazy; reflexivity).
    rewrite Hnil in Hsome. discriminate Hsome. }
  pose proof (ranked_transfers_nonempty _ Htransfer) as Hne.
  pose proof (find_connections_ranked (catalog_stop "jk") (catalog_stop "nt")) as Hranked.
  rewrite Hdirect in Hranked.
  destruct (ranked [] (transfer_results (catalog_stop "jk") (catalog_stop "nt")))
    as [|r rs] eqn:Hlist; [congruence|].
  assert (Hin : In r (find_connections (catalog_stop "jk") (catalog_stop "nt")))
    by (rewrite Hranked; left; reflexivity).
  assert (Hr : is_direct r = false).
  { assert (Hfrom : In r (ranked [] (transfer_results (catalog_stop "jk") (catalog_stop "nt"))))
      by (rewrite Hlist; left; reflexivity).
    apply ranked_from in Hfrom. destruct Hfrom as [[] | [_ Hfrom]].
    pose proof (transfer_results_transfers (catalog_stop "jk") (catalog_stop "nt")) as Hall.
    rewrite List.Forall_forall in Hall. exact (Hall r Hfrom). }
  exists r. split; [exact Hin|].
  destruct (transfer_results_shape (catalog_stop "jk") (catalog_stop "nt") r Hin Hr)
    as (Hshape & _ & Htime & _).
  split; assumption.
Defined.

Lemma catalog_stops_direct_iff_shared_witness :
  find_connections (catalog_stop "hw") (catalog_stop "nt") <> []
  /\ Forall (fun r => is_direct r = true)
       (find_connections (catalog_stop "hw") (catalog_stop "nt")).
Proof.
  apply (proj2 (catalog_stops_direct_iff_shared (catalog_stop "hw") (catalog_stop "nt")
                  (catalog_stop_In "hw" _ eq_refl) (catalog_stop_In "nt" _ eq_refl))).
  exists "S12". rewrite catalog_hw, catalog_nt. cbn [routes].
  split; left; reflexivity.
Defined.

Lemma find_route_between_blank_witness :
  exists answer,
    find_route_between "" "  " = Ok answer /\ answer_from answer = "Joka".
Proof.
  destruct (find_route_between_blank "" "  " eq_refl eq_refl) as (answer & Hok & Hfrom & _).
  exists answer. split; assumption.
Defined.

(** ** More on the live-bus table *)

Section FleetFacts.
Implicit Types (db : FleetState) (r : FleetRequest) (reg : string).

Lemma str_or_absorb (a b : string) : str_or a (str_or a b) = str_or a b.
Proof. unfold str_or. destruct (PyStr.is_empty a); reflexivity. Qed.

Lemma str_or_same (a : string) : str_or a a = a.
Proof. unfold str_or. destruct (PyStr.is_empty a); reflexivity. Qed.

Lemma handle_lookup_other (now : Z) r db reg :
  reg <> request_reg r -> handle now r db !! reg = db !! reg.
Proof.
  intros Hne. destruct r as [req | req | req | req | reg0]; cbn [request_reg] in Hne;
    cbn [handle].
  - unfold update_bus_location. cbn [fst].
    destruct (db !! loc_bus_reg req); apply lookup_insert_ne; congruence.
  - unfold update_passengers.
    destruct (db !! pc_bus_reg req); [|reflexivity].
    destruct (int64 (pc_passenger_count req)); cbn [fst]; [|reflexivity].
    apply lookup_insert_ne; congruence.
  - unfold update_bus_status.
    destruct (db !! st_bus_reg req); cbn [fst]; [|reflexivity].
    apply lookup_insert_ne; congruence.
  - unfold start_trip. cbn [fst].
    destruct (db !! ts_bus_reg req); apply lookup_insert_ne; congruence.
  - unfold end_trip. cbn [fst].
    destruct (db !! reg0); [|reflexivity]. apply lookup_delete_ne; congruence.
Qed.

Lemma handle_stamps (now : Z) r db (bus : LiveBus) :
  overflows r = false ->
  handle now r db !! request_reg r = Some bus -> last_update bus = now.
Proof.
  destruct r as [req | req | req | req | reg0]; cbn [request_reg handle overflows].
  - intros _. unfold update_bus_location. cbn [fst].
    destruct (db !! loc_bus_reg req); rewrite lookup_insert_eq; intros [= <-]; reflexivity.
  - intros Hfits. apply negb_false_iff in Hfits. unfold update_passengers. rewrite Hfits.
    destruct (db !! pc_bus_reg req) eqn:Hget; cbn [fst].
    + rewrite lookup_insert_eq. intros [= <-]. reflexivity.
    + rewrite Hget. discriminate.
  - intros _. unfold update_bus_status.
    destruct (db !! st_bus_reg req) eqn:Hget; cbn [fst].
    + rewrite lookup_insert_eq. intros [= <-]. reflexivity.
    + rewrite Hget. discriminate.
  - intros _. unfold start_trip. cbn [fst].
    destruct (db !! ts_bus_reg req); rewrite lookup_insert_eq; intros [= <-]; reflexivity.
  - intros _. unfold end_trip. cbn [fst].
    destruct (db !! reg0) eqn:Hget.
    + rewrite lookup_delete_eq. discriminate.
    + rewrite Hget. discriminate.
Qed.

Lemma handle_overflow (now : Z) r db : overflows r = true -> handle now r db = db.
Proof.
  destruct r as [req | req | req | req | reg0]; cbn [handle overflows]; try discriminate.
  intros Hover. apply negb_true_iff in Hover. unfold update_passengers. rewrite Hover.
  destruct (db !! pc_bus_reg req); reflexivity.
Qed.

(** X7. A request reads and writes the record of its own registration only:
    every other registration keeps its record.  The record the request leaves
    under its registration carries the time of the request, unless the request
    is a passenger count outside the 64-bit range of the column: then the
    commit fails and the table is as it was. *)
Theorem handle_changes_own_record_only (now : Z) r db :
  (forall reg, reg <> request_reg r -> handle now r db !! reg = db !! reg)
  /\ (overflows r = false ->
      forall bus, handle now r db !! request_reg r = Some bus -> last_update bus = now)
  /\ (overflows r = true -> handle now r db = db).
Proof.
  split; [intros reg; apply handle_lookup_other|]. split.
  - intros Hfits bus. apply handle_stamps, Hfits.
  - apply handle_overflow.
Qed.

(** X8. Ending the trip of a bus undoes whatever the last request on that bus
    did: the table is the earlier one without the record of the bus. *)
Theorem end_trip_after_request (now : Z) r db :
  fst (end_trip (request_reg r) (handle now r db)) = delete (request_reg r) db.
Proof.
  assert (Hdel : forall d, fst (end_trip (request_reg r) d) = delete (request_reg r) d).
  { intros d. unfold end_trip. cbn [fst].
    destruct (d !! request_reg r) eqn:Hget; [reflexivity|].
    symmetry. apply delete_id. exact Hget. }
  rewrite Hdel.
  destruct r as [req | req | req | req | reg0]; cbn [request_reg handle].
  - unfold update_bus_location. cbn [fst].
    destruct (db !! loc_bus_reg req); apply delete_insert_eq.
  - unfold update_passengers.
    destruct (db !! pc_bus_reg req); [|reflexivity].
    destruct (int64 (pc_passenger_count req)); cbn [fst];
      [apply delete_insert_eq | reflexivity].
  - unfold update_bus_status.
    destruct (db !! st_bus_reg req); cbn [fst]; [apply delete_insert_eq | reflexivity].
  - unfold start_trip. cbn [fst].
    destruct (db !! ts_bus_reg req); apply delete_insert_eq.
  - unfold end_trip. cbn [fst].
    destruct (db !! reg0); [apply delete_delete_eq | reflexivity].
Qed.

(** X9. A request handled twice at the same time leaves the table the first
    handling left. *)
Theorem handle_idempotent (now : Z) r db :
  handle now r (handle now r db) = handle now r db.
Proof.
  destruct r as [req | req | req | req | reg0]; cbn [handle].
  - unfold update_bus_location. cbn [fst].
    destruct (db !! loc_bus_reg req) as [bus|]; rewrite lookup_insert_eq, insert_insert_eq;
      cbn [bus_reg driver_id driver_name bus_route_id latitude longitude speed
           passenger_count crowd_level status delay_reason trip_started_at last_update new_bus].
    + rewrite str_or_absorb. reflexivity.
    + unfold new_bus. cbn [bus_reg driver_id driver_name bus_route_id latitude longitude speed
           passenger_count crowd_level status delay_reason trip_started_at last_update].
      rewrite str_or_same. reflexivity.
  - unfold update_passengers.
    destruct (db !! pc_bus_reg req) as [bus|] eqn:Hget; cbn [fst].
    + destruct (int64 (pc_passenger_count req)); cbn [fst].
      * rewrite lookup_insert_eq. cbn [fst]. rewrite insert_insert_eq. reflexivity.
      * rewrite Hget. reflexivity.
    + rewrite Hget. reflexivity.
  - unfold update_bus_status.
    destruct (db !! st_bus_reg req) as [bus|] eqn:Hget; cbn [fst].
    + rewrite lookup_insert_eq. cbn [fst]. rewrite insert_insert_eq. reflexivity.
    + rewrite Hget. reflexivity.
  - unfold start_trip. cbn [fst].
    destruct (db !! ts_bus_reg req) as [bus|]; rewrite lookup_insert_eq, insert_insert_eq;
      reflexivity.
  - unfold end_trip. cbn [fst].
    destruct (db !! reg0) as [bus|] eqn:Hget.
    + rewrite lookup_delete_eq. reflexivity.
    + rewrite Hget. reflexivity.
Qed.

(** X10. Passenger counts and status changes are accepted for a bus exactly
    while it has a record: after [end_trip] both are rejected with 404 and
    change nothing; after [start_trip] a status change is accepted, and so is
    a passenger count that fits the 64-bit column, while a count outside that
    range fails with status 500 and changes nothing. *)
Theorem updates_need_a_started_trip (t1 t2 : Z) reg db :
  (forall count,
      update_passengers t2 (mkPassengerCountUpdate reg count) (fst (end_trip reg db))
      = (fst (end_trip reg db), HTTPException 404 "Bus not found"))
  /\ (forall st reason,
      update_bus_status t2 (mkStatusUpdate reg st reason) (fst (end_trip reg db))
      = (fst (end_trip reg db), HTTPException 404 "Bus not found"))
  /\ (forall route count,
      int64 count = true ->
      snd (update_passengers t2 (mkPassengerCountUpdate reg count)
             (fst (start_trip t1 (mkTripStartRequest reg route) db)))
      = Ok ("ok", crowd_of count, count))
  /\ (forall route count,
      int64 count = false ->
      update_passengers t2 (mkPassengerCountUpdate reg count)
        (fst (start_trip t1 (mkTripStartRequest reg route) db))
      = (fst (start_trip t1 (mkTripStartRequest reg route) db),
         HTTPException 500 "Internal Server Error"))
  /\ (forall route st reason,
      snd (update_bus_status t2 (mkStatusUpdate reg st reason)
             (fst (start_trip t1 (mkTripStartRequest reg route) db)))
      = Ok ("ok", st)).
Proof.
  assert (Hgone : fst (end_trip reg db) !! reg = None).
  { unfold end_trip. cbn [fst]. destruct (db !! reg) eqn:Hget;
      [apply lookup_delete_eq | exact Hget]. }
  assert (Hthere : forall route,
             exists bus, fst (start_trip t1 (mkTripStartRequest reg route) db) !! reg = Some bus).
  { intros route. unfold start_trip. cbn [fst ts_bus_reg].
    destruct (db !! reg); rewrite lookup_insert_eq; eauto. }
  split; [|split; [|split; [|split]]].
  - intros count. unfold update_passengers. cbn [pc_bus_reg]. rewrite Hgone. reflexivity.
  - intros st reason. unfold update_bus_status. cbn [st_bus_reg]. rewrite Hgone. reflexivity.
  - intros route count Hfits. destruct (Hthere route) as [bus Hbus].
    unfold update_passengers. cbn [pc_bus_reg pc_passenger_count]. rewrite Hbus, Hfits.
    reflexivity.
  - intros route count Hfits. destruct (Hthere route) as [bus Hbus].
    unfold update_passengers. cbn [pc_bus_reg pc_passenger_count]. rewrite Hbus, Hfits.
    reflexivity.
  - intros route st reason. destruct (Hthere route) as [bus Hbus].
    unfold update_bus_status. cbn [st_bus_reg]. rewrite Hbus. reflexivity.
Qed.

Lemma run_app (reqs reqs' : list (Z * FleetRequest)) db :
  run (reqs ++ reqs') db = run reqs' (run reqs db).
Proof. unfold run. apply fold_left_app. Qed.

Lemma run_cons (now : Z) r (reqs : list (Z * FleetRequest)) db :
  run ((now, r) :: reqs) db = run reqs (handle now r db).
Proof. reflexivity. Qed.

Lemma run_lookup_other (reqs : list (Z * FleetRequest)) db reg :
  Forall (fun tr => request_reg (snd tr) <> reg) reqs ->
  run reqs db !! reg = db !! reg.
Proof.
  revert db. induction reqs as [|[now r] reqs IH]; intros db Hall; [reflexivity|].
  rewrite run_cons. inversion Hall as [|? ? Hr Hrest]; subst. cbn [snd] in Hr.
  rewrite IH by exact Hrest. apply handle_lookup_other. congruence.
Qed.

Lemma upper_char_idem (c : ascii) : PyStr.upper_char (PyStr.upper_char c) = PyStr.upper_char c.
Proof.
  destruct c as [[] [] [] [] [] [] [] []]; reflexivity.
Qed.

Lemma upper_idem (s : string) : PyStr.upper (PyStr.upper s) = PyStr.upper s.
Proof. induction s as [|c s IH]; simpl; [|rewrite upper_char_idem, IH]; reflexivity. Qed.

(** X11. [get_bus] looks a bus up under the upper-cased registration, while
    the requests store it under the registration as sent.  A bus whose trip
    started under an upper-case registration is read back, with the route of
    the trip and no passengers; but whatever the requests did, [get_bus]
    answers 404 unless one of them was sent for the upper-cased registration
    itself. *)
Theorem get_bus_reads_upper_case (reg : string) :
  (forall now route db,
      PyStr.upper reg = reg ->
      exists view,
        get_bus reg (fst (start_trip now (mkTripStartRequest reg route) db)) = Ok view
        /\ view_route_id view = route /\ view_passenger_count view = 0
        /\ view_crowd_level view = Low /\ view_status view = "running"
        /\ view_delay_reason view = "")
  /\ (forall reqs,
      Forall (fun tr => request_reg (snd tr) <> PyStr.upper reg) reqs ->
      get_bus reg (run reqs ∅) = HTTPException 404 "Bus not found or trip ended").
Proof.
  split.
  - intros now route db Hupper. unfold get_bus, start_trip. cbn [fst ts_bus_reg].
    rewrite Hupper. destruct (db !! reg); rewrite lookup_insert_eq; eexists;
      (split; [reflexivity|]); repeat split.
  - intros reqs Hall. unfold get_bus.
    rewrite (run_lookup_other reqs ∅ (PyStr.upper reg) Hall), lookup_empty. reflexivity.
Qed.

Lemma get_bus_reads_upper_case_witness :
  (exists bus, run [(100, StartTrip (mkTripStartRequest "wb-01" "S12"))] ∅ !! "wb-01" = Some bus)
  /\ get_bus "wb-01" (run [(100, StartTrip (mkTripStartRequest "wb-01" "S12"))] ∅)
     = HTTPException 404 "Bus not found or trip ended".
Proof.
  split.
  - unfold run. cbn [fold_left handle]. unfold start_trip. cbn [fst ts_bus_reg].
    rewrite lookup_empty, lookup_insert_eq. eauto.
  - apply (proj2 (get_bus_reads_upper_case "wb-01")).
    constructor; [|constructor]. cbn [snd request_reg ts_bus_reg]. discriminate.
Defined.

Lemma keyed_by_reg_insert db reg (bus : LiveBus) :
  keyed_by_reg db -> bus_reg bus = reg -> keyed_by_reg (<[reg := bus]> db).
Proof.
  intros Hdb Hbus reg' bus' Hget.
  destruct (decide (reg = reg')) as [-> | Hne].
  - rewrite lookup_insert_eq in Hget. congruence.
  - rewrite lookup_insert_ne in Hget by exact Hne. eauto.
Qed.

Lemma handle_keyed_by_reg (now : Z) r db :
  keyed_by_reg db -> keyed_by_reg (handle now r db).
Proof.
  intros Hdb. destruct r as [req | req | req | req | reg0]; cbn [handle].
  - unfold update_bus_location. cbn [fst].
    destruct (db !! loc_bus_reg req) as [bus|] eqn:Hget;
      apply keyed_by_reg_insert; cbn [bus_reg new_bus]; eauto.
  - unfold update_passengers.
    destruct (db !! pc_bus_reg req) as [bus|] eqn:Hget; [|exact Hdb].
    destruct (int64 (pc_passenger_count req)); cbn [fst]; [|exact Hdb].
    apply keyed_by_reg_insert; cbn [bus_reg]; eauto.
  - unfold update_bus_status.
    destruct (db !! st_bus_reg req) as [bus|] eqn:Hget; cbn [fst]; [|exact Hdb].
    apply keyed_by_reg_insert; cbn [bus_reg]; eauto.
  - unfold start_trip. cbn [fst].
    destruct (db !! ts_bus_reg req) as [bus|] eqn:Hget;
      apply keyed_by_reg_insert; cbn [bus_reg new_bus]; eauto.
  - unfold end_trip. cbn [fst].
    destruct (db !! reg0); [|exact Hdb].
    intros reg' bus' Hget. destruct (decide (reg0 = reg')) as [-> | Hne].
    + rewrite lookup_delete_eq in Hget. discriminate.
    + rewrite lookup_delete_ne in Hget by exact Hne. eauto.
Qed.

Lemma run_keyed_by_reg (reqs : list (Z * FleetRequest)) db :
  keyed_by_reg db -> keyed_by_reg (run reqs db).
Proof.
  revert db. induction reqs as [|[now r] reqs IH]; intros db Hdb; [exact Hdb|].
  rewrite run_cons. apply IH, handle_keyed_by_reg, Hdb.
Qed.

Lemma rows_In db (bus : LiveBus) :
  In bus (rows db) <-> exists reg, db !! reg = Some bus.
Proof.
  unfold rows. rewrite in_map_iff. split.
  - intros ([reg b] & <- & Hin). exists reg.
    apply elem_of_map_to_list. apply list_elem_of_In. exact Hin.
  - intros [reg Hget]. exists (reg, bus). split; [reflexivity|].
    apply list_elem_of_In. apply elem_of_map_to_list. exact Hget.
Qed.

(** X12. On every table the requests can build, [get_crowd_levels] lists each
    bus of the table once, and the crowd level of every entry is the one the
    thresholds give for the passenger count of the entry. *)
Theorem crowd_levels_of_reached_table (reqs : list (Z * FleetRequest)) :
  List.length (get_crowd_levels (rows (run reqs ∅))) = size (run reqs ∅)
  /\ List.NoDup (List.map entry_bus_reg (get_crowd_levels (rows (run reqs ∅))))
  /\ (forall reg, In reg (List.map entry_bus_reg (get_crowd_levels (rows (run reqs ∅))))
                  <-> is_Some (run reqs ∅ !! reg))
  /\ List.Forall (fun e => entry_crowd_level e = crowd_of (entry_passenger_count e))
       (get_crowd_levels (rows (run reqs ∅))).
Proof.
  set (db := run reqs ∅).
  assert (Hkeyed : keyed_by_reg db).
  { apply run_keyed_by_reg. intros reg bus Hget. rewrite lookup_empty in Hget. discriminate. }
  assert (Hcrowd : crowd_consistent db) by apply run_crowd_consistent, crowd_consistent_empty.
  assert (Hregs : List.map entry_bus_reg (get_crowd_levels (rows db))
                  = List.map fst (map_to_list db)).
  { unfold get_crowd_levels, rows. rewrite !List.map_map. apply List.map_ext_in.
    intros [reg bus] Hin. cbn [fst snd crowd_entry entry_bus_reg].
    apply Hkeyed. apply elem_of_map_to_list, list_elem_of_In. exact Hin. }
  split; [|split; [|split]].
  - unfold get_crowd_levels, rows. rewrite !List.length_map. apply length_map_to_list.
  - rewrite Hregs. apply NoDup_ListNoDup, NoDup_fst_map_to_list.
  - intros reg. rewrite Hregs, in_map_iff. split.
    + intros ([reg' bus] & <- & Hin). exists bus.
      apply elem_of_map_to_list, list_elem_of_In. exact Hin.
    + intros [bus Hget]. exists (reg, bus). split; [reflexivity|].
      apply list_elem_of_In, elem_of_map_to_list. exact Hget.
  - apply List.Forall_forall. intros e He. unfold get_crowd_levels in He.
    apply in_map_iff in He. destruct He as (bus & <- & Hbus).
    apply rows_In in Hbus. destruct Hbus as [reg Hget].
    cbn [crowd_entry entry_crowd_level entry_passenger_count]. exact (Hcrowd reg bus Hget).
Qed.

End FleetFacts.
(** ** The catalog endpoints: [search_routes], [get_route], [get_nearest_stops] *)

Lemma lower_lower_upper (s : string) : PyStr.lower (PyStr.upper s) = PyStr.lower (PyStr.lower s).
Proof. rewrite lower_upper, lower_idem. reflexivity. Qed.

Lemma contains_self_part (s q part : string) :
  PyStr.contains s q = true -> PyStr.contains q part = true -> PyStr.contains s part = true.
Proof.
  rewrite !contains_app. intros (pre & post & ->) (pre' & post' & ->).
  exists (pre ++ pre')%string, (post' ++ post)%string.
  rewrite !append_assoc. reflexivity.
Qed.

Lemma contains_empty (s : string) : PyStr.contains s "" = true.
Proof.
  apply contains_app. exists "", s. rewrite !append_nil_l. reflexivity.
Qed.

Lemma filter_all {A : Type} (p : A -> bool) (l : list A) :
  (forall x, In x l -> p x = true) -> List.filter p l = l.
Proof.
  induction l as [|x l IH]; intros Hall; [reflexivity|]. simpl.
  rewrite (Hall x (or_introl eq_refl)). f_equal. apply IH.
  intros y Hy. apply Hall. right. exact Hy.
Qed.

Lemma filter_sub {A : Type} (p p' : A -> bool) (l : list A) (x : A) :
  (forall y, p y = true -> p' y = true) ->
  In x (List.filter p l) -> In x (List.filter p' l).
Proof. rewrite !filter_In. intros Himp [Hin Hp]. auto. Qed.

(** X13. [search_routes] ignores the letter case of an ASCII query, answers
    the empty query with the whole route table, and answers a part of a query
    with at least the routes it answers the query with. *)
Theorem search_routes_query (query : string) :
  (is_ascii query = true -> search_routes (PyStr.upper query) = search_routes query)
  /\ search_routes (PyStr.lower query) = search_routes query
  /\ (PyStr.is_empty query = true -> search_routes query = BUS_ROUTES)
  /\ (forall part r,
        PyStr.contains (PyStr.lower query) (PyStr.lower part) = true ->
        In r (search_routes query) -> In r (search_routes part)).
Proof.
  split; [|split; [|split]].
  - intros _. unfold search_routes. cbv zeta. rewrite lower_upper. reflexivity.
  - unfold search_routes. cbv zeta. rewrite lower_idem. reflexivity.
  - destruct query as [|c query]; [intros _ | discriminate].
    unfold search_routes. cbv zeta. apply filter_all. intros r _.
    change (PyStr.lower "") with "". rewrite contains_empty. reflexivity.
  - intros part r Hpart. unfold search_routes. cbv zeta. apply filter_sub.
    intros y Hy. rewrite !orb_true_iff in *.
    destruct Hy as [[[Hy | Hy] | Hy] | Hy];
      pose proof (contains_self_part _ _ _ Hy Hpart) as Hc; auto.
Qed.

Lemma route_by_id_none (rid : string) :
  route_by_id rid = None <-> ~ In rid (List.map route_id BUS_ROUTES).
Proof.
  unfold route_by_id. rewrite first_such_none, in_map_iff. split.
  - intros Hnone (r & Heq & Hin). specialize (Hnone r Hin).
    apply String.eqb_neq in Hnone. contradiction.
  - intros Hnot r Hin. apply String.eqb_neq. intros Heq. apply Hnot. eauto.
Qed.

Lemma route_by_id_In (rid : string) (route : Route) :
  route_by_id rid = Some route -> In route BUS_ROUTES /\ route_id route = rid.
Proof.
  unfold route_by_id. intros Hfound. apply first_such_some in Hfound.
  destruct Hfound as [Hin Heq]. apply String.eqb_eq in Heq. auto.
Qed.

Lemma NoDup_map_same {A B : Type} (f : A -> B) (l : list A) (x y : A) :
  List.NoDup (List.map f l) -> In x l -> In y l -> f x = f y -> x = y.
Proof.
  induction l as [|a l IH]; simpl; [intros _ []|].
  intros Hnodup Hx Hy Heq. inversion Hnodup as [|? ? Hnotin Hrest]; subst.
  destruct Hx as [-> | Hx], Hy as [-> | Hy]; auto.
  - exfalso. apply Hnotin. rewrite Heq. apply in_map, Hy.
  - exfalso. apply Hnotin. rewrite <- Heq. apply in_map, Hx.
Qed.

Lemma route_ids_distinct : List.NoDup (List.map route_id BUS_ROUTES).
Proof.
  assert (Hnodup : nodup string_dec (List.map route_id BUS_ROUTES)
                   = List.map route_id BUS_ROUTES) by (vm_compute; reflexivity).
  rewrite <- Hnodup. apply List.NoDup_nodup.
Qed.

Lemma stop_ids_distinct : List.NoDup (List.map stop_id BUS_STOPS).
Proof.
  assert (Hnodup : nodup string_dec (List.map stop_id BUS_STOPS)
                   = List.map stop_id BUS_STOPS) by (vm_compute; reflexivity).
  rewrite <- Hnodup. apply List.NoDup_nodup.
Qed.

Lemma every_route_has_stops :
  Forall (fun r => List.filter (fun s => existsb (String.eqb (route_id r)) (routes s)) BUS_STOPS
                   <> [])
    BUS_ROUTES.
Proof.
  apply Forall_of_forallb
    with (f := fun r =>
                 match List.filter (fun s => existsb (String.eqb (route_id r)) (routes s))
                         BUS_STOPS with
                 | [] => false
                 | _ :: _ => true
                 end).
  - intros r Hr Hnil. rewrite Hnil in Hr. discriminate Hr.
  - vm_compute. reflexivity.
Qed.

Lemma existsb_eqb_In (x : string) (l : list string) :
  existsb (String.eqb x) l = true <-> In x l.
Proof.
  rewrite existsb_exists. split.
  - intros (y & Hy & Heq). apply String.eqb_eq in Heq. subst y. exact Hy.
  - intros Hin. exists x. split; [exact Hin | apply String.eqb_refl].
Qed.

(** X14. [get_route] answers 404 exactly for the ids that no route of the
    table has; for an id of the table it answers with the one route of that
    id and the stops of the catalog that list the id, of which there is at
    least one. *)
Theorem get_route_answer (rid : string) :
  (~ In rid (List.map route_id BUS_ROUTES) ->
     get_route rid = HTTPException 404 "Route not found")
  /\ (In rid (List.map route_id BUS_ROUTES) ->
      exists route stops,
        get_route rid = Ok (route, stops)
        /\ In route BUS_ROUTES /\ route_id route = rid
        /\ (forall other, In other BUS_ROUTES -> route_id other = rid -> other = route)
        /\ stops <> []
        /\ forall s, In s stops <-> In s BUS_STOPS /\ In rid (routes s)).
Proof.
  unfold get_route. split.
  - intros Hnot. apply route_by_id_none in Hnot. rewrite Hnot. reflexivity.
  - intros Hin. destruct (route_by_id rid) as [route|] eqn:Hroute.
    + apply route_by_id_In in Hroute. destruct Hroute as [Hr Hid].
      eexists _, _. split; [reflexivity|]. split; [exact Hr|]. split; [exact Hid|].
      split; [|split].
      * intros other Hother Hsame.
        apply (NoDup_map_same route_id BUS_ROUTES other route route_ids_distinct);
          congruence.
      * pose proof every_route_has_stops as Hall. rewrite List.Forall_forall in Hall.
        specialize (Hall route Hr). rewrite Hid in Hall. exact Hall.
      * intros s. rewrite filter_In, existsb_eqb_In. reflexivity.
    + apply route_by_id_none in Hroute. contradiction.
Qed.

Lemma catalog_size : List.length BUS_STOPS = 80%nat.
Proof. reflexivity. Qed.

Lemma py_prefix_length_eq {A : Type} (n : Z) (l : list A) :
  Z.of_nat (List.length (py_prefix n l))
  = if n <? 0 then Z.max 0 (Z.of_nat (List.length l) + n)
    else Z.min n (Z.of_nat (List.length l)).
Proof.
  unfold py_prefix. destruct (Z.ltb_spec n 0); rewrite List.length_firstn; lia.
Qed.

Lemma py_prefix_NoDup {A : Type} (n : Z) (l : list A) :
  List.NoDup l -> List.NoDup (py_prefix n l).
Proof.
  destruct (py_prefix_split n l) as [rest Hl]. intros Hnodup.
  rewrite Hl in Hnodup. exact (NoDup_app_remove_r _ _ Hnodup).
Qed.
(** ** More on distances, rounding and the formula of [predict_eta] *)

Section MoreNumbers.
Local Open Scope R_scope.

Lemma atan2_quadrant (y x : R) : 0 <= y -> 0 <= x -> PyMath.atan2 y x <= PI / 2.
Proof.
  intros Hy Hx. unfold PyMath.atan2. pose proof PI_RGT_0 as Hpi.
  destruct (Rlt_dec 0 x) as [Hpos | Hnpos].
  - destruct (atan_bound (y / x)) as [_ Hhi]. lra.
  - destruct (Rlt_dec x 0); [lra|].
    destruct (Rlt_dec 0 y); [lra|].
    destruct (Rlt_dec y 0); lra.
Qed.

Lemma haversine_unfold (lat1 lon1 lat2 lon2 : R) :
  haversine lat1 lon1 lat2 lon2
  = 6371 * 2 * PyMath.atan2 (sqrt (haversine_a lat1 lon1 lat2 lon2))
                 (sqrt (1 - haversine_a lat1 lon1 lat2 lon2)).
Proof. reflexivity. Qed.

Lemma radians_minus (x y : R) : PyMath.radians (x - y) = PyMath.radians x - PyMath.radians y.
Proof. unfold PyMath.radians. lra. Qed.

Lemma sin_half_sqr_sym (x y : R) : sin ((x - y) / 2) ^ 2 = sin ((y - x) / 2) ^ 2.
Proof.
  replace ((x - y) / 2) with (- ((y - x) / 2)) by lra. rewrite sin_neg. simpl. ring.
Qed.

Lemma haversine_a_sym (lat1 lon1 lat2 lon2 : R) :
  haversine_a lat1 lon1 lat2 lon2 = haversine_a lat2 lon2 lat1 lon1.
Proof.
  unfold haversine_a. rewrite !radians_minus.
  rewrite (sin_half_sqr_sym (PyMath.radians lat2) (PyMath.radians lat1)).
  rewrite (sin_half_sqr_sym (PyMath.radians lon2) (PyMath.radians lon1)).
  ring.
Qed.

Lemma sin_sqr_bound (x : R) : 0 <= sin x ^ 2 <= 1.
Proof. pose proof (SIN_bound x) as Hs. simpl. nra. Qed.

Lemma haversine_a_le_1 (lat1 lon1 lat2 lon2 : R) : haversine_a lat1 lon1 lat2 lon2 <= 1.
Proof.
  unfold haversine_a. rewrite !radians_minus.
  set (p1 := PyMath.radians lat1). set (p2 := PyMath.radians lat2).
  set (s := sin ((PyMath.radians lon2 - PyMath.radians lon1) / 2) ^ 2).
  assert (Hs : 0 <= s <= 1) by apply sin_sqr_bound.
  set (u := sin ((p2 - p1) / 2) ^ 2).
  assert (Hu : 0 <= u <= 1) by apply sin_sqr_bound.
  assert (Hp : cos p1 * cos p2 <= 1 - u).
  { pose proof (cos_minus p2 p1) as Hminus. pose proof (cos_plus p2 p1) as Hplus.
    pose proof (COS_bound (p2 + p1)) as Hc.
    pose proof (cos_2a_sin ((p2 - p1) / 2)) as Hdouble.
    replace (2 * ((p2 - p1) / 2)) with (p2 - p1) in Hdouble by lra.
    unfold u. simpl. lra. }
  set (p := cos p1 * cos p2) in *. clearbody p u s.
  destruct (Rle_dec 0 p) as [Hpos | Hneg].
  - assert (Hps : p * s <= p * 1) by (apply Rmult_le_compat_l; lra). lra.
  - assert (Hps : p * s <= 0).
    { replace 0 with (p * 0) by ring. apply Rmult_le_compat_neg_l; lra. }
    lra.
Qed.

Lemma haversine_a_ge_0 (lat1 lon1 lat2 lon2 : R) : 0 <= haversine_a lat1 lon1 lat2 lon2.
Proof.
  unfold haversine_a. rewrite !radians_minus.
  set (p1 := PyMath.radians lat1). set (p2 := PyMath.radians lat2).
  set (s := sin ((PyMath.radians lon2 - PyMath.radians lon1) / 2) ^ 2).
  assert (Hs : 0 <= s <= 1) by apply sin_sqr_bound.
  set (u := sin ((p2 - p1) / 2) ^ 2).
  assert (Hu : 0 <= u <= 1) by apply sin_sqr_bound.
  assert (Hp : 0 <= u + cos p1 * cos p2).
  { pose proof (cos_minus p2 p1) as Hminus. pose proof (cos_plus p2 p1) as Hplus.
    pose proof (COS_bound (p2 + p1)) as Hc.
    pose proof (cos_2a_sin ((p2 - p1) / 2)) as Hdouble.
    replace (2 * ((p2 - p1) / 2)) with (p2 - p1) in Hdouble by lra.
    unfold u. simpl. lra. }
  set (p := cos p1 * cos p2) in *. clearbody p u s.
  destruct (Rle_dec 0 p) as [Hpos | Hneg].
  - assert (Hps : 0 <= p * s) by (apply Rmult_le_pos; lra). lra.
  - assert (Hps : p * 1 <= p * s) by (apply Rmult_le_compat_neg_l; lra). lra.
Qed.

Lemma haversine_a_same_point (lat0 lon0 : R) : haversine_a lat0 lon0 lat0 lon0 = 0.
Proof.
  unfold haversine_a, PyMath.radians.
  replace ((lat0 - lat0) * PI / 180 / 2) with 0 by lra.
  replace ((lon0 - lon0) * PI / 180 / 2) with 0 by lra.
  rewrite sin_0. simpl. ring.
Qed.

(** Rounding keeps the order. *)
Lemma py_round_mono (x y : R) : x <= y -> (PyMath.py_round x <= PyMath.py_round y)%Z.
Proof.
  intros Hxy.
  destruct (Z_le_gt_dec (PyMath.py_round x) (PyMath.py_round y)) as [Hle | Hgt];
    [exact Hle | exfalso].
  destruct (py_round_near x) as [Hx _]. destruct (py_round_near y) as [_ Hy].
  assert (Hstep : (PyMath.py_round y + 1 <= PyMath.py_round x)%Z) by lia.
  apply IZR_le in Hstep. rewrite plus_IZR in Hstep.
  assert (Heq : x = y) by lra. subst y. lia.
Qed.

Lemma round_to_mono (x y : R) (n : nat) :
  x <= y -> PyMath.round_to x n <= PyMath.round_to y n.
Proof.
  intros Hxy. unfold PyMath.round_to. pose proof (pow10_pos n) as Hp.
  apply Rmult_le_compat_r; [left; apply Rinv_0_lt_compat, Hp|].
  apply IZR_le, py_round_mono. apply Rmult_le_compat_r; lra.
Qed.

Lemma round_to_2_fixed (n : Z) : PyMath.round_to (IZR n / 100) 2 = IZR n / 100.
Proof.
  unfold PyMath.round_to. simpl.
  replace (IZR n / 100 * (10 * (10 * 1))) with (IZR n) by field.
  rewrite py_round_IZR. field.
Qed.

Lemma moving_In (all_live : list LiveBus) (b : LiveBus) :
  In b (moving all_live) <-> In b all_live /\ 0 < speed b.
Proof.
  unfold moving. rewrite filter_In. unfold PyMath.Rltb.
  destruct (Rlt_dec 0 (speed b)); split; intros [Hin Hs]; split; auto; discriminate.
Qed.

Lemma traffic_index_range (hour_of_day : Z) (all_live : list LiveBus) :
  0.1 <= fst (traffic hour_of_day all_live) <= 1.
Proof.
  unfold traffic. destruct (moving all_live) as [|b0 bs]; cbn [fst].
  - destruct (rush_hour hour_of_day); [lra|].
    destruct (((11 <=? hour_of_day) && (hour_of_day <=? 16))%Z); [lra|].
    destruct (((21 <=? hour_of_day) || (hour_of_day <=? 5))%Z); lra.
  - set (v := Rmax 0.1 (Rmin 1.0 _)).
    assert (Hv : 0.1 <= v <= 1).
    { unfold v. split; [apply Rmax_l|].
      apply Rmax_lub; [lra|]. eapply Rle_trans; [apply Rmin_l | lra]. }
    split.
    + apply Rle_trans with (PyMath.round_to (IZR 10 / 100) 2);
        [rewrite round_to_2_fixed; lra | apply round_to_mono; lra].
    + apply Rle_trans with (PyMath.round_to (IZR 100 / 100) 2);
        [apply round_to_mono; lra | rewrite round_to_2_fixed; lra].
Qed.

(** X17. The traffic index of [smart_eta] always lies between 0.1 and 1.0;
    it is read off the live speeds exactly when some live bus is moving, and
    off the hour otherwise. *)
Theorem traffic_index_bounds (hour_of_day : Z) (all_live : list LiveBus) :
  0.1 <= fst (traffic hour_of_day all_live) <= 1
  /\ (snd (traffic hour_of_day all_live) = "live_speed"%string
      <-> exists b, In b all_live /\ 0 < speed b)
  /\ (snd (traffic hour_of_day all_live) = "time_of_day"%string
      <-> forall b, In b all_live -> speed b <= 0).
Proof.
  split; [apply traffic_index_range|].
  unfold traffic. pose proof (moving_In all_live) as Hmoving.
  destruct (moving all_live) as [|b0 bs]; cbn [snd]; split.
  - split; [discriminate|]. intros (b & Hb). apply Hmoving in Hb. destruct Hb.
  - split; [|reflexivity]. intros _ b Hb.
    destruct (Rle_dec (speed b) 0) as [Hle | Hgt]; [exact Hle|].
    exfalso. apply (proj2 (Hmoving b)). split; [exact Hb | lra].
  - split; [|reflexivity]. intros _. exists b0. apply Hmoving. left. reflexivity.
  - split; [discriminate|]. intros Hall. exfalso.
    assert (Hb0 : In b0 all_live /\ 0 < speed b0) by (apply Hmoving; left; reflexivity).
    destruct Hb0 as [Hin Hs]. specialize (Hall b0 Hin). lra.
Qed.

Lemma rush_hour_hours (h : Z) :
  rush_hour h = true <-> (8 <= h <= 10 \/ 17 <= h <= 20)%Z.
Proof. unfold rush_hour. lia. Qed.

(** X18. The formula of [predict_eta], used when no model is loaded: a speed
    below 1 km/h counts as 1 km/h, so nothing is divided by zero; for a
    distance and a traffic index that are not negative the minutes are not
    negative, do not decrease with the distance or with the traffic index,
    and are never lower in a rush hour than at another hour; a request
    without an hour is answered for the current hour. *)
Theorem predict_eta_formula (now_hour : Z) (distance avg_speed traffic_index : R)
    (hour : option Z) :
  snd (predict_eta None now_hour distance avg_speed traffic_index hour) = "formula"%string
  /\ predict_eta None now_hour distance avg_speed traffic_index None
     = predict_eta None now_hour distance avg_speed traffic_index (Some now_hour)
  /\ (avg_speed <= 1 ->
      predict_eta None now_hour distance avg_speed traffic_index hour
      = predict_eta None now_hour distance 1 traffic_index hour)
  /\ (0 <= distance -> 0 <= traffic_index ->
      0 <= fst (predict_eta None now_hour distance avg_speed traffic_index hour)
      /\ (forall further heavier,
             distance <= further -> traffic_index <= heavier ->
             fst (predict_eta None now_hour distance avg_speed traffic_index hour)
             <= fst (predict_eta None now_hour further avg_speed heavier hour))
      /\ (forall calm rush,
             rush_hour calm = false -> rush_hour rush = true ->
             fst (predict_eta None now_hour distance avg_speed traffic_index (Some calm))
             <= fst (predict_eta None now_hour distance avg_speed traffic_index (Some rush)))).
Proof.
  assert (Hspeed : 1 <= Rmax avg_speed 1) by apply Rmax_r.
  assert (Hinv : 0 < / Rmax avg_speed 1) by (apply Rinv_0_lt_compat; lra).
  split; [reflexivity|]. split; [reflexivity|]. split.
  { intros Hslow. unfold predict_eta. cbv zeta.
    rewrite (Rmax_right avg_speed 1 Hslow), (Rmax_left 1 1) by lra. reflexivity. }
  intros Hd Ht.
  assert (Hbase : forall d, 0 <= d -> 0 <= d / Rmax avg_speed 1 * 60).
  { intros d Hd'. unfold Rdiv. apply Rmult_le_pos; [|lra]. apply Rmult_le_pos; lra. }
  split; [|split].
  - unfold predict_eta. cbv zeta. cbn [fst]. apply round_to_nonneg.
    apply Rmult_le_pos; [apply Hbase, Hd|].
    destruct (rush_hour _); nra.
  - intros further heavier Hfurther Hheavier. unfold predict_eta. cbv zeta. cbn [fst].
    apply round_to_mono.
    assert (Hb : distance / Rmax avg_speed 1 * 60 <= further / Rmax avg_speed 1 * 60).
    { unfold Rdiv. apply Rmult_le_compat_r; [lra|]. apply Rmult_le_compat_r; lra. }
    pose proof (Hbase distance Hd) as Hb0.
    destruct (rush_hour _); nra.
  - intros calm rush Hcalm Hrush. unfold predict_eta. cbv zeta. cbn [fst].
    rewrite Hcalm, Hrush. apply round_to_mono.
    pose proof (Hbase distance Hd) as Hb0. nra.
Qed.

End MoreNumbers.
(** ** More on the ETA estimator *)


Lemma stops_by_dist_In (user_lat user_lng : R) (x : RankedStop) :
  In x (stops_by_dist user_lat user_lng) <->
  exists s, In s BUS_STOPS
            /\ x = mkRankedStop s
                     (PyMath.round_to (haversine user_lat user_lng (lat s) (lng s)) 2).
Proof.
  unfold stops_by_dist. rewrite py_sort_In, in_map_iff. split.
  - intros (s & <- & Hs). eauto.
  - intros (s & Hs & ->). eauto.
Qed.

Lemma frequencies_positive :
  Forall (fun r => 0 < frequency_min r) BUS_ROUTES.
Proof.
  apply Forall_of_forallb with (f := fun r => 0 <? frequency_min r).
  - intros r Hr. apply Z.ltb_lt, Hr.
  - vm_compute. reflexivity.
Qed.

Section MoreEtaFacts.
Context `{SetOrder}.
Local Open Scope R_scope.

Lemma set_inter_head (a b : list string) (rid : string) (rest : list string) :
  set_inter a b = rid :: rest -> In rid a /\ In rid b.
Proof.
  intros Heq. apply set_inter_In. rewrite Heq. left. reflexivity.
Qed.

Lemma scan_direct_some (dest : Stop) (nearbys : list RankedStop) (best : BestResult) :
  scan_direct dest nearbys = Some best ->
  In (pickup_stop best) nearbys
  /\ best_transfer best = None
  /\ stop_id (ranked_stop (pickup_stop best)) <> stop_id dest
  /\ In (best_route best) BUS_ROUTES
  /\ In (route_id (best_route best)) (routes (ranked_stop (pickup_stop best)))
  /\ In (route_id (best_route best)) (routes dest)
  /\ stop_distance_km best
     = PyMath.round_to
         (haversine (lat (ranked_stop (pickup_stop best)))
            (lng (ranked_stop (pickup_stop best))) (lat dest) (lng dest)) 2.
Proof.
  induction nearbys as [|nearby rest IH]; simpl; [discriminate|].
  destruct (set_inter (routes (ranked_stop nearby)) (routes dest)) as [|rid more] eqn:Hinter.
  { intros Hrest. destruct (IH Hrest) as [Hin Hmore]. auto. }
  destruct (String.eqb (stop_id (ranked_stop nearby)) (stop_id dest)) eqn:Hsame; cbn [negb].
  { intros Hrest. destruct (IH Hrest) as [Hin Hmore]. auto. }
  destruct (route_by_id rid) as [route|] eqn:Hroute.
  2:{ intros Hrest. destruct (IH Hrest) as [Hin Hmore]. auto. }
  intros [= <-]. cbn [pickup_stop best_route best_transfer stop_distance_km].
  apply set_inter_head in Hinter. destruct Hinter as [Hnear Hdest].
  apply route_by_id_In in Hroute. destruct Hroute as [Hr ->].
  apply String.eqb_neq in Hsame. repeat split; auto.
Qed.

Lemma scan_mid_some (dest : Stop) (nearby : RankedStop) (mids : list Stop)
    (best : BestResult) :
  scan_mid dest nearby mids = Some best ->
  pickup_stop best = nearby
  /\ exists mid r2,
       best_transfer best = Some (mid, r2)
       /\ In mid mids
       /\ stop_id (ranked_stop nearby) <> stop_id mid
       /\ stop_id mid <> stop_id dest
       /\ In (best_route best) BUS_ROUTES /\ In r2 BUS_ROUTES
       /\ In (route_id (best_route best)) (routes (ranked_stop nearby))
       /\ In (route_id (best_route best)) (routes mid)
       /\ In (route_id r2) (routes mid)
       /\ In (route_id r2) (routes dest)
       /\ stop_distance_km best
          = PyMath.round_to
              (haversine (lat (ranked_stop nearby)) (lng (ranked_stop nearby))
                 (lat mid) (lng mid)
               + haversine (lat mid) (lng mid) (lat dest) (lng dest)) 2.
Proof.
  induction mids as [|mid rest IH]; simpl; [discriminate|].
  assert (Hnext : scan_mid dest nearby rest = Some best ->
                  pickup_stop best = nearby
                  /\ exists mid0 r2,
                       best_transfer best = Some (mid0, r2)
                       /\ (mid = mid0 \/ In mid0 rest)
                       /\ stop_id (ranked_stop nearby) <> stop_id mid0
                       /\ stop_id mid0 <> stop_id dest
                       /\ In (best_route best) BUS_ROUTES /\ In r2 BUS_ROUTES
                       /\ In (route_id (best_route best)) (routes (ranked_stop nearby))
                       /\ In (route_id (best_route best)) (routes mid0)
                       /\ In (route_id r2) (routes mid0)
                       /\ In (route_id r2) (routes dest)
                       /\ stop_distance_km best
                          = PyMath.round_to
                              (haversine (lat (ranked_stop nearby)) (lng (ranked_stop nearby))
                                 (lat mid0) (lng mid0)
                               + haversine (lat mid0) (lng mid0) (lat dest) (lng dest)) 2).
  { intros Hrest. destruct (IH Hrest) as (Hpick & mid0 & r2 & Htr & Hin & Hmore).
    split; [exact Hpick|]. exists mid0, r2. auto. }
  destruct (set_inter (routes (ranked_stop nearby)) (routes mid)) as [|rid1 more1] eqn:H1;
    [exact Hnext|].
  destruct (set_inter (routes mid) (routes dest)) as [|rid2 more2] eqn:H2; [exact Hnext|].
  destruct (String.eqb (stop_id (ranked_stop nearby)) (stop_id mid)) eqn:Hsame1; cbn [negb andb];
    [exact Hnext|].
  destruct (String.eqb (stop_id mid) (stop_id dest)) eqn:Hsame2; cbn [negb]; [exact Hnext|].
  destruct (route_by_id rid1) as [r1|] eqn:Hr1; [|exact Hnext].
  destruct (route_by_id rid2) as [r2|] eqn:Hr2; [|exact Hnext].
  intros [= <-]. cbn [pickup_stop best_route best_transfer stop_distance_km].
  split; [reflexivity|]. exists mid, r2.
  apply set_inter_head in H1, H2. destruct H1 as [H1a H1b]. destruct H2 as [H2a H2b].
  apply route_by_id_In in Hr1, Hr2. destruct Hr1 as [Hr1 ->]. destruct Hr2 as [Hr2 ->].
  apply String.eqb_neq in Hsame1, Hsame2. repeat split; auto.
Qed.

Lemma scan_transfer_cons (dest : Stop) (nearby : RankedStop) (rest : list RankedStop) :
  scan_transfer dest (nearby :: rest)
  = match scan_mid dest nearby BUS_STOPS with
    | Some best => Some best
    | None => scan_transfer dest rest
    end.
Proof. reflexivity. Qed.

Lemma scan_transfer_some (dest : Stop) (nearbys : list RankedStop) (best : BestResult) :
  scan_transfer dest nearbys = Some best ->
  exists nearby, In nearby nearbys /\ scan_mid dest nearby BUS_STOPS = Some best.
Proof.
  induction nearbys as [|nearby rest IH]; [discriminate|].
  rewrite scan_transfer_cons.
  destruct (scan_mid dest nearby BUS_STOPS) as [found|] eqn:Hmid.
  - intros [= <-]. exists nearby. split; [left; reflexivity | exact Hmid].
  - intros Hrest. destruct (IH Hrest) as (n & Hn & Hfound). exists n.
    split; [right; exact Hn | exact Hfound].
Qed.

Lemma py_prefix_5_8 {A : Type} (l : list A) (x : A) :
  In x (py_prefix 5 l) -> In x (py_prefix 8 l).
Proof.
  unfold py_prefix. cbn [Z.ltb Z.compare]. change (Z.to_nat 5) with 5%nat.
  change (Z.to_nat 8) with (5 + 3)%nat. intros Hx.
  rewrite <- (firstn_skipn 5 (firstn (5 + 3) l)).
  apply in_or_app. left. rewrite firstn_firstn. exact Hx.
Qed.

(** X19. What [smart_eta] picks in step 3 is a real connection.  The pickup
    stop is one of the 8 stops the ranking puts first, and the route is one of
    the route table that serves the pickup stop.  Without a change the pickup
    stop is not the destination and the route serves the destination too;
    with a change, which is looked for only when no such route exists, the
    pickup stop is one of the first 5, the change is at a catalog stop that is
    neither the pickup stop nor the destination, the first route serves it,
    and the second route serves it and the destination. *)
Theorem find_best_sound (dest : Stop) (ranked : list RankedStop) (best : BestResult) :
  find_best dest ranked = Some best ->
  In (pickup_stop best) (py_prefix 8 ranked)
  /\ In (best_route best) BUS_ROUTES
  /\ In (route_id (best_route best)) (routes (ranked_stop (pickup_stop best)))
  /\ match best_transfer best with
     | None =>
         stop_id (ranked_stop (pickup_stop best)) <> stop_id dest
         /\ In (route_id (best_route best)) (routes dest)
         /\ stop_distance_km best
            = PyMath.round_to
                (haversine (lat (ranked_stop (pickup_stop best)))
                   (lng (ranked_stop (pickup_stop best))) (lat dest) (lng dest)) 2
     | Some (mid, second) =>
         scan_direct dest (py_prefix 8 ranked) = None
         /\ In (pickup_stop best) (py_prefix 5 ranked)
         /\ In mid BUS_STOPS
         /\ stop_id (ranked_stop (pickup_stop best)) <> stop_id mid
         /\ stop_id mid <> stop_id dest
         /\ In (route_id (best_route best)) (routes mid)
         /\ In second BUS_ROUTES
         /\ In (route_id second) (routes mid)
         /\ In (route_id second) (routes dest)
         /\ stop_distance_km best
            = PyMath.round_to
                (haversine (lat (ranked_stop (pickup_stop best)))
                   (lng (ranked_stop (pickup_stop best))) (lat mid) (lng mid)
                 + haversine (lat mid) (lng mid) (lat dest) (lng dest)) 2
     end.
Proof.
  unfold find_best.
  destruct (scan_direct dest (py_prefix 8 ranked)) as [found|] eqn:Hdirect.
  - intros [= <-]. apply scan_direct_some in Hdirect.
    destruct Hdirect as (Hin & -> & Hne & Hroute & Hnear & Hdest & Hdist). auto 10.
  - intros Htransfer. apply scan_transfer_some in Htransfer.
    destruct Htransfer as (nearby & Hnearby & Hmid). apply scan_mid_some in Hmid.
    destruct Hmid as (-> & mid & r2 & -> & Hin & Hne1 & Hne2 & Hr1 & Hr2 & Ha & Hb & Hc & Hd
                      & Hdist).
    split; [apply py_prefix_5_8, Hnearby|]. auto 15.
Qed.

Lemma find_best_nonneg (dest : Stop) (user_lat user_lng : R) (best : BestResult) :
  find_best dest (stops_by_dist user_lat user_lng) = Some best ->
  0 <= distance_km (pickup_stop best)
  /\ 0 <= stop_distance_km best
  /\ (0 < frequency_min (best_route best))%Z.
Proof.
  unfold find_best.
  assert (Hpick : forall n x, In x (py_prefix n (stops_by_dist user_lat user_lng)) ->
                              0 <= distance_km x).
  { intros n x Hx.
    pose proof (proj1 (stops_by_dist_In user_lat user_lng x) (py_prefix_In n _ x Hx)) as Hs.
    destruct Hs as (s & _ & ->). cbn [distance_km].
    apply round_to_nonneg, haversine_nonneg. }
  pose proof frequencies_positive as Hfreq. rewrite List.Forall_forall in Hfreq.
  destruct (scan_direct dest (py_prefix 8 _)) as [found|] eqn:Hdirect.
  - intros [= <-]. apply scan_direct_some in Hdirect.
    destruct Hdirect as (Hin & _ & _ & Hroute & _ & _ & Hdist).
    split; [exact (Hpick _ _ Hin)|]. split; [|exact (Hfreq _ Hroute)].
    rewrite Hdist. apply round_to_nonneg, haversine_nonneg.
  - intros Htransfer. apply scan_transfer_some in Htransfer.
    destruct Htransfer as (nearby & Hnearby & Hmid). apply scan_mid_some in Hmid.
    destruct Hmid as (-> & mid & r2 & _ & _ & _ & _ & Hr1 & _ & _ & _ & _ & _ & Hdist).
    split; [exact (Hpick _ _ Hnearby)|]. split; [|exact (Hfreq _ Hr1)].
    rewrite Hdist. apply round_to_nonneg.
    pose proof (haversine_nonneg (lat (ranked_stop nearby)) (lng (ranked_stop nearby))
                  (lat mid) (lng mid)).
    pose proof (haversine_nonneg (lat mid) (lng mid) (lat dest) (lng dest)).
    lra.
Qed.

Section WithLiveBuses.
Variable eta_model : option (R -> R -> R -> Z -> R).
Variable hour_of_day : Z.
Variable all_live : list LiveBus.


Lemma estimate_formula_nonneg (best : BestResult) :
  eta_model = None ->
  0 <= distance_km (pickup_stop best) -> 0 <= stop_distance_km best ->
  (0 < frequency_min (best_route best))%Z ->
  let '(eta, traffic_index, _, live_bus) := estimate eta_model hour_of_day all_live best in
  0 <= walk_time_min eta /\ 0 <= wait_time_min eta /\ 0 <= bus_travel_min eta
  /\ 0 <= total_min eta /\ eta_source eta = "formula"%string
  /\ (live_bus = None -> 1 / 2 <= wait_time_min eta).
Proof.
  intros -> Hwalk Hdist Hfreq. unfold estimate.
  pose proof (traffic_index_range hour_of_day all_live) as Hti.
  destruct (traffic hour_of_day all_live) as [traffic_index traffic_source].
  cbn [fst] in Hti. unfold bus_travel.
  assert (Hspeed : 1 <= Rmax 22 1) by apply Rmax_r.
  assert (Hw : 0 <= PyMath.round_to (distance_km (pickup_stop best) / 0.08) 1).
  { apply round_to_nonneg. unfold Rdiv. apply Rmult_le_pos; [exact Hwalk | lra]. }
  assert (Hb : 0 <= PyMath.round_to
                      (stop_distance_km best / Rmax 22 1 * 60
                       * (if rush_hour hour_of_day
                          then 1 + traffic_index * 0.8 + 0.3
                          else 1 + traffic_index * 0.8)) 1).
  { apply round_to_nonneg. apply Rmult_le_pos.
    - apply Rmult_le_pos; [|lra]. unfold Rdiv. apply Rmult_le_pos; [exact Hdist|].
      left. apply Rinv_0_lt_compat. lra.
    - destruct (rush_hour hour_of_day); lra. }
  assert (Hhalf : 1 / 2 <= PyMath.round_to (IZR (frequency_min (best_route best)) / 2) 1).
  { apply Rle_trans with (PyMath.round_to (IZR 5 / 10) 1);
      [rewrite round_to_1_fixed; lra|].
    apply round_to_mono.
    assert (Hone : (1 <= frequency_min (best_route best))%Z) by lia.
    apply IZR_le in Hone. lra. }
  destruct (live_bus_info None hour_of_day all_live (ranked_stop (pickup_stop best))
              (best_route best) traffic_index) as [info|] eqn:Hlive.
  - assert (Hl : 0 <= live_eta_min info).
    { revert Hlive. unfold live_bus_info.
      destruct (List.filter _ all_live) as [|b0 bs]; [discriminate|].
      intros [= <-]. cbn [live_eta_min]. apply round_to_nonneg.
      apply Rmult_le_pos; [|lra]. apply Rmult_le_pos; [|lra].
      unfold Rdiv. apply Rmult_le_pos; [apply haversine_nonneg|].
      left. apply Rinv_0_lt_compat.
      eapply Rlt_le_trans; [|apply Rmax_r]. lra. }
    cbn [walk_time_min wait_time_min bus_travel_min total_min eta_source].
    repeat split; try assumption; try discriminate.
    apply round_to_nonneg. lra.
  - cbn [walk_time_min wait_time_min bus_travel_min total_min eta_source].
    repeat split; try assumption; try lra.
    apply round_to_nonneg. lra.
Qed.

(** X21. With the formula (no model loaded) every time of a successful
    [smart_eta] answer is non-negative, as are the walking distance and the
    distance of the ride; without a live bus on the route the wait is at
    least half a minute. *)
Theorem smart_eta_formula_times (user_lat user_lng : R) (destination : string)
    (resp : EtaResponse) :
  eta_model = None ->
  smart_eta eta_model hour_of_day all_live user_lat user_lng destination = Ok resp ->
  0 <= walk_time_min (resp_eta resp)
  /\ 0 <= wait_time_min (resp_eta resp)
  /\ 0 <= bus_travel_min (resp_eta resp)
  /\ 0 <= total_min (resp_eta resp)
  /\ eta_source (resp_eta resp) = "formula"%string
  /\ (resp_live_bus resp = None -> 1 / 2 <= wait_time_min (resp_eta resp))
  /\ 0 <= distance_km (resp_pickup resp)
  /\ 0 <= resp_distance_km resp.
Proof.
  intros Hmodel. unfold smart_eta.
  destruct (resolve_destination destination) as [dest_stop|]; [|discriminate].
  destruct (find_best dest_stop (stops_by_dist user_lat user_lng)) as [best|] eqn:Hbest;
    [|discriminate].
  apply find_best_nonneg in Hbest. destruct Hbest as (Hwalk & Hdist & Hfreq).
  pose proof (estimate_formula_nonneg best Hmodel Hwalk Hdist Hfreq) as Hest.
  destruct (estimate eta_model hour_of_day all_live best)
    as [[[eta traffic_index] traffic_source] live_bus].
  intros [= <-].
  cbn [resp_eta resp_pickup resp_live_bus resp_distance_km].
  destruct Hest as (H1 & H2 & H3 & H4 & H5 & H6). auto 10.
Qed.

End WithLiveBuses.

End MoreEtaFacts.

Lemma find_best_at_howrah `{SetOrder} (rest : list RankedStop) :
  exists best,
    find_best (catalog_stop "nt") (mkRankedStop (catalog_stop "hw") 0 :: rest) = Some best.
Proof.
  unfold find_best.
  destruct (py_prefix_cons 8 (mkRankedStop (catalog_stop "hw") 0) rest) as [rest8 ->]; [lia|].
  cbn [scan_direct ranked_stop]. rewrite set_inter_hw_nt.
  replace (String.eqb (stop_id (catalog_stop "hw")) (stop_id (catalog_stop "nt")))
    with false by reflexivity.
  cbn [negb].
  replace (route_by_id "S12")
    with (Some (mkRoute "S12" "S12" "Howrah Station" "New Town" "Salt Lake" 10 35 10))
    by reflexivity.
  eauto.
Qed.

Lemma find_best_sound_witness :
  exists best,
    find_best (H := first_operand_order) (catalog_stop "nt")
      [mkRankedStop (catalog_stop "hw") 0] = Some best
    /\ In (best_route best) BUS_ROUTES
    /\ In (route_id (best_route best)) (routes (ranked_stop (pickup_stop best))).
Proof.
  destruct (find_best_at_howrah (H := first_operand_order) []) as [best Hbest].
  exists best. split; [exact Hbest|].
  destruct (find_best_sound (H := first_operand_order) _ _ _ Hbest) as (_ & Hroute & Hserves & _).
  split; assumption.
Defined.

Lemma smart_eta_formula_times_witness :
  exists resp,
    smart_eta (H := first_operand_order) None 9 [] 22.5839 88.3430 "New Town City Centre"
    = Ok resp
    /\ (0 <= total_min (resp_eta resp))%R
    /\ eta_source (resp_eta resp) = "formula".
Proof.
  destruct (smart_eta_at_howrah (H := first_operand_order) None 9 []) as [resp Hresp].
  exists resp. split; [exact Hresp|].
  destruct (smart_eta_formula_times (H := first_operand_order) None 9 [] _ _ _ resp
              eq_refl Hresp) as (_ & _ & _ & Htotal & Hsource & _).
  split; assumption.
Defined.
(** ** Nearest stops, with the domain error of the distance *)

Section Precedence.
Context {A : Type}.

Lemma precedes_In (x y : A) (l : list A) : precedes x y l -> In x l /\ In y l.
Proof.
  intros (l1 & l2 & l3 & ->). split.
  - apply in_or_app. right. left. reflexivity.
  - apply in_or_app. right. right. apply in_or_app. right. left. reflexivity.
Qed.

Lemma precedes_app_l (x y : A) (l rest : list A) :
  precedes x y l -> precedes x y (l ++ rest).
Proof.
  intros (l1 & l2 & l3 & ->). exists l1, l2, (l3 ++ rest).
  rewrite <- ?List.app_assoc. simpl. rewrite <- ?List.app_assoc. reflexivity.
Qed.

Lemma precedes_across (x y : A) (l rest : list A) :
  In x l -> In y rest -> precedes x y (l ++ rest).
Proof.
  intros Hx Hy. apply in_split in Hx. destruct Hx as (l1 & l2 & ->).
  apply in_split in Hy. destruct Hy as (r1 & r2 & ->).
  exists l1, (l2 ++ r1), r2.
  rewrite <- ?List.app_assoc. simpl. rewrite <- ?List.app_assoc. reflexivity.
Qed.

Lemma precedes_total (x y : A) (l : list A) :
  In x l -> In y l -> x <> y -> precedes x y l \/ precedes y x l.
Proof.
  intros Hx Hy Hne. apply in_split in Hx. destruct Hx as (l1 & l2 & ->).
  apply in_app_or in Hy. destruct Hy as [Hy | [Hy | Hy]]; [|congruence|].
  - right. apply in_split in Hy. destruct Hy as (a & b & ->).
    exists a, b, l2. rewrite <- ?List.app_assoc. reflexivity.
  - left. apply in_split in Hy. destruct Hy as (a & b & ->).
    exists l1, a, b. reflexivity.
Qed.

Lemma precedes_map {B : Type} (f : A -> B) (x y : A) (l : list A) :
  precedes x y l -> precedes (f x) (f y) (List.map f l).
Proof.
  intros (l1 & l2 & l3 & ->). exists (List.map f l1), (List.map f l2), (List.map f l3).
  rewrite !List.map_app. simpl. rewrite !List.map_app. reflexivity.
Qed.

Lemma precedes_NoDup_neq (x y : A) (l : list A) :
  List.NoDup l -> precedes x y l -> x <> y.
Proof.
  intros Hnodup (l1 & l2 & l3 & ->) ->.
  apply NoDup_app_remove_l in Hnodup. inversion Hnodup as [|? ? Hnotin _]; subst.
  apply Hnotin. apply in_or_app. right. left. reflexivity.
Qed.

(** In a list without repetitions [x] is not both before and behind [y]. *)
Lemma precedes_NoDup_asym (x y : A) (l : list A) :
  List.NoDup l -> precedes x y l -> precedes y x l -> False.
Proof.
  induction l as [|a l IH]; intros Hnodup Hxy Hyx.
  - destruct Hxy as (l1 & l2 & l3 & Hl). destruct l1; discriminate Hl.
  - inversion Hnodup as [|? ? Hnotin Hrest]; subst.
    destruct Hxy as (l1 & l2 & l3 & Hl). destruct Hyx as (m1 & m2 & m3 & Hm).
    destruct l1 as [|b l1], m1 as [|c m1]; simpl in Hl, Hm.
    + assert (Hax : a = x) by congruence. assert (Ht : l = m2 ++ x :: m3) by congruence.
      apply Hnotin. rewrite Ht, Hax. apply in_or_app. right. left. reflexivity.
    + assert (Hax : a = x) by congruence. assert (Ht : l = m1 ++ y :: m2 ++ x :: m3) by congruence.
      apply Hnotin. rewrite Ht, Hax.
      apply in_or_app. right. right. apply in_or_app. right. left. reflexivity.
    + assert (Hay : a = y) by congruence. assert (Ht : l = l1 ++ x :: l2 ++ y :: l3) by congruence.
      apply Hnotin. rewrite Ht, Hay.
      apply in_or_app. right. right. apply in_or_app. right. left. reflexivity.
    + assert (Hl' : l = l1 ++ x :: l2 ++ y :: l3) by congruence.
      assert (Hm' : l = m1 ++ y :: m2 ++ x :: m3) by congruence.
      apply IH; [exact Hrest | exists l1, l2, l3; exact Hl' | exists m1, m2, m3; exact Hm'].
Qed.

End Precedence.

Section RankedPrefix.
Context {A : Type}.
Variable key : A -> R.
Local Open Scope R_scope.

Let by_key (x y : A) : bool := PyMath.Rleb (key x) (key y).

Lemma sort_by_real_key_sorted (l : list A) :
  StronglySorted (fun x y => key x <= key y) (py_sort by_key l).
Proof.
  pose proof (py_sort_sorted by_key
                (fun x y => Rleb_total _ _)
                (fun x y z => Rleb_trans _ _ _) l) as Hs.
  induction Hs as [|x l' Hl IH Hx]; constructor; [exact IH|].
  rewrite List.Forall_forall in *. intros y Hy. apply Rleb_le. exact (Hx y Hy).
Qed.

(** The stable sort puts [x] before [y] with [key y <= key x] only if [x] was
    before [y]. *)
Lemma sort_by_real_key_stable (l : list A) (x y : A) :
  List.NoDup l -> precedes x y (py_sort by_key l) -> key y <= key x -> precedes x y l.
Proof.
  intros Hnodup Hxy Hkey.
  assert (Hsorted : List.NoDup (py_sort by_key l)).
  { apply (Stdlib.Sorting.Permutation.Permutation_NoDup (l := l)); [|exact Hnodup].
    apply Permutation_sym, py_sort_perm. }
  pose proof (precedes_NoDup_neq _ _ _ Hsorted Hxy) as Hne.
  destruct (precedes_In _ _ _ Hxy) as [Hx Hy]. apply py_sort_In in Hx, Hy.
  destruct (precedes_total x y l Hx Hy Hne) as [Hl | Hl]; [exact Hl|].
  exfalso. apply (precedes_NoDup_asym x y (py_sort by_key l) Hsorted Hxy).
  apply py_sort_stable; [exact Hl|]. apply Rleb_le. exact Hkey.
Qed.

(** What a slice of the sorted list is, in terms of the list that was
    sorted. *)
Lemma ranked_prefix (l : list A) (n : Z) :
  List.NoDup l ->
  StronglySorted (fun x y => key x <= key y) (py_prefix n (py_sort by_key l))
  /\ (forall x, In x (py_prefix n (py_sort by_key l)) -> In x l)
  /\ (forall x y,
        precedes x y (py_prefix n (py_sort by_key l)) ->
        key x <= key y /\ (key x = key y -> precedes x y l))
  /\ (forall x y,
        In x (py_prefix n (py_sort by_key l)) -> In y l ->
        ~ In y (py_prefix n (py_sort by_key l)) ->
        key x <= key y /\ (key x = key y -> precedes x y l)).
Proof.
  intros Hnodup. pose proof (sort_by_real_key_sorted l) as Hsorted.
  destruct (py_prefix_split n (py_sort by_key l)) as [rest Hsplit].
  set (out := py_prefix n (py_sort by_key l)) in *.
  assert (Hout : StronglySorted (fun x y => key x <= key y) out).
  { rewrite Hsplit in Hsorted. apply StronglySorted_app_l in Hsorted. exact Hsorted. }
  split; [exact Hout|]. split; [|split].
  - intros x Hx. apply (py_sort_In by_key). rewrite Hsplit. apply in_or_app. left. exact Hx.
  - intros x y Hxy. split; [exact (StronglySorted_precedes _ _ _ _ Hout Hxy)|].
    intros Heq. apply sort_by_real_key_stable; [exact Hnodup | | lra].
    rewrite Hsplit. apply precedes_app_l, Hxy.
  - intros x y Hx Hy Hnot.
    assert (Hrest : In y rest).
    { apply (py_sort_In by_key) in Hy. rewrite Hsplit in Hy. apply in_app_or in Hy.
      destruct Hy as [Hy | Hy]; [contradiction | exact Hy]. }
    assert (Hle : key x <= key y).
    { rewrite Hsplit in Hsorted. exact (StronglySorted_app_cross _ _ _ _ _ Hsorted Hx Hrest). }
    split; [exact Hle|].
    intros Heq. apply sort_by_real_key_stable; [exact Hnodup | | lra].
    rewrite Hsplit. apply precedes_across; assumption.
Qed.

End RankedPrefix.

Lemma catalog_stops_distinct : List.NoDup BUS_STOPS.
Proof. exact (NoDup_map_inv stop_id BUS_STOPS stop_ids_distinct). Qed.

Section CheckedDistance.
Variable float_a : R -> R -> R -> R -> R.
Variables lat0 lng0 : R.
Local Open Scope R_scope.

Lemma py_sqrt_none (x : R) : py_sqrt x = None <-> x < 0.
Proof.
  unfold py_sqrt. destruct (Rlt_dec x 0) as [Hneg | Hpos].
  - split; [intros _; exact Hneg | reflexivity].
  - split; [discriminate | contradiction].
Qed.

Lemma haversine_checked_none (lat1 lon1 lat2 lon2 : R) :
  haversine_checked float_a lat1 lon1 lat2 lon2 = None
  <-> ~ (0 <= float_a lat1 lon1 lat2 lon2 <= 1).
Proof.
  unfold haversine_checked, py_sqrt. cbv zeta.
  destruct (Rlt_dec (float_a lat1 lon1 lat2 lon2) 0) as [Hneg | Hpos].
  - split; [intros _; lra | reflexivity].
  - destruct (Rlt_dec (1 - float_a lat1 lon1 lat2 lon2) 0) as [Hbig | Hsmall].
    + split; [intros _; lra | reflexivity].
    + split; [discriminate | intros Hout; exfalso; apply Hout; lra].
Qed.

Lemma haversine_checked_range (lat1 lon1 lat2 lon2 d : R) :
  haversine_checked float_a lat1 lon1 lat2 lon2 = Some d -> 0 <= d <= 6371 * PI.
Proof.
  unfold haversine_checked, py_sqrt. cbv zeta.
  destruct (Rlt_dec (float_a lat1 lon1 lat2 lon2) 0); [discriminate|].
  destruct (Rlt_dec (1 - float_a lat1 lon1 lat2 lon2) 0); [discriminate|].
  intros [= <-].
  pose proof (atan2_nonneg (sqrt (float_a lat1 lon1 lat2 lon2))
                (sqrt (1 - float_a lat1 lon1 lat2 lon2)) (sqrt_pos _) (sqrt_pos _)) as Hlo.
  pose proof (atan2_quadrant (sqrt (float_a lat1 lon1 lat2 lon2))
                (sqrt (1 - float_a lat1 lon1 lat2 lon2)) (sqrt_pos _) (sqrt_pos _)) as Hhi.
  lra.
Qed.

Lemma checked_distance_some (s : Stop) (d : R) :
  haversine_checked float_a lat0 lng0 (lat s) (lng s) = Some d ->
  checked_distance float_a lat0 lng0 s = d.
Proof. unfold checked_distance. intros ->. reflexivity. Qed.

(** An entry of the list: the stop, and its distance rounded. *)
Let entry_of (x : NearStop) : Prop :=
  haversine_checked float_a lat0 lng0 (lat (near_stop x)) (lng (near_stop x))
  = Some (checked_distance float_a lat0 lng0 (near_stop x))
  /\ near_distance_km x
     = PyMath.round_to (checked_distance float_a lat0 lng0 (near_stop x)) 2.

Lemma stops_with_dist_some (stops : list Stop) (entries : list NearStop) :
  stops_with_dist float_a lat0 lng0 stops = Some entries ->
  List.map near_stop entries = stops /\ Forall entry_of entries.
Proof.
  revert entries. induction stops as [|s stops IH]; intros entries; simpl.
  - intros [= <-]. split; [reflexivity | constructor].
  - destruct (haversine_checked float_a lat0 lng0 (lat s) (lng s)) as [d|] eqn:Hd;
      [|discriminate].
    destruct (stops_with_dist float_a lat0 lng0 stops) as [rest|]; [|discriminate].
    intros [= <-]. destruct (IH rest eq_refl) as [Hmap Hall].
    split; [simpl; rewrite Hmap; reflexivity|].
    constructor; [|exact Hall].
    unfold entry_of. cbn [near_stop near_distance_km].
    rewrite (checked_distance_some s d Hd). split; [exact Hd | reflexivity].
Qed.

Lemma stops_with_dist_none (stops : list Stop) :
  stops_with_dist float_a lat0 lng0 stops = None
  <-> exists s, In s stops /\ haversine_checked float_a lat0 lng0 (lat s) (lng s) = None.
Proof.
  induction stops as [|s stops IH]; simpl.
  - split; [discriminate | intros (s & [] & _)].
  - destruct (haversine_checked float_a lat0 lng0 (lat s) (lng s)) as [d|] eqn:Hd.
    + destruct (stops_with_dist float_a lat0 lng0 stops) as [rest|].
      * split; [discriminate|]. intros (s' & [<- | Hs'] & Hnone); [congruence|].
        assert (Hsome : Some rest = None) by (apply IH; eauto). discriminate Hsome.
      * split; [|reflexivity]. intros _.
        destruct (proj1 IH eq_refl) as (s' & Hs' & Hnone). eauto.
    + split; [|reflexivity]. intros _. exists s. auto.
Qed.

Lemma nearest_checked_error (limit : Z) :
  get_nearest_stops_checked float_a lat0 lng0 limit
  = HTTPException 500 "Internal Server Error"
  <-> stops_with_dist float_a lat0 lng0 BUS_STOPS = None.
Proof.
  unfold get_nearest_stops_checked.
  destruct (stops_with_dist float_a lat0 lng0 BUS_STOPS) as [entries|].
  - split; discriminate.
  - split; reflexivity.
Qed.

Lemma nearest_checked_ok (limit : Z) (result : list NearStop) :
  get_nearest_stops_checked float_a lat0 lng0 limit = Ok result ->
  exists entries,
    stops_with_dist float_a lat0 lng0 BUS_STOPS = Some entries
    /\ result
       = py_prefix limit
           (py_sort (fun x y => PyMath.Rleb (near_distance_km x) (near_distance_km y))
              entries).
Proof.
  unfold get_nearest_stops_checked.
  destruct (stops_with_dist float_a lat0 lng0 BUS_STOPS) as [entries|]; [|discriminate].
  intros [= <-]. eauto.
Qed.

End CheckedDistance.

Section ExactDistance.
Variables lat0 lng0 : R.
Local Open Scope R_scope.

Lemma haversine_checked_exact (lat1 lon1 lat2 lon2 : R) :
  haversine_checked haversine_a lat1 lon1 lat2 lon2 = Some (haversine lat1 lon1 lat2 lon2).
Proof.
  unfold haversine_checked, py_sqrt. cbv zeta.
  pose proof (haversine_a_ge_0 lat1 lon1 lat2 lon2) as Hlo.
  pose proof (haversine_a_le_1 lat1 lon1 lat2 lon2) as Hhi.
  destruct (Rlt_dec (haversine_a lat1 lon1 lat2 lon2) 0); [lra|].
  destruct (Rlt_dec (1 - haversine_a lat1 lon1 lat2 lon2) 0); [lra|].
  rewrite haversine_unfold. reflexivity.
Qed.

Lemma stops_with_dist_exact (stops : list Stop) :
  stops_with_dist haversine_a lat0 lng0 stops
  = Some (List.map (with_distance lat0 lng0) stops).
Proof.
  induction stops as [|s stops IH]; [reflexivity|].
  cbn [stops_with_dist List.map]. rewrite haversine_checked_exact, IH. reflexivity.
Qed.

Lemma nearest_checked_exact (limit : Z) :
  get_nearest_stops_checked haversine_a lat0 lng0 limit
  = Ok (get_nearest_stops lat0 lng0 limit).
Proof.
  unfold get_nearest_stops_checked. rewrite stops_with_dist_exact.
  unfold get_nearest_stops. reflexivity.
Qed.

End ExactDistance.

(** C2, amended.  [get_nearest_stops] fails, with a math domain error that
    the server answers with status 500, exactly when for some stop of the
    catalog the computed [a] lies outside [0, 1]; with the exact value of [a]
    that never happens, and the answer is the one of the model without
    errors.  Whenever it returns, the stops are ordered by non-decreasing
    distance rounded to 2 decimals, each with that rounded distance; stops
    with the same rounded distance keep the order of the catalog; in terms
    of the unrounded distance a stop stands behind another one, or is left
    out, only if it is at most 0.01 km closer; and the rounded distance of
    every returned stop is at most that of every stop left out. *)
Theorem nearest_stops_ranked_by_rounded_distance
    (float_a : R -> R -> R -> R -> R) (lat0 lng0 : R) (limit : Z) :
  (get_nearest_stops_checked float_a lat0 lng0 limit
   = HTTPException 500 "Internal Server Error"
   <-> exists s, In s BUS_STOPS
                 /\ ~ (0 <= float_a lat0 lng0 (lat s) (lng s) <= 1)%R)
  /\ get_nearest_stops_checked haversine_a lat0 lng0 limit
     = Ok (get_nearest_stops lat0 lng0 limit)
  /\ forall result,
       get_nearest_stops_checked float_a lat0 lng0 limit = Ok result ->
       StronglySorted (fun x y => (near_distance_km x <= near_distance_km y)%R) result
       /\ (forall x, In x result ->
             In (near_stop x) BUS_STOPS
             /\ haversine_checked float_a lat0 lng0 (lat (near_stop x)) (lng (near_stop x))
                = Some (checked_distance float_a lat0 lng0 (near_stop x))
             /\ near_distance_km x
                = PyMath.round_to (checked_distance float_a lat0 lng0 (near_stop x)) 2)
       /\ (forall x y,
             precedes x y result ->
             (checked_distance float_a lat0 lng0 (near_stop x)
              <= checked_distance float_a lat0 lng0 (near_stop y) + 0.01)%R
             /\ (near_distance_km x = near_distance_km y ->
                 precedes (near_stop x) (near_stop y) BUS_STOPS))
       /\ (forall x s,
             In x result -> In s BUS_STOPS -> ~ In s (List.map near_stop result) ->
             (near_distance_km x
              <= PyMath.round_to (checked_distance float_a lat0 lng0 s) 2)%R
             /\ (checked_distance float_a lat0 lng0 (near_stop x)
                 <= checked_distance float_a lat0 lng0 s + 0.01)%R
             /\ (near_distance_km x
                 = PyMath.round_to (checked_distance float_a lat0 lng0 s) 2 ->
                 precedes (near_stop x) s BUS_STOPS)).
Proof.
  split; [|split].
  - rewrite nearest_checked_error, stops_with_dist_none. split.
    + intros (s & Hs & Hnone). exists s. split; [exact Hs|].
      apply haversine_checked_none, Hnone.
    + intros (s & Hs & Hout). exists s. split; [exact Hs|].
      apply haversine_checked_none, Hout.
  - apply nearest_checked_exact.
  - intros result Hok. apply nearest_checked_ok in Hok.
    destruct Hok as (entries & Hentries & ->).
    apply stops_with_dist_some in Hentries. destruct Hentries as [Hmap Hall].
    rewrite List.Forall_forall in Hall.
    assert (Hnodup : List.NoDup entries).
    { apply (NoDup_map_inv near_stop). rewrite Hmap. exact catalog_stops_distinct. }
    destruct (ranked_prefix near_distance_km entries limit Hnodup)
      as (Hsorted & Hfrom & Hbefore & Hout).
    set (result := py_prefix limit (py_sort _ entries)) in *.
    assert (Hnear : forall x, In x entries ->
              (near_distance_km x - 0.005
               <= checked_distance float_a lat0 lng0 (near_stop x)
               <= near_distance_km x + 0.005)%R).
    { intros x Hx. destruct (Hall x Hx) as [_ ->]. apply round_to_2_near. }
    split; [exact Hsorted|]. split; [|split].
    + intros x Hx. apply Hfrom in Hx. destruct (Hall x Hx) as [Hd Hkm].
      split; [|split; assumption]. rewrite <- Hmap. apply in_map, Hx.
    + intros x y Hxy. destruct (Hbefore x y Hxy) as [Hle Hties].
      destruct (precedes_In _ _ _ Hxy) as [Hx Hy]. apply Hfrom in Hx, Hy.
      pose proof (Hnear x Hx). pose proof (Hnear y Hy).
      split; [lra|]. intros Heq. rewrite <- Hmap. apply precedes_map, Hties, Heq.
    + intros x s Hx Hs Hnot.
      rewrite <- Hmap in Hs. apply in_map_iff in Hs. destruct Hs as (y & <- & Hy).
      assert (Hy' : ~ In y result) by (intros Hin; apply Hnot, in_map, Hin).
      destruct (Hout x y Hx Hy Hy') as [Hle Hties].
      destruct (Hall y Hy) as [_ Hkm]. rewrite <- Hkm.
      pose proof (Hnear x (Hfrom x Hx)). pose proof (Hnear y Hy).
      split; [exact Hle|]. split; [lra|].
      intros Heq. rewrite <- Hmap. apply precedes_map, Hties, Heq.
Qed.

(** X15. Whenever [get_nearest_stops] returns, it returns [limit] of the 80
    stops, all 80 when the limit is larger, none for a limit of 0, and for a
    negative limit all but the last [-limit] of them, and no stop twice.  All
    80 distances are computed before the slice is taken, so a coordinate at
    which it fails makes it fail for every limit, 0 included; with the exact
    value of [a] it returns for every coordinate. *)
Theorem nearest_stops_count
    (float_a : R -> R -> R -> R -> R) (lat0 lng0 : R) (limit : Z) :
  (forall result,
      get_nearest_stops_checked float_a lat0 lng0 limit = Ok result ->
      Z.of_nat (List.length result)
      = (if limit <? 0 then Z.max 0 (80 + limit) else Z.min limit 80)
      /\ List.NoDup (List.map (fun x => stop_id (near_stop x)) result))
  /\ (get_nearest_stops_checked float_a lat0 lng0 limit
      = HTTPException 500 "Internal Server Error" ->
      forall other,
        get_nearest_stops_checked float_a lat0 lng0 other
        = HTTPException 500 "Internal Server Error")
  /\ (exists result, get_nearest_stops_checked haversine_a lat0 lng0 limit = Ok result).
Proof.
  split; [|split].
  - intros result Hok. apply nearest_checked_ok in Hok.
    destruct Hok as (entries & Hentries & ->).
    apply stops_with_dist_some in Hentries. destruct Hentries as [Hmap _].
    split.
    + rewrite py_prefix_length_eq, py_sort_length.
      rewrite <- (List.length_map near_stop entries), Hmap, catalog_size. reflexivity.
    + set (by_displayed := fun x y => PyMath.Rleb (near_distance_km x) (near_distance_km y)).
      destruct (py_prefix_split limit (py_sort by_displayed entries)) as [rest Hsplit].
      assert (Hfull : List.NoDup (List.map (fun x => stop_id (near_stop x))
                                    (py_sort by_displayed entries))).
      { apply (Stdlib.Sorting.Permutation.Permutation_NoDup
                 (l := List.map stop_id BUS_STOPS)); [|exact stop_ids_distinct].
        rewrite <- Hmap, List.map_map.
        apply Permutation_map, Permutation_sym, py_sort_perm. }
      rewrite Hsplit, List.map_app in Hfull. exact (NoDup_app_remove_r _ _ Hfull).
  - intros Hfail other. apply nearest_checked_error. apply nearest_checked_error in Hfail.
    exact Hfail.
  - eexists. apply nearest_checked_exact.
Qed.

(** X16. [haversine] raises its math domain error exactly when the computed
    [a] is negative or above 1, and a distance it returns lies between 0 and
    [6371 * PI].  The exact value of [a] always lies in [0, 1], is the same in
    both directions and is 0 from a point to itself, so an error can only come
    from the rounding of [a]; with the exact [a] the function returns the
    distance of the model without errors.  Where the computed [a] is the same
    in both directions so is the outcome, and where it is 0 the distance is
    0. *)
Theorem haversine_domain_and_range
    (float_a : R -> R -> R -> R -> R) (lat1 lon1 lat2 lon2 : R) :
  (haversine_checked float_a lat1 lon1 lat2 lon2 = None
   <-> (float_a lat1 lon1 lat2 lon2 < 0 \/ 1 < float_a lat1 lon1 lat2 lon2)%R)
  /\ (forall d, haversine_checked float_a lat1 lon1 lat2 lon2 = Some d ->
                (0 <= d <= 6371 * PI)%R)
  /\ ((0 <= haversine_a lat1 lon1 lat2 lon2 <= 1)%R
      /\ haversine_a lat1 lon1 lat2 lon2 = haversine_a lat2 lon2 lat1 lon1
      /\ haversine_a lat1 lon1 lat1 lon1 = 0%R)
  /\ haversine_checked haversine_a lat1 lon1 lat2 lon2
     = Some (haversine lat1 lon1 lat2 lon2)
  /\ (float_a lat1 lon1 lat2 lon2 = float_a lat2 lon2 lat1 lon1 ->
      haversine_checked float_a lat1 lon1 lat2 lon2
      = haversine_checked float_a lat2 lon2 lat1 lon1)
  /\ (float_a lat1 lon1 lat2 lon2 = 0%R ->
      haversine_checked float_a lat1 lon1 lat2 lon2 = Some 0%R).
Proof.
  split; [|split; [|split; [|split; [|split]]]].
  - rewrite haversine_checked_none. split; intros Hout; lra.
  - intros d. apply haversine_checked_range.
  - split; [split; [apply haversine_a_ge_0 | apply haversine_a_le_1]|].
    split; [apply haversine_a_sym | apply haversine_a_same_point].
  - apply haversine_checked_exact.
  - intros Hsym. unfold haversine_checked. cbv zeta. rewrite Hsym. reflexivity.
  - intros Hzero. unfold haversine_checked, py_sqrt. cbv zeta. rewrite Hzero.
    destruct (Rlt_dec 0 0) as [Hlt | _]; [lra|].
    destruct (Rlt_dec (1 - 0) 0) as [Hlt | _]; [lra|].
    rewrite sqrt_0. replace (1 - 0)%R with 1%R by lra. rewrite sqrt_1.
    unfold PyMath.atan2. destruct (Rlt_dec 0 1) as [_ | Hn]; [|lra].
    replace (0 / 1)%R with 0%R by lra. rewrite atan_0. f_equal. lra.
Qed.
